(** * ratarmount: the stenciled file view, the SQLite index and the read path

    A shallow embedding of [ratarmount.py]: the classes [StenciledFile],
    [SQLiteIndexedTar] and [TarMount] are translated method by method.
    Python integers are [Z], numbers that can be floats are rationals, byte
    strings are [list byte], text strings are [string], dictionaries and SQL
    tables with a primary key are [gmap]s.
    Methods of a class take the object as an explicit state and return the
    outcome (a value or a raised exception) together with the new state. *)

From Stdlib Require Import ZArith QArith Qcanon Lia List Ascii String Strings.Byte.
From stdpp Require Import gmap strings list fin_maps.

Local Open Scope Z_scope.

(** ** Outcomes of Python calls *)

Inductive exn : Type :=
  | AssertionError
  | SeekBeforeStart      (* Exception("Trying to seek before the start of the file!") *)
  | OSError              (* the underlying file object refuses a negative position *)
  | IndexError
  | AttributeError        (* a method called on [None] *)
  | OperationalError      (* sqlite3.OperationalError *)
  | DatabaseError         (* sqlite3.DatabaseError: the file is not a database *)
  | ValueError
  | TypeError
  | KeyError
  | ReadError            (* tarfile.ReadError *)
  | PyException (msg : string)      (* a plain Exception( msg ) *)
  | ENOENT               (* fuse.FuseOSError( errno.ENOENT ) *)
  | RecursionError       (* the interpreter's recursion limit: the model ran out of fuel *)
  | LoopBudget.          (* a modelled while loop ran out of fuel *)

Inductive outcome (A : Type) : Type :=
  | Ok (a : A)
  | Raise (e : exn).
Arguments Ok {A} a.
Arguments Raise {A} e.

Definition is_ok {A} (o : outcome A) : bool :=
  match o with Ok _ => true | Raise _ => false end.

Abbreviation bytes := (list byte).

(** ** Python numbers

    A number that may be a [float] (a time of [os.stat], of a pax header
    or of a JSON text, a [REAL] of the database) is modelled by its value,
    a rational; what the code does with such a number, [==], [<] and
    [int()], is exact on the values, and SQLite stores a number without
    changing its value.  The values are the finite ones. *)
Definition number : Type := Qc.

Coercion Qc_of_Z : Z >-> Qc.

(** [int( x )]: the integer towards zero. *)
Definition py_int (x : number) : Z := Z.quot (Qnum x) (Zpos (Qden x)).

(** [l[i]] for a non-negative index. *)
Definition getitem (l : list Z) (i : nat) : outcome Z :=
  match l !! i with
  | Some x => Ok x
  | None => Raise IndexError
  end.

(** [l[-1]] of a list of integers; [0] stands for the empty list, which the
    callers never have. *)
Definition last_item (l : list Z) : Z := List.last l 0.

(** ** Seekable, readable file objects

    What the code calls [fileobj] or [tarFile]: a byte sequence with a
    cursor.  [seek] past the end is allowed, [read] there returns [b'']. *)

Record FileObj : Type := mkFileObj { f_data : bytes; f_pos : Z }.

Definition fseek (f : FileObj) (pos : Z) : outcome Z * FileObj :=
  if pos <? 0 then (Raise OSError, f)
  else (Ok pos, {| f_data := f_data f; f_pos := pos |}).

(** [read(n)]: at most [n] bytes from the cursor, everything left when [n < 0]. *)
Definition fread (f : FileObj) (n : Z) : bytes * FileObj :=
  let rest := drop (Z.to_nat (f_pos f)) (f_data f) in
  let out := if n <? 0 then rest else take (Z.to_nat n) rest in
  (out, {| f_data := f_data f; f_pos := f_pos f + Z.of_nat (length out) |}).

Definition ftell (f : FileObj) : Z := f_pos f.

(** ** class StenciledFile *)

Module StenciledFile.

Inductive whence : Type := SEEK_SET | SEEK_CUR | SEEK_END.

Record t : Type := mk {
  fileobj  : FileObj;
  offsets  : list Z;
  sizes    : list Z;
  cumsizes : list Z;
  offset   : Z
}.

Definition set_fileobj (self : t) (f : FileObj) : t :=
  mk f (offsets self) (sizes self) (cumsizes self) (offset self).
Definition set_offset (self : t) (o : Z) : t :=
  mk (fileobj self) (offsets self) (sizes self) (cumsizes self) o.

(** Python's [bisect.bisect_left(a, x)] on a sorted list: the number of
    leading elements smaller than [x]. *)
Fixpoint bisect_left (a : list Z) (x : Z) : nat :=
  match a with
  | [] => 0%nat
  | y :: a' => if y <? x then S (bisect_left a' x) else 0%nat
  end.

Definition _findStencil (self : t) (offset : Z) : outcome nat :=
  if offset <? 0 then Raise AssertionError
  else
    let i := Z.of_nat (bisect_left (cumsizes self) (offset + 1)) - 1 in
    if i <? 0 then Raise AssertionError else Ok (Z.to_nat i).

(** The [while] loop of [read]; [fuel] bounds the number of iterations. *)
Fixpoint read_loop (fuel : nat) (self : t) (size : Z) (i : nat) (result : bytes)
  : outcome bytes * t :=
  match fuel with
  | O => (Raise LoopBudget, self)
  | S fuel' =>
    if (0 <? size) && (Z.of_nat i <? Z.of_nat (length (sizes self))) then
      match getitem (sizes self) i, getitem (cumsizes self) i with
      | Ok sz, Ok cum =>
        let readableSize := Z.min size (sz - (offset self - cum)) in
        if readableSize =? 0 then
          let i := S i in
          if Z.of_nat (length (offsets self)) <=? Z.of_nat i then (Ok result, self)
          else
            match getitem (offsets self) i with
            | Ok o =>
              match fseek (fileobj self) o with
              | (Ok _, f) => read_loop fuel' (set_fileobj self f) size i result
              | (Raise e, f) => (Raise e, set_fileobj self f)
              end
            | Raise e => (Raise e, self)
            end
        else
          let '(tmp, f) := fread (fileobj self) readableSize in
          let self := set_offset (set_fileobj self f) (offset self + Z.of_nat (length tmp)) in
          read_loop fuel' self (size - readableSize) i (result ++ tmp)
      | Raise e, _ => (Raise e, self)
      | _, Raise e => (Raise e, self)
      end
    else (Ok result, self)
  end.

(** Every iteration either consumes a positive part of [size] or moves to
    the next stencil, so this many iterations are enough. *)
Definition read_fuel (self : t) (size : Z) : nat :=
  S (Z.to_nat size + length (sizes self)).

Definition read (self : t) (size : Z) : outcome bytes * t :=
  let size := if size =? -1 then last_item (cumsizes self) - offset self else size in
  match _findStencil self (offset self) with
  | Raise e => (Raise e, self)
  | Ok i => read_loop (read_fuel self size) self size i []
  end.

Definition seek (self : t) (offset : Z) (w : whence) : outcome Z * t :=
  let self :=
    match w with
    | SEEK_CUR => set_offset self (StenciledFile.offset self + offset)
    | SEEK_END => set_offset self (last_item (cumsizes self) + offset)
    | SEEK_SET => set_offset self offset
    end in
  if StenciledFile.offset self <? 0 then (Raise SeekBeforeStart, self)
  else if last_item (cumsizes self) <=? StenciledFile.offset self
  then (Ok (StenciledFile.offset self), self)
  else
    match _findStencil self (StenciledFile.offset self) with
    | Raise e => (Raise e, self)
    | Ok i =>
      match getitem (cumsizes self) i, getitem (sizes self) i, getitem (offsets self) i with
      | Ok cum, Ok sz, Ok o =>
        let offsetInsideStencil := StenciledFile.offset self - cum in
        if offsetInsideStencil <? 0 then (Raise AssertionError, self)
        else if sz <=? offsetInsideStencil then (Raise AssertionError, self)
        else
          match fseek (fileobj self) (o + offsetInsideStencil) with
          | (Ok _, f) => (Ok (StenciledFile.offset self), set_fileobj self f)
          | (Raise e, f) => (Raise e, set_fileobj self f)
          end
      | Raise e, _, _ => (Raise e, self)
      | _, Raise e, _ => (Raise e, self)
      | _, _, Raise e => (Raise e, self)
      end
    end.

Definition tell (self : t) : Z := offset self.

(** The loop of [__init__] that checks the stencils and accumulates
    [cumsizes]. *)
Fixpoint init_cumsizes (stencils : list (Z * Z)) (cum : list Z) : outcome (list Z) :=
  match stencils with
  | [] => Ok cum
  | (offset, size) :: rest =>
    if offset <? 0 then Raise AssertionError
    else if size <=? 0 then Raise AssertionError
    else init_cumsizes rest (cum ++ [last_item cum + size])
  end.

Definition __init__ (fileobj : FileObj) (stencils : list (Z * Z)) : outcome t :=
  match init_cumsizes stencils [0] with
  | Raise e => Raise e
  | Ok cum =>
    let self := mk fileobj (map fst stencils) (map snd stencils) cum 0 in
    match seek self 0 SEEK_SET with
    | (Ok _, self) => Ok self
    | (Raise e, _) => Raise e
    end
  end.

(** The states a [StenciledFile] object goes through: construction, then
    any sequence of [seek] and [read] calls, whatever their outcome. *)
Inductive reachable : t -> Prop :=
  | reach_init f stencils self :
      __init__ f stencils = Ok self -> reachable self
  | reach_seek self off w :
      reachable self -> reachable (snd (seek self off w))
  | reach_read self n :
      reachable self -> reachable (snd (read self n)).

(** What the virtual file is specified to contain. *)
Definition slice (data : bytes) (stencil : Z * Z) : bytes :=
  take (Z.to_nat (snd stencil)) (drop (Z.to_nat (fst stencil)) data).

Definition contents (data : bytes) (stencils : list (Z * Z)) : bytes :=
  concat (map (slice data) stencils).

(** The running totals of the sizes, from [start] on: [cumsizes] without
    its first entry. *)
Fixpoint running (start : Z) (sizes : list Z) : list Z :=
  match sizes with
  | [] => []
  | s :: sizes => (start + s) :: running (start + s) sizes
  end.

Definition total (sizes : list Z) : Z := fold_right Z.add 0 sizes.

(** A stencil the constructor accepts that lies inside the file. *)
Definition fits (data : bytes) (stencil : Z * Z) : Prop :=
  0 <= fst stencil /\ 0 < snd stencil
  /\ fst stencil + snd stencil <= Z.of_nat (length data).

(** The object is the one constructed over [data] with [stencils], in some
    state of reading. *)
Definition constructed (data : bytes) (stencils : list (Z * Z)) (self : t) : Prop :=
  offsets self = map fst stencils
  /\ sizes self = map snd stencils
  /\ cumsizes self = 0 :: running 0 (map snd stencils)
  /\ f_data (fileobj self) = data.

(** The fields set by the constructor are never assigned again. *)
Definition same_stencils (a b : t) : Prop :=
  offsets a = offsets b /\ sizes a = sizes b /\ cumsizes a = cumsizes b.

(** [cumsizes] starts with 0 and ends with a total that is not negative. *)
Definition cumsizes_ok (cum : list Z) : Prop :=
  (exists rest, cum = 0 :: rest) /\ 0 <= last_item cum.

End StenciledFile.

(** ** Python string methods used by the indexer *)

Module PyStr.

Definition is_sep (c : ascii) : bool := Ascii.eqb c "/".

(** [s.lstrip('/')] *)
Fixpoint lstrip (s : string) : string :=
  match s with
  | String c s' => if is_sep c then lstrip s' else s
  | EmptyString => EmptyString
  end.

(** [s.split('/')] *)
Fixpoint split (s : string) : list string :=
  match s with
  | EmptyString => [EmptyString]
  | String c s' =>
    if is_sep c then EmptyString :: split s'
    else match split s' with
         | h :: t => String c h :: t
         | [] => [String c EmptyString]
         end
  end.

(** ['/'.join(l)] *)
Definition join (l : list string) : string := String.concat "/" l.

(** [s.rsplit('/', 1)] unpacked into two names; [None] when [s] has no
    ['/'] and the unpacking raises [ValueError]. *)
Fixpoint rsplit1 (s : string) : option (string * string) :=
  match s with
  | EmptyString => None
  | String c s' =>
    match rsplit1 s' with
    | Some (p, n) => Some (String c p, n)
    | None => if is_sep c then Some (EmptyString, s') else None
    end
  end.

(** [s.endswith(suffix)] *)
Fixpoint endswith (s suffix : string) : bool :=
  String.eqb s suffix ||
  match s with
  | EmptyString => false
  | String _ s' => endswith s' suffix
  end.

(** [sub in s] *)
Fixpoint contains (s sub : string) : bool :=
  String.prefix sub s ||
  match s with
  | EmptyString => false
  | String _ s' => contains s' sub
  end.

(** [s.rstrip('/')] *)
Fixpoint rstrip (s : string) : string :=
  match s with
  | EmptyString => EmptyString
  | String c s' =>
    match rstrip s' with
    | EmptyString => if is_sep c then EmptyString else String c EmptyString
    | r => String c r
    end
  end.

(** [posixpath.normpath] of the Python standard library. *)
Definition normpath_step (initial_slashes : nat) (new_comps : list string) (comp : string)
  : list string :=
  if String.eqb comp "" || String.eqb comp "." then new_comps
  else if negb (String.eqb comp "..")
          || (Nat.eqb initial_slashes 0 && Nat.eqb (length new_comps) 0)
          || (negb (Nat.eqb (length new_comps) 0) && String.eqb (List.last new_comps "") "..")
  then new_comps ++ [comp]
  else removelast new_comps.

Definition normpath (path : string) : string :=
  if String.eqb path "" then "."
  else
    let initial_slashes :=
      if String.prefix "/" path then
        if String.prefix "//" path && negb (String.prefix "///" path) then 2%nat else 1%nat
      else 0%nat in
    let comps := fold_left (normpath_step initial_slashes) (split path) [] in
    let path := join comps in
    let path := String.append (join (replicate (S initial_slashes) "")) path in
    if String.eqb path "" then "." else path.

End PyStr.

(** ** Constants of the [stat] module *)

Module stat.
Definition S_IFMT_MASK : Z := 61440.  (* 0o170000 *)
Definition S_IFDIR : Z := 16384.      (* 0o040000 *)
Definition S_IFREG : Z := 32768.      (* 0o100000 *)
Definition S_IFLNK : Z := 40960.      (* 0o120000 *)
Definition S_IFCHR : Z := 8192.       (* 0o020000 *)
Definition S_IFIFO : Z := 4096.       (* 0o010000 *)
Definition S_IRUSR : Z := 256.
Definition S_IXUSR : Z := 64.
Definition S_IRGRP : Z := 32.
Definition S_IXGRP : Z := 8.
Definition S_IROTH : Z := 4.
Definition S_IXOTH : Z := 1.
Definition S_IWUSR : Z := 128.
Definition S_IWGRP : Z := 16.
Definition S_IWOTH : Z := 2.

Definition S_IFMT (mode : Z) : Z := Z.land mode S_IFMT_MASK.
Definition S_ISDIR (mode : Z) : bool := S_IFMT mode =? S_IFDIR.
Definition S_ISREG (mode : Z) : bool := S_IFMT mode =? S_IFREG.
Definition S_ISLNK (mode : Z) : bool := S_IFMT mode =? S_IFLNK.
End stat.

(** ** What the [tarfile] module hands to the indexer *)

Module tarfile.

Definition REGTYPE : byte := "0"%byte.
Definition AREGTYPE : byte := x00.
Definition LNKTYPE : byte := "1"%byte.
Definition SYMTYPE : byte := "2"%byte.
Definition CHRTYPE : byte := "3"%byte.
Definition BLKTYPE : byte := "4"%byte.
Definition DIRTYPE : byte := "5"%byte.
Definition FIFOTYPE : byte := "6"%byte.
Definition CONTTYPE : byte := "7"%byte.
Definition GNUTYPE_SPARSE : byte := "S"%byte.

Record TarInfo : Type := mkTarInfo {
  name : string;
  size : Z;
  mtime : number;    (* an [int], or a [float] from a pax header *)
  mode : Z;
  type : byte;
  linkname : string;
  uid : Z;
  gid : Z;
  offset : Z;        (* of the header *)
  offset_data : Z;
  sparse : bool      (* [self.sparse is not None] *)
}.

Definition isfile (ti : TarInfo) : bool :=
  Byte.eqb (type ti) REGTYPE || Byte.eqb (type ti) AREGTYPE
  || Byte.eqb (type ti) CONTTYPE || Byte.eqb (type ti) GNUTYPE_SPARSE.
Definition isdir (ti : TarInfo) : bool := Byte.eqb (type ti) DIRTYPE.
Definition issym (ti : TarInfo) : bool := Byte.eqb (type ti) SYMTYPE.
Definition ischr (ti : TarInfo) : bool := Byte.eqb (type ti) CHRTYPE.
Definition isfifo (ti : TarInfo) : bool := Byte.eqb (type ti) FIFOTYPE.
Definition issparse (ti : TarInfo) : bool := sparse ti.

(** The behaviour of [tarfile.open( fileobj = ... )] on the file object at
    its current position, and of iterating over the result.  The parser is
    a collaborator of the indexer, so its behaviour is an input of the
    model: either the open raises [ReadError], or the iteration yields the
    members in archive order.  With each member comes the position the
    file object is left at when the member is yielded, and what opening a
    TAR at this member's data would give in turn.  [tell_end] is the
    position when the iteration stops. *)
Inductive Scan : Type :=
  | NotATar
  | Tar (members : list Member) (tell_end : Z)
with Member : Type :=
  | mkMember (info : TarInfo) (tell : Z) (inner : Scan).

Definition info (m : Member) : TarInfo := let '(mkMember i _ _) := m in i.
Definition tell (m : Member) : Z := let '(mkMember _ p _) := m in p.
Definition inner (m : Member) : Scan := let '(mkMember _ _ s) := m in s.

End tarfile.

(** ** JSON values, as [json.loads] returns them *)

Module Json.

(** [None], a [bool], a finite number, [nan] or an infinity, a [str], a
    [list], and a [dict], given by the members of the object in the order
    of the text: a later member replaces an earlier one of the same name. *)
#[warnings="-register-all"]
Inductive t : Type :=
  | JNull
  | JBool (b : bool)
  | JNumber (x : number)
  | JNonFinite
  | JString (s : string)
  | JArray (items : list t)
  | JObject (members : list (string * t)).

(** [x == j] for a finite number [x]: [True] and [False] are the numbers
    1 and 0. *)
Definition eq_number (x : number) (j : t) : bool :=
  match j with
  | JNumber y => bool_decide (x = y)
  | JBool b => bool_decide (x = Qc_of_Z (if b then 1 else 0))
  | _ => false
  end.

(** [s == j] for a string [s]. *)
Definition eq_string (s : string) (j : t) : bool :=
  match j with
  | JString s' => String.eqb s s'
  | _ => false
  end.

End Json.

(** ** The SQLite index database *)

Module Sql.

(** A value read back from a column: [None], an [int], a [float], which
    can be infinite, a [str] or [bytes]. *)
Inductive value : Type :=
  | Null
  | Int (n : Z)
  | Real (x : number)
  | Infinity (negative : bool)
  | Text (s : string)
  | Blob (b : bytes).

(** The ["type"] column: the scan stores the header's type flag (a byte
    string), the synthesized folders get [int( tarfile.DIRTYPE )]. *)
Inductive type_col : Type :=
  | TypeFlag (b : byte)
  | TypeInt (n : Z).

Record FileRow : Type := mkFileRow {
  path : string;
  name : string;
  offsetheader : option Z;   (* [None]: an index written before the column existed *)
  offset : Z;
  size : Z;
  mtime : number;
  mode : Z;
  type : type_col;
  linkname : string;
  uid : Z;
  gid : Z;
  istar : bool;
  issparse : option bool     (* [None]: as for [offsetheader] *)
}.

Definition key (r : FileRow) : string * string := (path r, name r).

(** The type column says directory: the flag [DIRTYPE] or its number. *)
Definition type_is_dir (c : type_col) : bool :=
  match c with
  | TypeFlag b => Byte.eqb b "5"%byte
  | TypeInt n => n =? 5
  end.

(** A row of ["versions"]: name, version, major, minor, patch.  The
    tables are the ones that the code declares: the name and the version
    are texts, the three numbers are of any kind. *)
Definition VersionRow : Type := string * string * value * value * value.

(** A value of ["metadata"], a text as the table is declared, seen
    through [json.loads]: either the text does not parse, or it is read as
    a JSON value. *)
Inductive meta_value : Type :=
  | NotJson (text : string)
  | Json (j : Json.t).

(** What a file holds for SQLite: the tables of a database, or something
    else.  A table is [None] when it does not exist.  ["files"] and
    ["parentfolders"] have the primary key [(path, name)].  Of the seek
    tables of the decompressors only the existence matters here.  On a
    connection to a file that is no database every statement raises
    [DatabaseError]. *)
Inductive Db : Type :=
  | mkDb (files : option (gmap (string * string) FileRow))
         (filestmp : option (list FileRow))
         (parentfolders : option (gset (string * string)))
         (versions : option (list VersionRow))
         (metadata : option (list (string * meta_value)))
         (bzip2blocks : bool)
         (gzipindex : bool)
  | NotADatabase.

Definition files (db : Db) : option (gmap (string * string) FileRow) :=
  match db with mkDb f _ _ _ _ _ _ => f | NotADatabase => None end.
Definition filestmp (db : Db) : option (list FileRow) :=
  match db with mkDb _ f _ _ _ _ _ => f | NotADatabase => None end.
Definition parentfolders (db : Db) : option (gset (string * string)) :=
  match db with mkDb _ _ p _ _ _ _ => p | NotADatabase => None end.
Definition versions (db : Db) : option (list VersionRow) :=
  match db with mkDb _ _ _ v _ _ _ => v | NotADatabase => None end.
Definition metadata (db : Db) : option (list (string * meta_value)) :=
  match db with mkDb _ _ _ _ m _ _ => m | NotADatabase => None end.
Definition bzip2blocks (db : Db) : bool :=
  match db with mkDb _ _ _ _ _ b _ => b | NotADatabase => false end.
Definition gzipindex (db : Db) : bool :=
  match db with mkDb _ _ _ _ _ _ g => g | NotADatabase => false end.

Definition is_database (db : Db) : bool :=
  match db with mkDb _ _ _ _ _ _ _ => true | NotADatabase => false end.

(** The exception of a statement on a table that is not there. *)
Definition error (db : Db) : exn :=
  if is_database db then OperationalError else DatabaseError.

Definition empty : Db := mkDb None None None None None false false.

Definition flag_name (n : string) (b : bool) : list string :=
  if b then [n] else [].

Definition table_name {A} (n : string) (t : option A) : list string :=
  match t with Some _ => [n] | None => [] end.

(** [SELECT name FROM sqlite_master WHERE type = "table"], on a database. *)
Definition tables (db : Db) : list string :=
  table_name "files" (files db) ++ table_name "filestmp" (filestmp db)
  ++ table_name "parentfolders" (parentfolders db)
  ++ table_name "versions" (versions db) ++ table_name "metadata" (metadata db)
  ++ flag_name "bzip2blocks" (bzip2blocks db) ++ flag_name "gzipindex" (gzipindex db).

(** The writes to a table; they are made on a database only. *)
Definition set_files (db : Db) f : Db :=
  mkDb f (filestmp db) (parentfolders db) (versions db) (metadata db) (bzip2blocks db) (gzipindex db).
Definition set_filestmp (db : Db) f : Db :=
  mkDb (files db) f (parentfolders db) (versions db) (metadata db) (bzip2blocks db) (gzipindex db).
Definition set_parentfolders (db : Db) p : Db :=
  mkDb (files db) (filestmp db) p (versions db) (metadata db) (bzip2blocks db) (gzipindex db).
Definition set_versions (db : Db) v : Db :=
  mkDb (files db) (filestmp db) (parentfolders db) v (metadata db) (bzip2blocks db) (gzipindex db).
Definition set_metadata (db : Db) m : Db :=
  mkDb (files db) (filestmp db) (parentfolders db) (versions db) m (bzip2blocks db) (gzipindex db).

(** [INSERT OR REPLACE INTO "files"] and [INSERT OR IGNORE INTO "files"] *)
Definition insert_or_replace (r : FileRow) (t : gmap (string * string) FileRow) :=
  <[key r := r]> t.
Definition insert_or_ignore (r : FileRow) (t : gmap (string * string) FileRow) :=
  match t !! key r with
  | Some _ => t
  | None => <[key r := r]> t
  end.

End Sql.

(** Membership tests of Python ([x in l]) on strings and on pairs of strings. *)
Definition str_in (x : string) (l : list string) : bool :=
  existsb (String.eqb x) l.
Definition pair_in (p : string * string) (l : list (string * string)) : bool :=
  bool_decide (p ∈ l).

(** The file object handed to the indexer is a plain file or one of the two
    seekable decompressors, which carry the version of their module. *)
Inductive FileKind : Type :=
  | PlainFile
  | IndexedBzip2File (module_version : Sql.VersionRow)
  | IndexedGzipFile (module_version : Sql.VersionRow).

(** ** class SQLiteIndexedTar *)

Module SQLiteIndexedTar.

Record FileInfo : Type := mkFileInfo {
  offsetheader : Z;
  offset : Z;
  size : Z;
  mtime : number;
  mode : Z;
  type : Sql.type_col;
  linkname : string;
  uid : Z;
  gid : Z;
  istar : bool;
  issparse : bool
}.

Record t : Type := mk {
  tarFileName : string;
  mountRecursively : bool;
  indexFileName : option string;
  sqlConnection : option Sql.Db;
  parentFolderCache : list (string * string)
}.

Definition set_sqlConnection (self : t) c : t :=
  mk (tarFileName self) (mountRecursively self) (indexFileName self) c (parentFolderCache self).
Definition set_parentFolderCache (self : t) c : t :=
  mk (tarFileName self) (mountRecursively self) (indexFileName self) (sqlConnection self) c.
Definition set_tarFileName (self : t) n : t :=
  mk n (mountRecursively self) (indexFileName self) (sqlConnection self) (parentFolderCache self).

(** The index files on disk, by file name; a name that is not there
    opens as an empty database, as does [':memory:'].  The files are the
    ones that [sqlite3.connect] can open. *)
Definition Disk : Type := gmap string Sql.Db.

(** The connection is made in any case; the statements that follow it
    raise on a file that is no database. *)
Definition _openSqlDb (disk : Disk) (self : t) (filePath : option string)
  : outcome unit * t :=
  let db := match filePath with
            | Some p => default Sql.empty (disk !! p)
            | None => Sql.empty
            end in
  let self := set_sqlConnection self (Some db) in
  if Sql.is_database db then (Ok tt, self) else (Raise DatabaseError, self).

Definition indexIsLoaded (self : t) : outcome bool * t :=
  match sqlConnection self with
  | None => (Ok false, self)
  | Some db =>
    match Sql.files db with
    | Some _ => (Ok true, self)
    | None =>
      if Sql.is_database db
      then (Ok false, set_sqlConnection self None)   (* sqlite3.OperationalError *)
      else (Raise DatabaseError, self)
    end
  end.

(** [( "/".join( paths[:i] ), paths[i] ) for i in range( 1, len( paths ) )] *)
Definition parent_pairs (path : string) : list (string * string) :=
  let paths := PyStr.split path in
  omap (fun i => (fun x => (PyStr.join (take i paths), x)) <$> paths !! i)
       (seq 1 (length paths - 1)).

(** The rows handed to [executemany]: the ancestors not found in the cache. *)
Definition new_parent_folders (cache : list (string * string)) (path : string)
  : list (string * string) :=
  List.filter (fun p => negb (pair_in p cache)) (parent_pairs path).

(** [cache += paths], then the cut to the last 8 entries beyond 16. *)
Definition grow_cache (cache paths : list (string * string)) : list (string * string) :=
  let cache := cache ++ paths in
  if (16 <? Z.of_nat (length cache))
  then drop (length cache - 8) cache
  else cache.

Definition _tryAddParentFolders (self : t) (path : string) : outcome unit * t :=
  let paths := new_parent_folders (parentFolderCache self) path in
  match paths with
  | [] => (Ok tt, self)
  | _ :: _ =>
    let self := set_parentFolderCache self (grow_cache (parentFolderCache self) paths) in
    match sqlConnection self with
    | None => (Raise AttributeError, self)
    | Some db =>
      match Sql.parentfolders db with
      | None => (Raise (Sql.error db), self)
      | Some t =>
        (Ok tt, set_sqlConnection self
                  (Some (Sql.set_parentfolders db (Some (t ∪ list_to_set paths)))))
      end
    end
  end.

Definition _setFileInfo (self : t) (row : Sql.FileRow) : outcome unit * t :=
  match sqlConnection self with
  | None => (Raise AttributeError, self)
  | Some db =>
    match Sql.files db with
    | None => (Raise (Sql.error db), self)
    | Some t =>
      let self := set_sqlConnection self
                    (Some (Sql.set_files db (Some (Sql.insert_or_replace row t)))) in
      _tryAddParentFolders self (Sql.path row)
    end
  end.

(** The pair [k] of a path and a name names the folder [p]. *)
Definition names (k : string * string) (p : string) : Prop :=
  k.1 +:+ "/" +:+ k.2 = p.

(** A path of the ["path"] column: the root, or absolute. *)
Definition rooted (p : string) : Prop :=
  p = "" \/ exists rest, p = String "/" rest.

(** What holds of the tables all along a scan: the cache only holds pairs
    of the table of parent folders; the parent of a parent folder is the
    root or is a parent folder itself; and every row of ["files"] comes from
    a member and lies in the root, or in a folder of that table, or in the
    folder [pending], whose parents are about to be added. *)
Definition closed (pf : gset (string * string)) : Prop :=
  forall k, k ∈ pf -> k.1 = "" \/ exists k', k' ∈ pf /\ names k' k.1.

Definition scanning_pending (pending : string) (self : t) : Prop :=
  exists db rows pf,
    sqlConnection self = Some db
    /\ Sql.files db = Some rows
    /\ Sql.filestmp db = Some []
    /\ Sql.parentfolders db = Some pf
    /\ (forall k, k ∈ parentFolderCache self -> k ∈ pf)
    /\ closed pf
    /\ (forall k r, rows !! k = Some r ->
          Sql.key r = k
          /\ (exists b, Sql.type r = Sql.TypeFlag b)
          /\ (Sql.path r = "" \/ Sql.path r = pending
              \/ exists k', k' ∈ pf /\ names k' (Sql.path r))).

Definition scanning (self : t) : Prop := scanning_pending "" self.

(** The object holds a connection to a database. *)
Definition connected (self : t) : Prop :=
  exists db, sqlConnection self = Some db /\ Sql.is_database db = true.

(** *** createIndex *)

(** Step 1: without a loaded index, open the database and create the
    tables of the scan. *)
Definition createTables (db : Sql.Db) : Sql.Db :=
  Sql.set_parentfolders
    (Sql.set_filestmp (Sql.set_files db (Some ∅)) (Some [])) (Some ∅).

Definition already_has_table (db : Sql.Db) : bool :=
  existsb (fun n => str_in n (Sql.tables db)) ["files"; "filestmp"; "parentfolders"].

Definition createIndex_open (disk : Disk) (self : t) : outcome bool * t :=
  match indexIsLoaded self with
  | (Raise e, self) => (Raise e, self)
  | (Ok true, self) => (Ok false, self)
  | (Ok false, self) =>
    match _openSqlDb disk self (indexFileName self) with
    | (Raise e, self) => (Raise e, self)
    | (Ok _, self) =>
      match sqlConnection self with
      | None => (Raise AttributeError, self)
      | Some db =>
        if already_has_table db
        then (Raise (PyException "The index file already seems to contain a table."), self)
        else (Ok true, set_sqlConnection self (Some (createTables db)))
      end
    end
  end.

(** The mode with the file type bits of the header's type flag. *)
Definition member_mode (tarInfo : tarfile.TarInfo) : Z :=
  let mode := tarfile.mode tarInfo in
  let mode := if tarfile.isdir tarInfo then Z.lor mode stat.S_IFDIR else mode in
  let mode := if tarfile.isfile tarInfo then Z.lor mode stat.S_IFREG else mode in
  let mode := if tarfile.issym tarInfo then Z.lor mode stat.S_IFLNK else mode in
  let mode := if tarfile.ischr tarInfo then Z.lor mode stat.S_IFCHR else mode in
  let mode := if tarfile.isfifo tarInfo then Z.lor mode stat.S_IFIFO else mode in
  mode.

(** The mode of a member that turned out to be a TAR: a directory,
    executable where readable. *)
Definition directory_mode (mode : Z) : Z :=
  let mode := Z.lor (Z.land mode 511) stat.S_IFDIR in
  let mode := if negb (Z.land mode stat.S_IRUSR =? 0) then Z.lor mode stat.S_IXUSR else mode in
  let mode := if negb (Z.land mode stat.S_IRGRP =? 0) then Z.lor mode stat.S_IXGRP else mode in
  let mode := if negb (Z.land mode stat.S_IROTH =? 0) then Z.lor mode stat.S_IXOTH else mode in
  mode.

Definition member_fullPath (pathPrefix : string) (tarInfo : tarfile.TarInfo) : string :=
  pathPrefix +:+ "/" +:+ PyStr.lstrip (PyStr.normpath (tarfile.name tarInfo)).

Definition is_streamed (kind : FileKind) : bool :=
  match kind with PlainFile => false | _ => true end.

(** The tuple [fileInfo] of the loop body. *)
Definition member_row (path name : string) (streamOffset : Z) (tarInfo : tarfile.TarInfo)
           (mode : Z) (isTar : bool) : Sql.FileRow :=
  Sql.mkFileRow path name
    (Some (streamOffset + tarfile.offset tarInfo))
    (streamOffset + tarfile.offset_data tarInfo)
    (tarfile.size tarInfo) (tarfile.mtime tarInfo) mode
    (Sql.TypeFlag (tarfile.type tarInfo)) (tarfile.linkname tarInfo)
    (tarfile.uid tarInfo) (tarfile.gid tarInfo) isTar
    (Some (tarfile.issparse tarInfo)).

Definition State : Type := t * FileObj.

(** Step 4: the descent into a contained TAR.  [descend] is the recursive
    call of [createIndex] on this member; the result is the mode and the
    [isTar] flag of the member. *)
Definition recurse_into
           (descend : t -> FileObj -> string -> Z -> outcome unit * State)
           (streamed : bool) (self : t) (fileObject : FileObj)
           (tarInfo : tarfile.TarInfo) (mode : Z) (fullPath : string) (globalOffset : Z)
  : outcome (Z * bool) * State :=
  if mountRecursively self && tarfile.isfile tarInfo
     && PyStr.endswith (tarfile.name tarInfo) ".tar"
  then
    let oldPos := ftell fileObject in
    match fseek fileObject globalOffset with
    | (Raise e, fileObject) => (Raise e, (self, fileObject))
    | (Ok _, fileObject) =>
      let oldPrintName := tarFileName self in
      let self := set_tarFileName self (PyStr.lstrip (tarfile.name tarInfo)) in
      match descend self fileObject fullPath (if streamed then globalOffset else 0) with
      | (Ok _, (self, fileObject)) =>
        let self := set_tarFileName self oldPrintName in
        match fseek fileObject oldPos with
        | (Raise e, fileObject) => (Raise e, (self, fileObject))
        | (Ok _, fileObject) => (Ok (directory_mode mode, true), (self, fileObject))
        end
      | (Raise ReadError, (self, fileObject)) =>
        let self := set_tarFileName self oldPrintName in
        match fseek fileObject oldPos with
        | (Raise e, fileObject) => (Raise e, (self, fileObject))
        | (Ok _, fileObject) => (Ok (mode, false), (self, fileObject))
        end
      | (Raise e, st) => (Raise e, st)
      end
    end
  else (Ok (mode, false), (self, fileObject)).

(** The body of the loop over the members. *)
Definition index_member
           (descend : t -> FileObj -> string -> Z -> outcome unit * State)
           (streamed : bool) (self : t) (fileObject : FileObj)
           (pathPrefix : string) (streamOffset : Z) (tarInfo : tarfile.TarInfo)
  : outcome unit * State :=
  let globalOffset := streamOffset + tarfile.offset_data tarInfo in
  let mode := member_mode tarInfo in
  let fullPath := member_fullPath pathPrefix tarInfo in
  match recurse_into descend streamed self fileObject tarInfo mode fullPath globalOffset with
  | (Raise e, st) => (Raise e, st)
  | (Ok (mode, isTar), (self, fileObject)) =>
    match PyStr.rsplit1 fullPath with
    | None => (Raise ValueError, (self, fileObject))
    | Some (path, name) =>
      let '(r, self) :=
        _setFileInfo self (member_row path name streamOffset tarInfo mode isTar) in
      (r, (self, fileObject))
    end
  end.

(** Step 5: the rows of ["filestmp"] go to ["files"], then every parent
    folder without a row of its own gets one.  Both tables are keyed, so
    the order of the two [SELECT]s only matters among rows of one key,
    where it is the order of insertion. *)
Definition synthesized_row (k : string * string) : Sql.FileRow :=
  Sql.mkFileRow k.1 k.2 (Some 0) 0 1 0 (Z.lor 365 stat.S_IFDIR) (Sql.TypeInt 5) "" 0 0
                false (Some false).

Definition cleanupDatabase (db : Sql.Db) : outcome Sql.Db :=
  match Sql.files db, Sql.filestmp db, Sql.parentfolders db with
  | Some f, Some tmp, Some pf =>
    let f := fold_left (fun t r => Sql.insert_or_replace r t) tmp f in
    let f := fold_left (fun t k => Sql.insert_or_ignore (synthesized_row k) t) (elements pf) f in
    Ok (Sql.set_parentfolders (Sql.set_filestmp (Sql.set_files db (Some f)) None) None)
  | _, _, _ => Raise (Sql.error db)
  end.

(** Step 6: the versions.  ['0.5.0'] is the version of the program,
    ['0.2.0'] the one of the index format. *)
Definition program_versions : list Sql.VersionRow :=
  [ ("ratarmount", "0.5.0", Sql.Int 0, Sql.Int 5, Sql.Int 0);
    ("index", "0.2.0", Sql.Int 0, Sql.Int 2, Sql.Int 0) ].

Definition module_versions (kind : FileKind) : list Sql.VersionRow :=
  match kind with
  | PlainFile => []
  | IndexedBzip2File v => [v]
  | IndexedGzipFile v => [v]
  end.

(** Both statements are in a [try]: a failure only prints a warning. *)
Definition add_versions (kind : FileKind) (db : Sql.Db) : Sql.Db :=
  let existing := default [] (Sql.versions db) in   (* CREATE TABLE fails on an existing one *)
  if Sql.is_database db
  then Sql.set_versions db (Some (existing ++ program_versions ++ module_versions kind))
  else db.

Definition finish_index (kind : FileKind) (openedConnection : bool) (self : t)
  : outcome unit * t :=
  match sqlConnection self with
  | None => (Raise AttributeError, self)
  | Some db =>
    match (if openedConnection then cleanupDatabase db else Ok db) with
    | Raise e => (Raise e, self)
    | Ok db => (Ok tt, set_sqlConnection self (Some (add_versions kind db)))
    end
  end.

(** The structure of the recursion is the one of the source: the loop
    over the members calls [createIndex] on a member's data. *)
Fixpoint createIndex (scan : tarfile.Scan) (disk : Disk) (kind : FileKind)
         (self : t) (fileObject : FileObj) (pathPrefix : string) (streamOffset : Z)
         {struct scan} : outcome unit * State :=
  match createIndex_open disk self with
  | (Raise e, self) => (Raise e, (self, fileObject))
  | (Ok openedConnection, self) =>
    match scan with
    | tarfile.NotATar => (Raise ReadError, (self, fileObject))
    | tarfile.Tar members tell_end =>
      let scanned :=
        (fix loop (members : list tarfile.Member) (self : t) (fileObject : FileObj)
           : outcome unit * State :=
           match members with
           | [] => (Ok tt, (self, mkFileObj (f_data fileObject) tell_end))
           | tarfile.mkMember tarInfo tell inner :: members =>
             let fileObject := mkFileObj (f_data fileObject) tell in
             match index_member (createIndex inner disk kind) (is_streamed kind)
                                self fileObject pathPrefix streamOffset tarInfo with
             | (Ok _, (self, fileObject)) => loop members self fileObject
             | (Raise e, st) => (Raise e, st)
             end
           end) members self fileObject in
      match scanned with
      | (Ok _, (self, fileObject)) | (Raise ReadError, (self, fileObject)) =>
        let '(r, self) := finish_index kind openedConnection self in
        (r, (self, fileObject))
      | (Raise e, st) => (Raise e, st)
      end
    end
  end.

(** What the loop body needs of the recursive call: started during a scan
    under an absolute prefix, it ends during that scan, whether it returns or
    raises [ReadError]. *)
Definition preserves_scanning
           (descend : t -> FileObj -> string -> Z -> outcome unit * State) : Prop :=
  forall self fileObject pathPrefix streamOffset r self' fileObject',
    scanning self -> rooted pathPrefix ->
    descend self fileObject pathPrefix streamOffset = (r, (self', fileObject')) ->
    r = Ok tt \/ r = Raise ReadError ->
    scanning self'.

(** The loop of [createIndex] by itself, for stating what an iteration
    does. *)
Fixpoint scan_members (disk : Disk) (kind : FileKind) (pathPrefix : string)
         (streamOffset tell_end : Z) (members : list tarfile.Member)
         (self : t) (fileObject : FileObj) : outcome unit * State :=
  match members with
  | [] => (Ok tt, (self, mkFileObj (f_data fileObject) tell_end))
  | tarfile.mkMember tarInfo tell inner :: members =>
    let fileObject := mkFileObj (f_data fileObject) tell in
    match index_member (createIndex inner disk kind) (is_streamed kind)
                       self fileObject pathPrefix streamOffset tarInfo with
    | (Ok _, (self, fileObject)) =>
      scan_members disk kind pathPrefix streamOffset tell_end members self fileObject
    | (Raise e, st) => (Raise e, st)
    end
  end.

(** The row that the loop body records for a member it does not descend
    into; [None] when the full path cannot be split. *)
Definition plain_row (pathPrefix : string) (streamOffset : Z) (tarInfo : tarfile.TarInfo)
  : option Sql.FileRow :=
  match PyStr.rsplit1 (member_fullPath pathPrefix tarInfo) with
  | Some (path, name) =>
    Some (member_row path name streamOffset tarInfo (member_mode tarInfo) false)
  | None => None
  end.

(** *** _storeTarMetadata and loadIndex *)

(** [os.stat( self.tarFileName )]: the two attributes the validation looks
    at, and the other [st_] attributes. *)
Record Stat : Type := mkStat {
  st_size : Z;
  st_mtime : number;                (* a [float] *)
  st_other : list (string * number)
}.

(** The text that [json.dumps] writes, by what [json.loads] reads from
    it: the object of the attributes. *)
Definition serializedTarStats (tarStats : Stat) : Sql.meta_value :=
  Sql.Json (Json.JObject
              (("st_size", Json.JNumber (st_size tarStats))
               :: ("st_mtime", Json.JNumber (st_mtime tarStats))
               :: map (fun attr : string * number => (attr.1, Json.JNumber attr.2))
                      (st_other tarStats))).

(** Any failure only prints a warning. *)
Definition _storeTarMetadata (self : t) (tarStats : Stat) : t :=
  match sqlConnection self with
  | None => self
  | Some db =>
    match Sql.metadata db with
    | Some _ => self     (* CREATE TABLE "metadata" fails *)
    | None =>
      if Sql.is_database db
      then set_sqlConnection self
             (Some (Sql.set_metadata db (Some [("tarstats", serializedTarStats tarStats)])))
      else self
    end
  end.

(** [versions[row[0]] = ( row[2], row[3], row[4] )] for every row; [None]
    when the [SELECT] fails because there is no such table. *)
Definition load_versions (db : Sql.Db)
  : option (gmap string (Sql.value * Sql.value * Sql.value)) :=
  match Sql.versions db with
  | None => None
  | Some rows =>
    Some (fold_left (fun d (row : Sql.VersionRow) =>
                       let '(n, _, major, minor, patch) := row in
                       <[n := (major, minor, patch)]> d) rows ∅)
  end.

(** [x < 2] for a value read from the database. *)
Definition lt_2 (x : Sql.value) : outcome bool :=
  match x with
  | Sql.Int n => Ok (n <? 2)
  | Sql.Real x => Ok (bool_decide (x < Qc_of_Z 2)%Qc)
  | Sql.Infinity negative => Ok negative
  | Sql.Null | Sql.Text _ | Sql.Blob _ => Raise TypeError
  end.

Definition outdated_warning : string :=
  "[Warning] The found outdated index does not contain any sparse file information.".

(** The condition of the warning about indexes without sparse support. *)
Definition check_outdated (tables : list string)
           (versions : option (gmap string (Sql.value * Sql.value * Sql.value)))
  : outcome (list string) :=
  if negb (str_in "versions" tables) then Ok [outdated_warning]
  else
    match versions with
    | None => Raise TypeError
    | Some versions =>
      match versions !! "index" with
      | None => Ok [outdated_warning]
      | Some (_, minor, _) =>
        match lt_2 minor with
        | Raise e => Raise e
        | Ok true => Ok [outdated_warning]
        | Ok false => Ok []
        end
      end
    end.

Definition dict_of {A B} (f : A -> B) (rows : list (string * A)) : gmap string B :=
  fold_left (fun d (row : string * A) => <[row.1 := f row.2]> d) rows ∅.

(** The object [values]: the dictionary of the rows of ["metadata"], or
    what [json.loads] made of the value of ["tarstats"]. *)
Inductive stat_values : Type :=
  | Rows (d : gmap string Sql.meta_value)
  | Loaded (j : Json.t).

(** [key in values] *)
Definition has_key (values : stat_values) (key : string) : outcome bool :=
  match values with
  | Rows d => Ok (bool_decide (is_Some (d !! key)))
  | Loaded (Json.JObject members) => Ok (bool_decide (is_Some (dict_of id members !! key)))
  | Loaded (Json.JArray items) => Ok (existsb (Json.eq_string key) items)
  | Loaded (Json.JString s) => Ok (PyStr.contains s key)
  | Loaded _ => Raise TypeError          (* not iterable *)
  end.

(** [x != values[key]], for a [key in values]; a text of a row is no
    number. *)
Definition differs (x : number) (values : stat_values) (key : string) : outcome bool :=
  match values with
  | Rows d => Ok true
  | Loaded (Json.JObject members) =>
    match dict_of id members !! key with
    | Some j => Ok (negb (Json.eq_number x j))
    | None => Raise KeyError
    end
  | Loaded _ => Raise TypeError          (* indices must be integers *)
  end.

(** [key in values and x != values[key]] *)
Definition has_changed (x : number) (values : stat_values) (key : string) : outcome bool :=
  match has_key values key with
  | Raise e => Raise e
  | Ok false => Ok false
  | Ok true => differs x values key
  end.

Definition check_metadata (db : Sql.Db) (tarStats : Stat) : outcome unit :=
  match Sql.metadata db with
  | None => Ok tt
  | Some rows =>
    let values := dict_of id rows in
    let loaded :=
      match values !! "tarstats" with
      | None => Ok (Rows values)
      | Some (Sql.Json j) => Ok (Loaded j)
      | Some (Sql.NotJson _) => Raise ValueError      (* json.JSONDecodeError *)
      end in
    match loaded with
    | Raise e => Raise e
    | Ok values =>
      match has_changed (st_size tarStats) values "st_size" with
      | Raise e => Raise e
      | Ok true => Raise (PyException "TAR file for this SQLite index has changed size")
      | Ok false =>
        match has_changed (st_mtime tarStats) values "st_mtime" with
        | Raise e => Raise e
        | Ok true => Raise (PyException "The modification date for the TAR file has changed")
        | Ok false => Ok tt
        end
      end
    end
  end.

(** The [try] block of [loadIndex]; the result is what was printed. *)
Definition validate_index (db : Sql.Db) (tarStats : Stat) : outcome (list string) :=
  let tables := Sql.tables db in
  let versions := load_versions db in
  if str_in "bzip2blocks" tables && negb (str_in "versions" tables)
  then Raise (PyException "The indexes created with version 0.3.0 through 0.3.3 for bzip2 compressed archives are very likely to be wrong because of a bzip2 decoder bug.")
  else if negb (str_in "files" tables)
  then Raise (PyException "SQLite index is empty")
  else if str_in "filestmp" tables || str_in "parentfolders" tables
  then Raise (PyException "SQLite index is incomplete")
  else
    match check_outdated tables versions with
    | Raise e => Raise e
    | Ok printed =>
      match check_metadata db tarStats with
      | Raise e => Raise e
      | Ok _ => Ok printed
      end
    end.

(** Opening the database and listing its tables comes before the [try]:
    what is raised there leaves the connection as it is. *)
Definition loadIndex (disk : Disk) (self : t) (indexFileName : string) (tarStats : Stat)
  : outcome (list string) * t :=
  match indexIsLoaded self with
  | (Raise e, self) => (Raise e, self)
  | (Ok true, self) => (Ok [], self)
  | (Ok false, self) =>
    match _openSqlDb disk self (Some indexFileName) with
    | (Raise e, self) => (Raise e, self)
    | (Ok _, self) =>
      match sqlConnection self with
      | None => (Raise AttributeError, self)
      | Some db =>
        match validate_index db tarStats with
        | Raise e => (Raise e, set_sqlConnection self None)
        | Ok printed => (Ok printed, self)
        end
      end
    end
  end.

(** The conditions of a rejection, on the rows of the tables.  A
    dictionary that is filled row by row holds, for a key, the value of
    the last row with this key. *)
Fixpoint assoc_last {A} (k : string) (rows : list (string * A)) : option A :=
  match rows with
  | [] => None
  | (k', v) :: rows =>
    match assoc_last k rows with
    | Some v' => Some v'
    | None => if String.eqb k' k then Some v else None
    end
  end.

Definition version_numbers (row : Sql.VersionRow)
  : string * (Sql.value * Sql.value * Sql.value) :=
  let '(n, _, major, minor, patch) := row in (n, (major, minor, patch)).

(** The minor version of the index format is there but is no number:
    it is [NULL], a text or a blob. *)
Definition is_number (v : Sql.value) : bool :=
  match v with
  | Sql.Int _ | Sql.Real _ | Sql.Infinity _ => true
  | Sql.Null | Sql.Text _ | Sql.Blob _ => false
  end.

Definition index_minor_unusable (db : Sql.Db) : Prop :=
  exists rows major minor patch,
    Sql.versions db = Some rows
    /\ assoc_last "index" (map version_numbers rows) = Some (major, minor, patch)
    /\ is_number minor = false.

(** A number below 2. *)
Definition below_2 (v : Sql.value) : Prop :=
  match v with
  | Sql.Int n => n < 2
  | Sql.Real x => (x < Qc_of_Z 2)%Qc
  | Sql.Infinity negative => negative = true
  | Sql.Null | Sql.Text _ | Sql.Blob _ => False
  end.

(** The index format is older than 0.2, as far as one can tell. *)
Definition index_outdated (db : Sql.Db) : Prop :=
  match Sql.versions db with
  | None => True
  | Some rows =>
    match assoc_last "index" (map version_numbers rows) with
    | None => True
    | Some (_, minor, _) => below_2 minor
    end
  end.

(** The JSON value [j] is the number [x]; [true] and [false] count as 1
    and 0. *)
Definition is_the_number (x : number) (j : Json.t) : Prop :=
  j = Json.JNumber x
  \/ (j = Json.JBool true /\ x = Qc_of_Z 1)
  \/ (j = Json.JBool false /\ x = Qc_of_Z 0).

(** [sub] occurs in [s]. *)
Definition occurs_in (sub s : string) : Prop :=
  exists before after, s = before +:+ sub +:+ after.

(** What [json.loads] made of the value of ["tarstats"] fails the
    comparison of [key] with the number [x] of the archive: an object
    with a member [key] that is not this number; a list with the name
    [key] as an item; a string in which the name occurs; or any other
    value. *)
Definition changed_in (j : Json.t) (key : string) (x : number) : Prop :=
  match j with
  | Json.JObject members =>
    exists v, assoc_last key members = Some v /\ ~ is_the_number x v
  | Json.JArray items => Json.JString key ∈ items
  | Json.JString s => occurs_in key s
  | Json.JNull | Json.JBool _ | Json.JNumber _ | Json.JNonFinite => True
  end.

Definition mismatch (j : Json.t) (tarStats : Stat) : Prop :=
  changed_in j "st_size" (Qc_of_Z (st_size tarStats))
  \/ changed_in j "st_mtime" (st_mtime tarStats).

(** The stored statistics do not go with the archive.  Of the rows of
    one key the last one counts. *)
Definition stale (db : Sql.Db) (tarStats : Stat) : Prop :=
  exists rows,
    Sql.metadata db = Some rows
    /\ match assoc_last "tarstats" rows with
       | Some (Sql.NotJson _) => True
       | Some (Sql.Json j) => mismatch j tarStats
       | None =>
         is_Some (assoc_last "st_size" rows) \/ is_Some (assoc_last "st_mtime" rows)
       end.

(** When an index is rejected, by the checks of [loadIndex]. *)
Definition rejected (db : Sql.Db) (tarStats : Stat) : Prop :=
  (Sql.bzip2blocks db = true /\ Sql.versions db = None)
  \/ Sql.files db = None
  \/ is_Some (Sql.filestmp db)
  \/ is_Some (Sql.parentfolders db)
  \/ index_minor_unusable db
  \/ stale db tarStats.

(** *** getFileInfo, for [listDir = False] *)

Definition FileInfo_of_row (row : Sql.FileRow) : FileInfo :=
  mkFileInfo (default 0 (Sql.offsetheader row)) (Sql.offset row) (Sql.size row)
             (Sql.mtime row) (Sql.mode row) (Sql.type row) (Sql.linkname row)
             (Sql.uid row) (Sql.gid row) (Sql.istar row)
             (default false (Sql.issparse row)).

Definition getFileInfo (self : t) (fullPath : string) : outcome (option FileInfo) :=
  let fullPath := "/" +:+ PyStr.lstrip (PyStr.normpath fullPath) in
  match PyStr.rsplit1 fullPath with
  | None => Raise ValueError
  | Some (path, name) =>
    match sqlConnection self with
    | None => Raise AttributeError
    | Some db =>
      match Sql.files db with
      | None => Raise (Sql.error db)
      | Some rows => Ok (FileInfo_of_row <$> rows !! (path, name))
      end
    end
  end.

(** *** getFileInfo, for [listDir = True], and isDir *)

(** [SELECT * FROM "files" WHERE "path" == (?)].  The order of the rows is
    the one the database chooses. *)
Definition select_path (rows : gmap (string * string) Sql.FileRow) (path : string)
  : list Sql.FileRow :=
  List.filter (fun row => String.eqb (Sql.path row) path) (map_to_list rows).*2.

(** The body of the loop over the rows, without [gotResults]. *)
Definition add_entry (dir : gmap string FileInfo) (row : Sql.FileRow) : gmap string FileInfo :=
  if String.eqb (Sql.name row) "" then dir
  else <[Sql.name row := FileInfo_of_row row]> dir.

Definition getFileInfo_listDir (self : t) (fullPath : string)
  : outcome (option (gmap string FileInfo)) :=
  let fullPath := "/" +:+ PyStr.lstrip (PyStr.normpath fullPath) in
  match sqlConnection self with
  | None => Raise AttributeError
  | Some db =>
    match Sql.files db with
    | None => Raise (Sql.error db)
    | Some rows =>
      let selected := select_path rows (PyStr.rstrip fullPath) in
      let dir := fold_left add_entry selected ∅ in
      Ok (match selected with [] => None | _ :: _ => Some dir end)
    end
  end.

Definition isDir (self : t) (path : string) : outcome bool :=
  match getFileInfo_listDir self path with
  | Raise e => Raise e
  | Ok None => Ok false
  | Ok (Some _) => Ok true
  end.

(** *** setFileInfo *)

Definition row_of_FileInfo (path name : string) (fileInfo : FileInfo) : Sql.FileRow :=
  Sql.mkFileRow path name (Some (offsetheader fileInfo)) (offset fileInfo) (size fileInfo)
                (mtime fileInfo) (mode fileInfo) (type fileInfo) (linkname fileInfo)
                (uid fileInfo) (gid fileInfo) (istar fileInfo) (Some (issparse fileInfo)).

Definition setFileInfo (self : t) (fullPath : string) (fileInfo : FileInfo)
  : outcome unit * t :=
  match sqlConnection self with
  | None => (Raise AssertionError, self)
  | Some _ =>
    match fullPath with
    | EmptyString => (Raise IndexError, self)
    | String c _ =>
      if negb (Ascii.eqb c "/") then (Raise AssertionError, self)
      else
        match PyStr.rsplit1 fullPath with
        | None => (Raise ValueError, self)
        | Some (path, name) => _setFileInfo self (row_of_FileInfo path name fileInfo)
        end
    end
  end.

(** *** _tryLoadIndex *)

(** [os.path.isfile] is the membership in [disk]; [removable] tells
    whether [os.remove] succeeds on a file, which then is gone.  The result
    is the returned flag, the files afterwards and the object. *)
Definition _tryLoadIndex (removable : string -> bool) (disk : Disk) (self : t)
           (indexFileName : string) (tarStats : Stat) : outcome bool * (Disk * t) :=
  match indexIsLoaded self with
  | (Raise e, self) => (Raise e, (disk, self))
  | (Ok true, self) => (Ok true, (disk, self))
  | (Ok false, self) =>
    if negb (bool_decide (is_Some (disk !! indexFileName))) then (Ok false, (disk, self))
    else
      let '(r, self) := loadIndex disk self indexFileName tarStats in
      let disk :=
        match r with
        | Ok _ => disk
        | Raise _ => if removable indexFileName then delete indexFileName disk else disk
        end in
      let '(loaded, self) := indexIsLoaded self in
      (loaded, (disk, self))
  end.

End SQLiteIndexedTar.

(** ** class TarMount, over the SQLite backend *)

Module TarMount.

Record t : Type := mk {
  indexedTar : SQLiteIndexedTar.t;
  tarFile : FileObj
}.

Definition set_tarFile (self : t) (f : FileObj) : t := mk (indexedTar self) f.

Definition readlink (self : t) (path : string) : outcome string :=
  match SQLiteIndexedTar.getFileInfo (indexedTar self) path with
  | Raise e => Raise e
  | Ok None => Raise ENOENT
  | Ok (Some fileInfo) => Ok (SQLiteIndexedTar.linkname fileInfo)
  end.

(** The condition under which [read] follows the link name of a member. *)
Definition is_hard_link (fileInfo : SQLiteIndexedTar.FileInfo) : bool :=
  negb (stat.S_ISREG (SQLiteIndexedTar.mode fileInfo))
  && negb (stat.S_ISLNK (SQLiteIndexedTar.mode fileInfo))
  && negb (String.eqb (SQLiteIndexedTar.linkname fileInfo) "").

Definition targetLink (fileInfo : SQLiteIndexedTar.FileInfo) : string :=
  "/" +:+ PyStr.lstrip (SQLiteIndexedTar.linkname fileInfo).

Section Read.

(** Reading a sparse member goes through [tarfile] again, on a stenciled
    view of the member's TAR block: [extractfile] stands for opening the
    view as a TAR, extracting its first member, seeking to [offset] in
    it and reading [length] bytes. *)
Variable extractfile : StenciledFile.t -> Z -> Z -> outcome bytes * StenciledFile.t.

Definition read_sparse (self : t) (fileInfo : SQLiteIndexedTar.FileInfo)
           (length offset : Z) : outcome bytes * t :=
  let tarBlockSize :=
    SQLiteIndexedTar.offset fileInfo - SQLiteIndexedTar.offsetheader fileInfo
    + SQLiteIndexedTar.size fileInfo in
  match StenciledFile.__init__ (tarFile self)
          [(SQLiteIndexedTar.offsetheader fileInfo, tarBlockSize)] with
  | Raise e => (Raise e, self)
  | Ok tarSubFile =>
    let '(result, tarSubFile) := extractfile tarSubFile length offset in
    (result, set_tarFile self (StenciledFile.fileobj tarSubFile))
  end.

(** [depth] is the number of nested calls the interpreter still allows;
    [read] calls itself to follow a link. *)
Fixpoint read (depth : nat) (self : t) (path : string) (length offset : Z)
  : outcome bytes * t :=
  match depth with
  | O => (Raise RecursionError, self)
  | S depth =>
    match SQLiteIndexedTar.getFileInfo (indexedTar self) path with
    | Raise e => (Raise e, self)
    | Ok None => (Raise ENOENT, self)
    | Ok (Some fileInfo) =>
      if is_hard_link fileInfo && negb (String.eqb (targetLink fileInfo) path)
      then read depth self (targetLink fileInfo) length offset
      else if SQLiteIndexedTar.issparse fileInfo
      then read_sparse self fileInfo length offset
      else
        match fseek (tarFile self) (SQLiteIndexedTar.offset fileInfo + offset) with
        | (Raise e, f) => (Raise e, set_tarFile self f)
        | (Ok _, f) =>
          let '(data, f) := fread f length in
          (Ok data, set_tarFile self f)
        end
    end
  end.

End Read.

(** *** The root of the mount point, getattr and readdir *)

(** The mode of the mount point, from the mode of the archive file. *)
Definition mountMode (st_mode : Z) : Z :=
  let mountMode := Z.lor (Z.land st_mode 511) stat.S_IFDIR in
  let mountMode :=
    if negb (Z.land mountMode stat.S_IRUSR =? 0) then Z.lor mountMode stat.S_IXUSR
    else mountMode in
  let mountMode :=
    if negb (Z.land mountMode stat.S_IRGRP =? 0) then Z.lor mountMode stat.S_IXGRP
    else mountMode in
  let mountMode :=
    if negb (Z.land mountMode stat.S_IROTH =? 0) then Z.lor mountMode stat.S_IXOTH
    else mountMode in
  mountMode.

(** [self.rootFileInfo], as the constructor computes it from
    [os.stat( pathToMount )]. *)
Definition rootFileInfo (st_mode st_size : Z) (st_mtime : number) (st_uid st_gid : Z)
  : SQLiteIndexedTar.FileInfo :=
  SQLiteIndexedTar.mkFileInfo 0 0 st_size st_mtime (mountMode st_mode)
                              (Sql.TypeFlag tarfile.DIRTYPE) "" st_uid st_gid true false.

(** The dictionary that [getattr] returns. *)
Record StatDict : Type := mkStatDict {
  st_size : Z;
  st_mtime : Z;
  st_mode : Z;
  st_uid : Z;
  st_gid : Z;
  st_nlink : Z
}.

(** [root] is [self.rootFileInfo]; [depth] bounds the nested calls as in
    [read].  A link name is followed without comparing it to [path]. *)
Fixpoint getattr (depth : nat) (root : SQLiteIndexedTar.FileInfo) (self : t) (path : string)
  : outcome StatDict :=
  match depth with
  | O => Raise RecursionError
  | S depth =>
    match (if String.eqb path "/" then Ok (Some root)
           else SQLiteIndexedTar.getFileInfo (indexedTar self) path) with
    | Raise e => Raise e
    | Ok None => Raise ENOENT
    | Ok (Some fileInfo) =>
      if is_hard_link fileInfo
      then getattr depth root self (targetLink fileInfo)
      else
        Ok (mkStatDict
              (SQLiteIndexedTar.size fileInfo)
              (py_int (SQLiteIndexedTar.mtime fileInfo))
              (Z.land (SQLiteIndexedTar.mode fileInfo)
                      (Z.lnot (Z.lor (Z.lor stat.S_IWUSR stat.S_IWGRP) stat.S_IWOTH)))
              (SQLiteIndexedTar.uid fileInfo)
              (SQLiteIndexedTar.gid fileInfo)
              2)
    end
  end.

(** What [getattr] finds under a path: the entry of the mount point
    under ["/"], a member of the index under any other path. *)
Definition found (root : SQLiteIndexedTar.FileInfo) (self : t) (path : string)
           (fileInfo : SQLiteIndexedTar.FileInfo) : Prop :=
  (path = "/" /\ fileInfo = root)
  \/ (path <> "/"
      /\ SQLiteIndexedTar.getFileInfo (indexedTar self) path = Ok (Some fileInfo)).

(** The chain of link names that starts at [path] ends at [target], whose
    entry [targetInfo] is no hard link: every entry before it is a hard
    link, and its link name leads to the next path. *)
Inductive link_chain (root : SQLiteIndexedTar.FileInfo) (self : t)
  : string -> string -> SQLiteIndexedTar.FileInfo -> Prop :=
  | chain_end path fileInfo :
      found root self path fileInfo ->
      is_hard_link fileInfo = false ->
      link_chain root self path path fileInfo
  | chain_link path fileInfo target targetInfo :
      found root self path fileInfo ->
      is_hard_link fileInfo = true ->
      link_chain root self (targetLink fileInfo) target targetInfo ->
      link_chain root self path target targetInfo.

(** What the generator yields, as a list; the entries of the directory
    come in the order of the dictionary's keys. *)
Definition readdir (self : t) (path : string) : outcome (list string) :=
  match SQLiteIndexedTar.getFileInfo_listDir (indexedTar self) path with
  | Raise e => Raise e
  | Ok dirInfo =>
    Ok ("." :: ".." :: match dirInfo with
                       | Some dir => (map_to_list dir).*1
                       | None => []
                       end)
  end.

End TarMount.

(** ** Concrete archives *)

Module Samples.
Import tarfile.

Definition B (s : string) : bytes := list_byte_of_string s.

(** A 512 byte block that starts with [b]; of a header block only the
    name is spelled out, the parser's reading of it is given with the
    scan.  The iteration over an archive stops after the first of the two
    empty blocks at its end.  A member that the indexer does not descend
    into carries [NotATar]: what its content would open as is not looked
    at. *)
Definition block (b : bytes) : bytes := b ++ replicate (512 - length b)%nat x00.
Definition end_of_archive : bytes := replicate 1024%nat x00.

Definition no_sparse (f : StenciledFile.t) (length offset : Z)
  : outcome bytes * StenciledFile.t := (Raise ReadError, f).

Definition fresh (recursive : bool) : SQLiteIndexedTar.t :=
  SQLiteIndexedTar.mk "archive.tar" recursive None None [].

Definition mount (recursive : bool) (scan : Scan) (data : bytes) : TarMount.t :=
  let '(_, (indexedTar, fileObject)) :=
    SQLiteIndexedTar.createIndex scan ∅ PlainFile (fresh recursive)
                                 (mkFileObj data 0) "" 0 in
  TarMount.mk indexedTar fileObject.

Definition rows_of (self : SQLiteIndexedTar.t) : gmap (string * string) Sql.FileRow :=
  default ∅ (SQLiteIndexedTar.sqlConnection self ≫= Sql.files).

(** The stenciled file of the class' documentation: the first three bytes
    of the file twice. *)
Definition abc : FileObj := mkFileObj (B "abc") 0.
Definition abc_twice : list (Z * Z) := [(0, 3); (0, 3)].
(** The object [StenciledFile( abc, abc_twice )]. *)
Definition abc_stenciled : StenciledFile.t :=
  StenciledFile.mk abc [0; 0] [3; 3] [0; 3; 6] 0.

(** [a.txt] with the content [0123456789] and the symbolic link [link]
    to it. *)
Definition a_txt : TarInfo := mkTarInfo "a.txt" 10 0 420 REGTYPE "" 0 0 0 512 false.
Definition a_txt_content : bytes := B "0123456789".
Definition link : TarInfo := mkTarInfo "link" 0 0 511 SYMTYPE "a.txt" 0 0 1024 1536 false.
Definition symlink_data : bytes :=
  block (B "a.txt") ++ block a_txt_content ++ block (B "link") ++ end_of_archive.
Definition symlink_scan : Scan :=
  Tar [mkMember a_txt 512 NotATar; mkMember link 1536 NotATar] 2048.
Definition symlink_mount : TarMount.t := mount false symlink_scan symlink_data.

(** [a.txt] and hard links: [hard] to [a.txt], [second] to [hard], and
    [self] to itself. *)
Definition hard : TarInfo := mkTarInfo "hard" 0 0 420 LNKTYPE "a.txt" 0 0 1024 1536 false.
Definition second : TarInfo := mkTarInfo "second" 0 0 420 LNKTYPE "hard" 0 0 1536 2048 false.
Definition self_link : TarInfo := mkTarInfo "self" 0 0 420 LNKTYPE "self" 0 0 2048 2560 false.
Definition hardlink_data : bytes :=
  block (B "a.txt") ++ block a_txt_content ++ block (B "hard") ++ block (B "second")
  ++ block (B "self") ++ end_of_archive.
Definition hardlink_scan : Scan :=
  Tar [mkMember a_txt 512 NotATar; mkMember hard 1536 NotATar;
       mkMember second 2048 NotATar; mkMember self_link 2560 NotATar] 3072.
Definition hardlink_mount : TarMount.t := mount false hardlink_scan hardlink_data.

(** What the index holds for [/a.txt], for [/hard] and for [/self]. *)
Definition a_txt_info : SQLiteIndexedTar.FileInfo :=
  SQLiteIndexedTar.mkFileInfo 0 512 10 0 33188 (Sql.TypeFlag REGTYPE) "" 0 0 false false.
Definition hard_info : SQLiteIndexedTar.FileInfo :=
  SQLiteIndexedTar.mkFileInfo 1024 1536 0 0 420 (Sql.TypeFlag LNKTYPE) "a.txt" 0 0 false false.
Definition self_info : SQLiteIndexedTar.FileInfo :=
  SQLiteIndexedTar.mkFileInfo 2048 2560 0 0 420 (Sql.TypeFlag LNKTYPE) "self" 0 0 false false.

(** An index database left with filled ["versions"] and ["metadata"]
    tables only, and an indexer that is going to open it. *)
Definition leftover_db : Sql.Db :=
  Sql.mkDb None None None
           (Some [("index", "0.2.0", Sql.Int 0, Sql.Int 2, Sql.Int 0)])
           (Some [("tarstats",
                   Sql.Json (Json.JObject [("st_size", Json.JNumber 10240);
                                           ("st_mtime", Json.JNumber 1572000000)]))])
           false false.
Definition leftover_disk : SQLiteIndexedTar.Disk :=
  {[ "archive.tar.index.sqlite" := leftover_db ]}.
Definition leftover_indexer : SQLiteIndexedTar.t :=
  SQLiteIndexedTar.mk "archive.tar" false (Some "archive.tar.index.sqlite") None [].

(** A complete index of a bzip2 compressed archive, written before the
    ["versions"] table existed. *)
Definition old_bzip2_db : Sql.Db :=
  Sql.mkDb (Some ∅) None None None None true false.
Definition old_bzip2_disk : SQLiteIndexedTar.Disk :=
  {[ "archive.tar.index.sqlite" := old_bzip2_db ]}.
(** The same without the table of the bzip2 blocks. *)
Definition old_plain_db : Sql.Db :=
  Sql.mkDb (Some ∅) None None None None false false.
Definition old_plain_disk : SQLiteIndexedTar.Disk :=
  {[ "archive.tar.index.sqlite" := old_plain_db ]}.
Definition archive_stat : SQLiteIndexedTar.Stat :=
  SQLiteIndexedTar.mkStat 10240 1572000000 [].

(** A complete index whose format has the given minor version and whose
    ["metadata"] table, if there is one, holds the given value under
    ["tarstats"]; and the only index file on a disk. *)
Definition index_db (minor : Sql.value) (tarstats : option Sql.meta_value) : Sql.Db :=
  Sql.mkDb (Some ∅) None None
           (Some [("index", "0.2.0", Sql.Int 0, minor, Sql.Int 0)])
           (option_map (fun v => [("tarstats", v)]) tarstats)
           false false.
Definition only (db : Sql.Db) : SQLiteIndexedTar.Disk :=
  {[ "archive.tar.index.sqlite" := db ]}.

(** The archive of the first scenario: [a.txt] and [dir/b.txt], without a
    member for [dir]. *)
Definition dir_b_txt : TarInfo := mkTarInfo "dir/b.txt" 3 0 420 REGTYPE "" 0 0 1024 1536 false.
Definition plain_scan : Scan :=
  Tar [mkMember a_txt 512 NotATar; mkMember dir_b_txt 1536 NotATar] 2560.
Definition plain_data : bytes :=
  block (B "a.txt") ++ block a_txt_content ++ block (B "dir/b.txt") ++ block (B "xyz")
  ++ end_of_archive.
Definition plain_index : outcome unit * SQLiteIndexedTar.State :=
  SQLiteIndexedTar.createIndex plain_scan ∅ PlainFile (fresh false)
                               (mkFileObj plain_data 0) "" 0.

(** A regular file [a] followed by a member [a/b]. *)
Definition file_a : TarInfo := mkTarInfo "a" 3 0 420 REGTYPE "" 0 0 0 512 false.
Definition file_a_b : TarInfo := mkTarInfo "a/b" 3 0 420 REGTYPE "" 0 0 1024 1536 false.
Definition shadowed_scan : Scan :=
  Tar [mkMember file_a 512 NotATar; mkMember file_a_b 1536 NotATar] 2560.
Definition shadowed_data : bytes :=
  block (B "a") ++ block (B "foo") ++ block (B "a/b") ++ block (B "bar") ++ end_of_archive.
Definition shadowed_index : outcome unit * SQLiteIndexedTar.State :=
  SQLiteIndexedTar.createIndex shadowed_scan ∅ PlainFile (fresh false)
                               (mkFileObj shadowed_data 0) "" 0.

(** [inner.tar], which contains [hello] with the content [world], and a
    file [notes.tar] that [tarfile] refuses: it starts with the header of
    a GNU long name, and the block after the name is no header.  (A file
    whose first block is no header is refused at position 0 only; inside
    an archive that is not decompressed [tarfile] opens it as an archive
    without members.)  Indexed recursively. *)
Definition hello : TarInfo := mkTarInfo "hello" 5 0 420 REGTYPE "" 0 0 512 1024 false.
Definition inner_scan : Scan := Tar [mkMember hello 1024 NotATar] 2048.
Definition inner_tar : TarInfo := mkTarInfo "inner.tar" 2048 0 420 REGTYPE "" 0 0 0 512 false.
Definition notes_tar : TarInfo :=
  mkTarInfo "notes.tar" 1536 0 420 REGTYPE "" 0 0 2560 3072 false.
Definition nested_scan : Scan :=
  Tar [mkMember inner_tar 512 inner_scan; mkMember notes_tar 3072 NotATar] 5120.
Definition nested_data : bytes :=
  block (B "inner.tar") ++ (block (B "hello") ++ block (B "world") ++ end_of_archive)
  ++ block (B "notes.tar")
  ++ (block (B "././@LongLink") ++ block (B "a long name") ++ block (B "junk"))
  ++ end_of_archive.
Definition nested_index : outcome unit * SQLiteIndexedTar.State :=
  SQLiteIndexedTar.createIndex nested_scan ∅ PlainFile (fresh true)
                               (mkFileObj nested_data 0) "" 0.

End Samples.

(** * Properties *)

(** ** A piece of a piece of a list *)

Lemma take_drop_take {A} (l : list A) (n k m : nat) :
  (k + n <= m)%nat -> take n (drop k (take m l)) = take n (drop k l).
Proof.
  intros H. rewrite skipn_firstn_comm, take_take. f_equal. lia.
Qed.

(** ** The stenciled file *)

Section StenciledFileFacts.
Import StenciledFile.

Lemma same_stencils_refl a : same_stencils a a.
Proof. by repeat split. Qed.

Lemma same_stencils_trans a b c :
  same_stencils a b -> same_stencils b c -> same_stencils a c.
Proof. intros (?&?&?) (?&?&?); repeat split; congruence. Qed.

Lemma read_loop_same_stencils fuel : forall self size i result,
  same_stencils self (snd (read_loop fuel self size i result)).
Proof.
  induction fuel as [|fuel IH]; intros self size i result; simpl.
  - apply same_stencils_refl.
  - destruct (_ && _); [|apply same_stencils_refl].
    destruct (getitem (sizes self) i); [|apply same_stencils_refl].
    destruct (getitem (cumsizes self) i); [|apply same_stencils_refl].
    destruct (_ =? 0).
    + destruct (_ <=? _); [apply same_stencils_refl|].
      destruct (getitem (offsets self) (S i)); [|apply same_stencils_refl].
      unfold fseek. destruct (_ <? 0); simpl; [by repeat split|].
      eapply same_stencils_trans; [|apply IH]. by repeat split.
    + eapply same_stencils_trans; [|apply IH]. by repeat split.
Qed.

Lemma read_same_stencils self n : same_stencils self (snd (read self n)).
Proof.
  unfold read. destruct (_findStencil _ _); [|apply same_stencils_refl].
  apply read_loop_same_stencils.
Qed.

Lemma seek_same_stencils self off w : same_stencils self (snd (seek self off w)).
Proof.
  unfold seek.
  set (self' := match w with SEEK_SET => _ | SEEK_CUR => _ | SEEK_END => _ end).
  assert (Hs : same_stencils self self') by (destruct w; by repeat split).
  destruct (_ <? 0); [done|].
  destruct (_ <=? _); [done|].
  destruct (_findStencil _ _); [|done].
  destruct (getitem (cumsizes self') _); [|done].
  destruct (getitem (sizes self') _); [|done].
  destruct (getitem (offsets self') _); [|done].
  destruct (_ <? 0); [done|]. destruct (_ <=? _); [done|].
  unfold fseek. destruct (_ <? 0); simpl; eapply same_stencils_trans; eauto; by repeat split.
Qed.

Lemma init_cumsizes_ok stencils : forall cum cum',
  cumsizes_ok cum -> init_cumsizes stencils cum = Ok cum' -> cumsizes_ok cum'.
Proof.
  induction stencils as [|[o s] stencils IH]; intros cum cum' Hok H; simpl in H.
  - by inversion H; subst.
  - destruct (o <? 0); [done|]. destruct (s <=? 0) eqn:Hs; [done|].
    apply IH in H; [done|]. destruct Hok as [[rest ->] Hl]. split.
    + by eexists.
    + unfold last_item in *. rewrite last_last. lia.
Qed.

Lemma reachable_cumsizes_ok self : reachable self -> cumsizes_ok (cumsizes self).
Proof.
  induction 1 as [f stencils self H|self off w _ IH|self n _ IH].
  - unfold __init__ in H.
    destruct (init_cumsizes stencils [0]) as [cum|] eqn:Hc; [|done].
    set (s0 := mk _ _ _ _ _) in H.
    pose proof (seek_same_stencils s0 0 SEEK_SET) as (_&_&Hs).
    destruct (seek s0 0 SEEK_SET) as [[]]; [|done]. inversion H; subst.
    simpl in Hs. rewrite <- Hs. eapply init_cumsizes_ok; [|done].
    split; [by eexists|done].
  - by destruct (seek_same_stencils self off w) as (_&_&<-).
  - by destruct (read_same_stencils self n) as (_&_&<-).
Qed.


Lemma bisect_left_pos (rest : list Z) x : 0 < x -> 1 <= Z.of_nat (bisect_left (0 :: rest) x).
Proof. intros Hx. simpl. destruct (0 <? x) eqn:E; [lia|]. apply Z.ltb_ge in E. lia. Qed.

Lemma _findStencil_ok self off :
  cumsizes_ok (cumsizes self) -> 0 <= off -> exists i, _findStencil self off = Ok i.
Proof.
  intros [[rest Hc] _] Hoff. unfold _findStencil.
  destruct (off <? 0) eqn:E; [apply Z.ltb_lt in E; lia|].
  rewrite Hc. pose proof (bisect_left_pos rest (off + 1)) as Hb.
  destruct (_ - 1 <? 0) eqn:E'; [apply Z.ltb_lt in E'; lia|]. by eexists.
Qed.

(** C10: on every stenciled file, in whatever state, [seek(p)] for a
    position [p] at or beyond the total size returns [p], raises nothing
    (no exception, no assertion) and leaves the underlying file object as
    it is, cursor included; the [read()] that follows returns [b''] and
    does not touch the underlying file either. *)
Theorem seek_beyond_end_then_read self p :
  reachable self ->
  last_item (cumsizes self) <= p ->
  exists self' self'',
    seek self p SEEK_SET = (Ok p, self')
    /\ fileobj self' = fileobj self
    /\ tell self' = p
    /\ read self' (-1) = (Ok [], self'')
    /\ fileobj self'' = fileobj self.
Proof.
  intros Hr Hp. pose proof (reachable_cumsizes_ok _ Hr) as Hok.
  pose proof Hok as [_ Htot].
  exists (set_offset self p), (set_offset self p).
  assert (Hseek : seek self p SEEK_SET = (Ok p, set_offset self p)).
  { unfold seek. simpl.
    destruct (p <? 0) eqn:E; [apply Z.ltb_lt in E; lia|].
    destruct (_ <=? p) eqn:E'; [done|]. apply Z.leb_gt in E'. lia. }
  repeat split; [done|].
  unfold read. simpl.
  destruct (_findStencil_ok (set_offset self p) p) as [i Hi]; [done|lia|].
  simpl in Hi. rewrite Hi. unfold read_fuel. simpl.
  destruct (0 <? _) eqn:E; [apply Z.ltb_lt in E; lia|]. done.
Qed.

(** The stenciled file of the class' documentation, of size 6, sought to 7. *)
Lemma seek_beyond_end_then_read_witness :
  exists self' self'',
    seek Samples.abc_stenciled 7 SEEK_SET = (Ok 7, self')
    /\ fileobj self' = fileobj Samples.abc_stenciled
    /\ tell self' = 7
    /\ read self' (-1) = (Ok [], self'')
    /\ fileobj self'' = fileobj Samples.abc_stenciled.
Proof.
  apply seek_beyond_end_then_read.
  - apply (reach_init Samples.abc Samples.abc_twice). reflexivity.
  - vm_compute. discriminate.
Defined.

(** C4, at the stenciled file of the class' documentation (the three
    bytes [abc] twice, so [abcabc]): the first [read(3)] ends on the
    boundary between the two stencils and leaves the underlying file at
    its end; the second [read(3)] starts at the virtual position 3 of 6,
    does not seek to the second stencil and returns no byte at all. *)
Theorem read_after_boundary_is_short :
  __init__ Samples.abc Samples.abc_twice = Ok Samples.abc_stenciled
  /\ contents (f_data Samples.abc) Samples.abc_twice = Samples.B "abcabc"
  /\ (let '(first, self1) := read Samples.abc_stenciled 3 in
      let '(second, self2) := read self1 3 in
      first = Ok (Samples.B "abc")
      /\ tell self1 = 3 /\ last_item (cumsizes self1) = 6
      /\ second = Ok []
      /\ tell self2 = 3).
Proof. vm_compute. repeat split. Qed.

End StenciledFileFacts.

(** ** Reading a stenciled file after a seek *)

Section StenciledRead.
Import StenciledFile.

Lemma init_cumsizes_running stencils : forall cum cum',
  init_cumsizes stencils cum = Ok cum' ->
  cum' = cum ++ running (last_item cum) (map snd stencils)
  /\ Forall (fun st => 0 <= fst st /\ 0 < snd st) stencils.
Proof.
  induction stencils as [|[o s] stencils IH]; intros cum cum' H; simpl in H.
  - inversion H; subst. simpl. by rewrite app_nil_r.
  - destruct (o <? 0) eqn:Eo; [done|]. destruct (s <=? 0) eqn:Es; [done|].
    apply IH in H as [-> HF]. split.
    + rewrite <- app_assoc. simpl. unfold last_item. by rewrite last_last.
    + constructor; [|done]. simpl. apply Z.ltb_ge in Eo. apply Z.leb_gt in Es. lia.
Qed.

Lemma running_lookup (l1 l2 : list Z) : forall a,
  (a :: running a (l1 ++ l2)) !! length l1 = Some (a + total l1).
Proof.
  induction l1 as [|s l1 IH]; intros a; simpl.
  - f_equal. lia.
  - rewrite IH. unfold total. simpl. f_equal. lia.
Qed.

Lemma running_last (l : list Z) : forall a, last_item (a :: running a l) = a + total l.
Proof.
  induction l as [|s l IH]; intros a.
  - unfold last_item, total. simpl. lia.
  - change (last_item (a :: running a (s :: l))) with (last_item ((a + s) :: running (a + s) l)).
    rewrite IH. unfold total. simpl. lia.
Qed.

(** Where [bisect_left] stops in the running totals. *)
Lemma bisect_left_running (stencils : list (Z * Z)) : forall a x,
  a < x <= a + total (map snd stencils) ->
  exists done o s todo,
    stencils = done ++ (o, s) :: todo
    /\ bisect_left (a :: running a (map snd stencils)) x = S (length done)
    /\ a + total (map snd done) < x <= a + total (map snd done) + s.
Proof.
  induction stencils as [|[o s] stencils IH]; intros a x Hx.
  - unfold total in Hx. simpl in Hx. lia.
  - destruct (Z_lt_le_dec (a + s) x) as [Hlt|Hle].
    + destruct (IH (a + s) x) as (done & o' & s' & todo & -> & Hb & Hr).
      { unfold total in *. simpl in Hx. lia. }
      exists ((o, s) :: done), o', s', todo. split; [done|]. split.
      * simpl in *. destruct (a <? x) eqn:E; [|apply Z.ltb_ge in E; lia].
        by rewrite Hb.
      * unfold total in *. simpl. lia.
    + exists [], o, s, stencils. split; [done|]. split.
      * simpl. destruct (a <? x) eqn:E; [|apply Z.ltb_ge in E; lia].
        destruct (a + s <? x) eqn:E'; [apply Z.ltb_lt in E'; lia|done].
      * unfold total. simpl. lia.
Qed.

Lemma total_app (l1 l2 : list Z) : total (l1 ++ l2) = total l1 + total l2.
Proof. unfold total. induction l1 as [|x l1 IH]; simpl; [done|]. rewrite IH. lia. Qed.

Lemma slice_length data stencil :
  fits data stencil -> Z.of_nat (length (slice data stencil)) = snd stencil.
Proof.
  intros (Ho & Hs & Hfit). unfold slice. rewrite length_take, length_drop. lia.
Qed.

Lemma contents_length data stencils :
  Forall (fits data) stencils ->
  Z.of_nat (length (contents data stencils)) = total (map snd stencils).
Proof.
  unfold contents. induction 1 as [|st stencils Hst _ IH]; [done|].
  simpl. rewrite length_app, Nat2Z.inj_add, IH, (slice_length _ _ Hst). done.
Qed.

Lemma total_nonneg data stencils : Forall (fits data) stencils -> 0 <= total (map snd stencils).
Proof. intros H. rewrite <- (contents_length data) by done. lia. Qed.

Lemma contents_app data l1 l2 :
  contents data (l1 ++ l2) = contents data l1 ++ contents data l2.
Proof. unfold contents. by rewrite map_app, concat_app. Qed.

(** The virtual file from a position inside the stencil [(o, s)] on. *)
Lemma drop_contents data done o s todo d :
  Forall (fits data) done -> fits data (o, s) -> 0 <= d <= s ->
  drop (Z.to_nat (total (map snd done) + d)) (contents data (done ++ (o, s) :: todo))
  = drop (Z.to_nat d) (slice data (o, s)) ++ contents data todo.
Proof.
  intros Hdone Hfit Hd.
  pose proof (contents_length data done Hdone) as Hlen.
  pose proof (slice_length data (o, s) Hfit) as Hsl. simpl in Hsl.
  rewrite contents_app.
  change (contents data ((o, s) :: todo)) with (slice data (o, s) ++ contents data todo).
  replace (Z.to_nat (total (map snd done) + d))
    with (length (contents data done) + Z.to_nat d)%nat by lia.
  rewrite drop_app_add' by done. apply drop_app_le. lia.
Qed.

(** The bytes of the file under a piece of the stencil [(o, s)]. *)
Lemma take_drop_slice data o s d r :
  0 <= o -> 0 <= d -> 0 <= r -> d + r <= s ->
  take (Z.to_nat r) (drop (Z.to_nat d) (slice data (o, s)))
  = take (Z.to_nat r) (drop (Z.to_nat (o + d)) data).
Proof.
  intros Ho Hd Hr Hs. unfold slice. simpl.
  rewrite take_drop_take by lia. by rewrite drop_drop, <- Z2Nat.inj_add by lia.
Qed.

Lemma constructed_lookups data done o s todo self :
  constructed data (done ++ (o, s) :: todo) self ->
  getitem (sizes self) (length done) = Ok s
  /\ getitem (cumsizes self) (length done) = Ok (total (map snd done))
  /\ getitem (offsets self) (length done) = Ok o
  /\ length (sizes self) = (length done + S (length todo))%nat
  /\ length (offsets self) = (length done + S (length todo))%nat.
Proof.
  intros (Ho & Hs & Hc & _). unfold getitem. rewrite Ho, Hs, Hc, !map_app.
  split_and!.
  - rewrite lookup_app_r by (by rewrite length_map).
    by rewrite length_map, Nat.sub_diag.
  - rewrite <- (length_map snd done), running_lookup. f_equal; lia.
  - rewrite lookup_app_r by (by rewrite length_map).
    by rewrite length_map, Nat.sub_diag.
  - by rewrite length_app, !length_map.
  - by rewrite length_app, !length_map.
Qed.

Lemma constructed_set_fileobj data stencils self f :
  constructed data stencils self -> f_data f = data ->
  constructed data stencils (set_fileobj self f).
Proof. intros (? & ? & ? & ?) ?. by split_and!. Qed.

Lemma constructed_set_offset data stencils self o :
  constructed data stencils self -> constructed data stencils (set_offset self o).
Proof. intros (? & ? & ? & ?). by split_and!. Qed.

(** The loop of [read], started inside the stencil [(o, s)] with the
    underlying file at the matching position: it returns the next [size]
    bytes of the virtual file, as far as there are any. *)
Lemma read_loop_spec data : forall fuel done o s todo self size acc,
  Forall (fits data) (done ++ (o, s) :: todo) ->
  constructed data (done ++ (o, s) :: todo) self ->
  total (map snd done) <= offset self <= total (map snd done) + s ->
  f_pos (fileobj self) = o + (offset self - total (map snd done)) ->
  0 <= size ->
  (Z.to_nat size + length todo + 1 < fuel)%nat ->
  exists self',
    read_loop fuel self size (length done) acc
    = (Ok (acc ++ take (Z.to_nat size)
                       (drop (Z.to_nat (offset self))
                             (contents data (done ++ (o, s) :: todo)))), self')
    /\ offset self' = Z.min (offset self + size) (total (map snd (done ++ (o, s) :: todo))).
Proof.
  induction fuel as [|fuel IH];
    intros done o s todo self size acc HF Hc Hoff Hpos Hsize Hfuel; [lia|].
  destruct (constructed_lookups _ _ _ _ _ _ Hc) as (Hs & Hcum & Ho & Hlen & Hleno).
  pose proof (proj1 (Forall_app _ _ _) HF) as [HFdone HFrest].
  pose proof (Forall_inv HFrest) as Hfit. pose proof (Forall_inv_tail HFrest) as HFtodo.
  pose proof Hfit as (Hfo & Hfs & Hfd). simpl in Hfo, Hfs, Hfd.
  pose proof (total_nonneg data done HFdone) as Hdone0.
  pose proof (total_nonneg data todo HFtodo) as Htodo0.
  assert (Htotal : total (map snd (done ++ (o, s) :: todo))
                   = total (map snd done) + s + total (map snd todo)).
  { rewrite map_app, total_app.
    change (total (map snd ((o, s) :: todo))) with (s + total (map snd todo)). lia. }
  cbn [read_loop]. rewrite Hlen.
  destruct (0 <? size) eqn:Esz; cbn [andb].
  2: { apply Z.ltb_ge in Esz. assert (size = 0) as -> by lia.
       eexists. split; [by rewrite take_0, app_nil_r|]. lia. }
  apply Z.ltb_lt in Esz.
  destruct (Z.of_nat (length done) <? Z.of_nat (length done + S (length todo))) eqn:Ei;
    [|apply Z.ltb_ge in Ei; lia].
  rewrite Hs, Hcum. cbv zeta.
  set (d := offset self - total (map snd done)) in *.
  destruct (Z.min size (s - d) =? 0) eqn:Er.
  - apply Z.eqb_eq in Er. assert (Hd : d = s) by lia.
    rewrite Hleno. destruct todo as [|[o' s'] todo].
    + destruct (_ <=? _) eqn:E; [|apply Z.leb_gt in E; simpl in E; lia].
      change (total (map snd [])) with 0 in Htotal.
      exists self. split; [|rewrite Htotal; lia].
      rewrite drop_ge, take_nil, app_nil_r; [done|].
      pose proof (contents_length data _ HF) as Hcl. rewrite Htotal in Hcl. lia.
    + destruct (_ <=? _) eqn:E; [apply Z.leb_le in E; simpl in E; lia|].
      assert (Hc' : constructed data ((done ++ [(o, s)]) ++ (o', s') :: todo) self)
        by by rewrite <- app_assoc.
      destruct (constructed_lookups _ _ _ _ _ _ Hc') as (_ & _ & Ho' & _ & _).
      replace (S (length done)) with (length (done ++ [(o, s)]))
        by (rewrite length_app; simpl; lia).
      rewrite Ho'.
      pose proof (Forall_inv HFtodo) as (Hfo' & Hfs' & Hfd'). simpl in Hfo', Hfs', Hfd'.
      unfold fseek. destruct (o' <? 0) eqn:Eo; [apply Z.ltb_lt in Eo; lia|].
      destruct (IH (done ++ [(o, s)]) o' s' todo
                   (set_fileobj self {| f_data := f_data (fileobj self); f_pos := o' |})
                   size acc) as (self' & Hread & Hoffset).
      * by rewrite <- app_assoc.
      * apply constructed_set_fileobj; [done|]. by destruct Hc as (_ & _ & _ & ?).
      * rewrite map_app, total_app. change (total (map snd [(o, s)])) with (s + 0). simpl. lia.
      * rewrite map_app, total_app. change (total (map snd [(o, s)])) with (s + 0). simpl. lia.
      * done.
      * simpl in Hfuel. lia.
      * rewrite <- app_assoc in Hread, Hoffset. simpl in Hread, Hoffset.
        exists self'. by split.
  - apply Z.eqb_neq in Er.
    set (r := Z.min size (s - d)) in *.
    assert (Hr : 0 < r <= s - d) by lia.
    assert (Hrs : r <= size) by lia.
    assert (Hdata : f_data (fileobj self) = data) by by destruct Hc as (_ & _ & _ & ?).
    assert (Hout : fst (fread (fileobj self) r)
                   = take (Z.to_nat r) (drop (Z.to_nat (offset self))
                                             (contents data (done ++ (o, s) :: todo)))).
    { unfold fread. simpl. destruct (r <? 0) eqn:E; [apply Z.ltb_lt in E; lia|].
      rewrite Hdata, Hpos.
      replace (offset self) with (total (map snd done) + d) by lia.
      rewrite drop_contents by (done || lia).
      rewrite take_app_le.
      - by rewrite take_drop_slice by lia.
      - pose proof (slice_length data (o, s) Hfit) as Hsl. simpl in Hsl.
        rewrite length_drop. lia. }
    assert (Hlenout : Z.of_nat (length (fst (fread (fileobj self) r))) = r).
    { unfold fread. simpl. destruct (r <? 0) eqn:E; [apply Z.ltb_lt in E; lia|].
      rewrite length_take, length_drop, Hdata, Hpos. lia. }
    destruct (fread (fileobj self) r) as [tmp f2] eqn:Hfr. simpl in Hout, Hlenout.
    assert (Hf2 : f_data f2 = data /\ f_pos f2 = o + d + r).
    { unfold fread in Hfr. inversion Hfr; subst f2. simpl. split; [done|].
      rewrite H0, Hlenout, Hpos. lia. }
    destruct Hf2 as [Hf2d Hf2p].
    destruct (IH done o s todo
                 (set_offset (set_fileobj self f2) (offset self + Z.of_nat (length tmp)))
                 (size - r) (acc ++ tmp)) as (self' & Hread & Hoffset).
    + done.
    + apply constructed_set_offset. by apply constructed_set_fileobj.
    + simpl. lia.
    + simpl. lia.
    + lia.
    + lia.
    + simpl in Hread, Hoffset. exists self'. split; [|lia].
      rewrite Hread. f_equal. rewrite <- app_assoc. f_equal.
      rewrite Hout at 1. rewrite Hlenout.
      replace (Z.to_nat (offset self + r)) with (Z.to_nat (offset self) + Z.to_nat r)%nat by lia.
      rewrite <- drop_drop, take_take_drop.
      by replace (Z.to_nat r + Z.to_nat (size - r))%nat with (Z.to_nat size) by lia.
Qed.

Lemma seek_data self off w :
  f_data (fileobj (snd (seek self off w))) = f_data (fileobj self).
Proof.
  unfold seek.
  set (self' := match w with SEEK_SET => _ | SEEK_CUR => _ | SEEK_END => _ end).
  assert (Hd : f_data (fileobj self') = f_data (fileobj self)) by by destruct w.
  destruct (_ <? 0); [done|]. destruct (_ <=? _); [done|].
  destruct (_findStencil _ _); [|done].
  destruct (getitem (cumsizes self') _); [|done].
  destruct (getitem (sizes self') _); [|done].
  destruct (getitem (offsets self') _); [|done].
  destruct (_ <? 0); [done|]. destruct (_ <=? _); [done|].
  unfold fseek. by destruct (_ <? 0).
Qed.

Lemma init_constructed f stencils self :
  __init__ f stencils = Ok self -> constructed (f_data f) stencils self.
Proof.
  unfold __init__. destruct (init_cumsizes stencils [0]) as [cum|] eqn:Hc; [|done].
  apply init_cumsizes_running in Hc as [-> _].
  set (self0 := mk _ _ _ _ _).
  pose proof (seek_same_stencils self0 0 SEEK_SET) as (Ho & Hs & Hcum).
  pose proof (seek_data self0 0 SEEK_SET) as Hd.
  destruct (seek self0 0 SEEK_SET) as [[] self1]; [|done]. intros [= <-].
  simpl in *. by split_and!.
Qed.

Lemma constructed_total data stencils self :
  constructed data stencils self -> last_item (cumsizes self) = total (map snd stencils).
Proof. intros (_ & _ & -> & _). rewrite running_last. lia. Qed.

Lemma _findStencil_inside data stencils self p :
  constructed data stencils self -> 0 <= p < total (map snd stencils) ->
  exists done o s todo,
    stencils = done ++ (o, s) :: todo
    /\ _findStencil self p = Ok (length done)
    /\ total (map snd done) <= p < total (map snd done) + s.
Proof.
  intros (_ & _ & Hc & _) Hp.
  destruct (bisect_left_running stencils 0 (p + 1)) as (done & o & s & todo & Hst & Hb & Hr);
    [lia|].
  exists done, o, s, todo. split; [done|]. split; [|lia].
  unfold _findStencil. destruct (p <? 0) eqn:E; [apply Z.ltb_lt in E; lia|].
  rewrite Hc, Hb. cbv zeta.
  destruct (_ - 1 <? 0) eqn:E'; [apply Z.ltb_lt in E'; lia|]. f_equal. lia.
Qed.

(** After [seek(p)] to a position inside the virtual file, [read(n)]
    returns the next [n] bytes of the concatenated slices, fewer only at the
    end of the virtual file, provided that the stencils lie inside the
    underlying file. *)
Lemma seek_then_read data stencils self p n :
  constructed data stencils self ->
  Forall (fits data) stencils ->
  0 <= p < total (map snd stencils) ->
  0 <= n ->
  exists self1 self2,
    seek self p SEEK_SET = (Ok p, self1)
    /\ tell self1 = p /\ cumsizes self1 = cumsizes self
    /\ read self1 n
       = (Ok (take (Z.to_nat n) (drop (Z.to_nat p) (contents data stencils))), self2)
    /\ tell self2 = Z.min (p + n) (total (map snd stencils)).
Proof.
  intros Hc HF Hp Hn.
  destruct (_findStencil_inside data stencils self p Hc Hp)
    as (done & o & s & todo & -> & Hfind & Hr).
  destruct (constructed_lookups _ _ _ _ _ _ Hc) as (Hs & Hcum & Ho & Hlen & Hleno).
  pose proof (constructed_total _ _ _ Hc) as Htotal.
  pose proof (proj1 (Forall_app _ _ _) HF) as [HFdone HFrest].
  pose proof (Forall_inv HFrest) as (Hfo & Hfs & Hfd). simpl in Hfo, Hfs, Hfd.
  set (f1 := {| f_data := f_data (fileobj self);
                f_pos := o + (p - total (map snd done)) |}).
  set (self1 := set_fileobj (set_offset self p) f1).
  assert (Hseek : seek self p SEEK_SET = (Ok p, self1)).
  { unfold seek. cbn [set_offset offset cumsizes sizes offsets fileobj].
    destruct (p <? 0) eqn:E; [apply Z.ltb_lt in E; lia|].
    rewrite Htotal. destruct (_ <=? p) eqn:E'; [apply Z.leb_le in E'; lia|].
    change (_findStencil (set_offset self p) p) with (_findStencil self p).
    rewrite Hfind, Hcum, Hs, Ho.
    destruct (p - _ <? 0) eqn:E1; [apply Z.ltb_lt in E1; lia|].
    destruct (s <=? _) eqn:E2; [apply Z.leb_le in E2; lia|].
    unfold fseek. by destruct (o + _ <? 0) eqn:E3; [apply Z.ltb_lt in E3; lia|]. }
  assert (Hc1 : constructed data (done ++ (o, s) :: todo) self1).
  { apply constructed_set_fileobj; [by apply constructed_set_offset|].
    by destruct Hc as (_ & _ & _ & ?). }
  destruct (read_loop_spec data (read_fuel self1 n) done o s todo self1 n [])
    as (self2 & Hread & Hoffset); try done.
  - simpl. lia.
  - unfold read_fuel. change (sizes self1) with (sizes self). rewrite Hlen. lia.
  - exists self1, self2. split; [done|]. split; [done|]. split; [done|]. split; [|done].
    unfold read. destruct (n =? -1) eqn:E; [apply Z.eqb_eq in E; lia|].
    change (_findStencil self1 (offset self1)) with (_findStencil self p).
    by rewrite Hfind.
Qed.

(** [seek(p)] followed by [read()] yields the concatenation of the slices
    from [p] on. *)
Lemma seek_then_read_all data stencils self p :
  constructed data stencils self ->
  Forall (fits data) stencils ->
  0 <= p < total (map snd stencils) ->
  exists self1 self2,
    seek self p SEEK_SET = (Ok p, self1)
    /\ read self1 (-1) = (Ok (drop (Z.to_nat p) (contents data stencils)), self2)
    /\ tell self2 = total (map snd stencils).
Proof.
  intros Hc HF Hp.
  destruct (seek_then_read data stencils self p (total (map snd stencils) - p))
    as (self1 & self2 & Hseek & Ho1 & Hcum1 & Hread & Htell); try done; [lia|].
  exists self1, self2. split; [done|]. split; [|lia].
  assert (Hsize : last_item (cumsizes self1) - offset self1 = total (map snd stencils) - p).
  { unfold tell in Ho1. by rewrite Hcum1, (constructed_total _ _ _ Hc), Ho1. }
  unfold read in *. change (-1 =? -1) with true. cbv iota. rewrite Hsize.
  destruct (_ =? -1) eqn:E.
  - apply Z.eqb_eq in E. lia.
  - rewrite Hread. do 2 f_equal. apply take_ge.
    pose proof (contents_length data stencils HF). rewrite length_drop. lia.
Qed.

Lemma read_loop_data fuel : forall self size i result,
  f_data (fileobj (snd (read_loop fuel self size i result))) = f_data (fileobj self).
Proof.
  induction fuel as [|fuel IH]; intros self size i result; simpl; [done|].
  destruct (_ && _); [|done].
  destruct (getitem (sizes self) i); [|done].
  destruct (getitem (cumsizes self) i); [|done].
  destruct (_ =? 0).
  - destruct (_ <=? _); [done|].
    destruct (getitem (offsets self) (S i)); [|done].
    unfold fseek. destruct (_ <? 0); simpl; [done|]. by rewrite IH.
  - by rewrite IH.
Qed.

(** Every state of a stenciled file is one of the object constructed over
    the bytes of the underlying file with the stencils given. *)
Lemma reachable_constructed self :
  reachable self -> exists data stencils, constructed data stencils self.
Proof.
  induction 1 as [f stencils self H|self off w _ (data & stencils & IH)
                  |self n _ (data & stencils & IH)].
  - exists (f_data f), stencils. by apply init_constructed.
  - exists data, stencils. destruct IH as (Ho & Hs & Hc & Hd).
    destruct (seek_same_stencils self off w) as (Ho' & Hs' & Hc').
    pose proof (seek_data self off w) as Hd'.
    split_and!; congruence.
  - exists data, stencils. destruct IH as (Ho & Hs & Hc & Hd).
    destruct (read_same_stencils self n) as (Ho' & Hs' & Hc').
    assert (Hd' : f_data (fileobj (snd (read self n))) = f_data (fileobj self)).
    { unfold read. destruct (_findStencil _ _); [|done]. apply read_loop_data. }
    split_and!; congruence.
Qed.

End StenciledRead.

(** ** The cache of parent folders *)

Section ParentFolderCache.
Import SQLiteIndexedTar.

Lemma grow_cache_length cache paths : (length (grow_cache cache paths) <= 16)%nat.
Proof.
  unfold grow_cache. destruct (16 <? _) eqn:E.
  - apply Z.ltb_lt in E. rewrite length_drop. lia.
  - apply Z.ltb_ge in E. lia.
Qed.




Lemma _tryAddParentFolders_cache self path :
  parentFolderCache (snd (_tryAddParentFolders self path)) =
  match new_parent_folders (parentFolderCache self) path with
  | [] => parentFolderCache self
  | paths => grow_cache (parentFolderCache self) paths
  end.
Proof.
  unfold _tryAddParentFolders.
  destruct (new_parent_folders _ _) as [|p paths]; [done|].
  simpl. destruct (sqlConnection self) as [db|]; [|done].
  by destruct (Sql.parentfolders db).
Qed.



(** Along a whole scan, which starts with an empty cache, the bound holds
    after every attempt. *)
Lemma cache_bounded_along_scan (paths : list string) : forall self,
  (length (parentFolderCache self) <= 16)%nat ->
  (length (parentFolderCache
             (fold_left (fun s p => snd (_tryAddParentFolders s p)) paths self)) <= 16)%nat.
Proof.
  induction paths as [|p paths IH]; intros self Hle; simpl; [done|].
  apply IH. rewrite _tryAddParentFolders_cache.
  destruct (new_parent_folders _ _); [done|apply grow_cache_length].
Qed.

End ParentFolderCache.

(** ** The start of the index creation *)

Section CreateIndex.
Import SQLiteIndexedTar.

Lemma createIndex_Tar members tell_end disk kind self fileObject pathPrefix streamOffset :
  createIndex (tarfile.Tar members tell_end) disk kind self fileObject pathPrefix streamOffset =
  match createIndex_open disk self with
  | (Raise e, self) => (Raise e, (self, fileObject))
  | (Ok openedConnection, self) =>
    match scan_members disk kind pathPrefix streamOffset tell_end members self fileObject with
    | (Ok _, (self, fileObject)) | (Raise ReadError, (self, fileObject)) =>
      let '(r, self) := finish_index kind openedConnection self in
      (r, (self, fileObject))
    | (Raise e, st) => (Raise e, st)
    end
  end.
Proof.
  simpl. destruct (createIndex_open disk self) as [[opened|e] self1]; [|done].
  match goal with
  | |- match ?a with _ => _ end = match ?b with _ => _ end => assert (Heq : a = b)
  end; [|by rewrite Heq].
  clear. revert self1 fileObject.
  induction members as [|[tarInfo tell inner] members IH]; intros self fileObject; [done|].
  simpl. destruct (index_member _ _ _ _ _ _ _) as [[[]|e] [self' fo']]; [|done].
  apply IH.
Qed.

Lemma createIndex_NotATar disk kind self fileObject pathPrefix streamOffset :
  createIndex tarfile.NotATar disk kind self fileObject pathPrefix streamOffset =
  match createIndex_open disk self with
  | (Raise e, self) => (Raise e, (self, fileObject))
  | (Ok _, self) => (Raise ReadError, (self, fileObject))
  end.
Proof. simpl. by destruct (createIndex_open disk self) as [[opened|e] self1]. Qed.

Lemma Scan_nested_ind (P : tarfile.Scan -> Prop) :
  P tarfile.NotATar ->
  (forall members tell_end,
     Forall (fun m => P (tarfile.inner m)) members -> P (tarfile.Tar members tell_end)) ->
  forall scan, P scan.
Proof.
  intros HN HT. fix IH 1. intros [|members tell_end]; [exact HN|].
  apply HT. induction members as [|[tarInfo tell inner] members IHm]; constructor.
  - apply IH.
  - exact IHm.
Qed.

Lemma files_database db rows : Sql.files db = Some rows -> Sql.is_database db = true.
Proof. by destruct db. Qed.

Lemma add_versions_database kind db :
  Sql.is_database db = true ->
  add_versions kind db
  = Sql.set_versions db (Some (default [] (Sql.versions db)
                               ++ program_versions ++ module_versions kind)).
Proof. intros H. unfold add_versions. by rewrite H. Qed.

Lemma files_add_versions kind db : Sql.files (add_versions kind db) = Sql.files db.
Proof. unfold add_versions. by destruct (Sql.is_database db). Qed.

(** A connection to a database stays one along the scan. *)
Lemma _tryAddParentFolders_connected self path :
  connected self -> connected (snd (_tryAddParentFolders self path)).
Proof.
  intros (db & Hdb & Hreal). unfold _tryAddParentFolders.
  destruct (new_parent_folders _ _); [by exists db|].
  cbn [sqlConnection set_parentFolderCache]. rewrite Hdb.
  destruct (Sql.parentfolders db); cbn [snd]; [|by exists db].
  eexists. split; [done|]. by destruct db.
Qed.

Lemma _setFileInfo_connected self row :
  connected self -> connected (snd (_setFileInfo self row)).
Proof.
  intros (db & Hdb & Hreal). unfold _setFileInfo. rewrite Hdb.
  destruct (Sql.files db); [|by exists db].
  apply _tryAddParentFolders_connected. eexists. split; [done|]. by destruct db.
Qed.

Lemma index_member_connected descend streamed self fileObject pathPrefix streamOffset tarInfo
      r self' fileObject' :
  (forall self fileObject pathPrefix streamOffset r self' fileObject',
     descend self fileObject pathPrefix streamOffset = (r, (self', fileObject')) ->
     r = Ok tt \/ r = Raise ReadError -> connected self') ->
  connected self ->
  index_member descend streamed self fileObject pathPrefix streamOffset tarInfo
  = (r, (self', fileObject')) ->
  r = Ok tt \/ r = Raise ReadError -> connected self'.
Proof.
  intros Hd Hc.
  assert (Hset : forall self1 mode isTar fo2,
            connected self1 ->
            match PyStr.rsplit1 (member_fullPath pathPrefix tarInfo) with
            | Some (path, name) =>
              let '(r, self) :=
                _setFileInfo self1 (member_row path name streamOffset tarInfo mode isTar) in
              (r, (self, fo2))
            | None => (Raise ValueError, (self1, fo2))
            end = (r, (self', fileObject')) ->
            r = Ok tt \/ r = Raise ReadError -> connected self').
  { intros self1 mode isTar fo2 Hc1. destruct (PyStr.rsplit1 _) as [[path name]|].
    - destruct (_setFileInfo _ _) as [r2 self2] eqn:Hs. intros [= <- <- <-] _.
      change self2 with (snd (r2, self2)). rewrite <- Hs.
      by apply _setFileInfo_connected.
    - by intros [= <- <- <-] [?|?]. }
  unfold index_member, recurse_into, fseek.
  destruct (mountRecursively self && tarfile.isfile tarInfo && _); [|by apply Hset].
  destruct (_ <? 0); [by intros [= <- <- <-] [?|?]|].
  destruct (descend _ _ _ _) as [r1 [self1 fo1]] eqn:Hdesc.
  assert (Hc1 : r1 = Ok tt \/ r1 = Raise ReadError ->
                connected (set_tarFileName self1 (tarFileName self))).
  { intros Hr. destruct (Hd _ _ _ _ _ _ _ Hdesc Hr) as (db & ? & ?). by exists db. }
  destruct r1 as [[]|e].
  - destruct (_ <? 0); [by intros [= <- <- <-] [?|?]|].
    apply Hset, Hc1. by left.
  - destruct e; try (by intros [= <- <- <-] [?|?]).
    destruct (_ <? 0); [by intros [= <- <- <-] [?|?]|].
    apply Hset, Hc1. by right.
Qed.

Lemma createIndex_open_connected disk self opened self' :
  createIndex_open disk self = (Ok opened, self') -> connected self'.
Proof.
  unfold createIndex_open, indexIsLoaded, _openSqlDb.
  destruct (sqlConnection self) as [db|] eqn:Hdb.
  - destruct (Sql.files db) as [rows|] eqn:Hf.
    + intros [= <- <-]. exists db. split; [done|]. by destruct db.
    + destruct (Sql.is_database db); [|done].
      destruct (Sql.is_database _) eqn:Hreal; [|done]. cbn [sqlConnection set_sqlConnection].
      destruct (already_has_table _); [done|]. intros [= <- <-].
      unfold connected. eexists. split; reflexivity.
  - destruct (Sql.is_database _) eqn:Hreal; [|done]. cbn [sqlConnection set_sqlConnection].
    destruct (already_has_table _); [done|]. intros [= <- <-].
    unfold connected. eexists. split; reflexivity.
Qed.

Lemma createIndex_open_raises disk self e self' :
  createIndex_open disk self = (Raise e, self') -> e <> ReadError.
Proof.
  unfold createIndex_open, indexIsLoaded, _openSqlDb.
  destruct (sqlConnection self) as [db|].
  - destruct (Sql.files db); [done|].
    destruct (Sql.is_database db); [|by intros [= <- <-]].
    destruct (Sql.is_database _); [|by intros [= <- <-]]. cbn [sqlConnection set_sqlConnection].
    destruct (already_has_table _); [|done]. by intros [= <- <-].
  - destruct (Sql.is_database _); [|by intros [= <- <-]]. cbn [sqlConnection set_sqlConnection].
    destruct (already_has_table _); [|done]. by intros [= <- <-].
Qed.

Lemma finish_index_connected kind opened self r self' :
  connected self -> finish_index kind opened self = (r, self') -> connected self'.
Proof.
  intros (db & Hdb & Hreal). unfold finish_index. rewrite Hdb.
  destruct (if opened then _ else _) as [db1|e] eqn:Hc; intros [= <- <-]; [|by exists db].
  assert (Hreal1 : Sql.is_database db1 = true).
  { destruct opened; [|by injection Hc as <-].
    unfold cleanupDatabase in Hc.
    destruct (Sql.files db), (Sql.filestmp db), (Sql.parentfolders db);
      try discriminate Hc; by injection Hc as <-. }
  unfold connected. eexists. split; [reflexivity|]. unfold add_versions.
  by rewrite Hreal1.
Qed.

Lemma scan_members_connected disk kind pathPrefix streamOffset tell_end members :
  Forall (fun m =>
            forall self fileObject pathPrefix streamOffset r self' fileObject',
              createIndex (tarfile.inner m) disk kind self fileObject pathPrefix streamOffset
              = (r, (self', fileObject')) ->
              r = Ok tt \/ r = Raise ReadError -> connected self') members ->
  forall self fileObject r self' fileObject',
    connected self ->
    scan_members disk kind pathPrefix streamOffset tell_end members self fileObject
    = (r, (self', fileObject')) ->
    r = Ok tt \/ r = Raise ReadError -> connected self'.
Proof.
  induction members as [|[tarInfo tell inner] members IHm];
    intros IH self fileObject r self' fileObject' Hc; cbn [scan_members].
  - by intros [= <- <- <-] _.
  - apply Forall_cons in IH as [IHinner IHrest].
    destruct (index_member _ _ _ _ _ _ _) as [r1 [self2 fo2]] eqn:Him.
    pose proof (index_member_connected _ _ _ _ _ _ _ _ _ _ IHinner Hc Him) as Hc2.
    destruct r1 as [[]|e].
    + apply IHm; [done|]. apply Hc2. by left.
    + intros [= <- <- <-]. exact Hc2.
Qed.

Lemma createIndex_connected scan : forall disk kind self fileObject pathPrefix streamOffset
                                          r self' fileObject',
  createIndex scan disk kind self fileObject pathPrefix streamOffset = (r, (self', fileObject')) ->
  r = Ok tt \/ r = Raise ReadError -> connected self'.
Proof.
  induction scan as [|members tell_end IH] using Scan_nested_ind;
    intros disk kind self fileObject pathPrefix streamOffset r self' fileObject'.
  - rewrite createIndex_NotATar.
    destruct (createIndex_open disk self) as [[opened|e] self1] eqn:Ho.
    + intros [= <- <- <-] _. by eapply createIndex_open_connected.
    + apply createIndex_open_raises in Ho. by intros [= <- <- <-] [?|[= ?]].
  - rewrite createIndex_Tar.
    destruct (createIndex_open disk self) as [[opened|e] self1] eqn:Ho.
    2: { apply createIndex_open_raises in Ho. by intros [= <- <- <-] [?|[= ?]]. }
    apply createIndex_open_connected in Ho.
    destruct (scan_members _ _ _ _ _ _ _ _) as [r1 [self2 fo2]] eqn:Hsm.
    assert (Hc2 : r1 = Ok tt \/ r1 = Raise ReadError -> connected self2).
    { eapply scan_members_connected; [|exact Ho|exact Hsm].
      eapply Forall_impl; [exact IH|]. intros m Hm. cbv beta. intros. by eapply Hm. }
    destruct r1 as [[]|e].
    + destruct (finish_index kind opened self2) as [r3 self3] eqn:Hf.
      intros [= <- <- <-] _. eapply finish_index_connected; [|exact Hf]. apply Hc2. by left.
    + destruct e; try (by intros [= <- <- <-] [?|?]).
      destruct (finish_index kind opened self2) as [r3 self3] eqn:Hf.
      intros [= <- <- <-] _. eapply finish_index_connected; [|exact Hf]. apply Hc2. by right.
Qed.

Lemma finish_index_versions kind opened self self' :
  connected self ->
  finish_index kind opened self = (Ok tt, self') ->
  exists db', sqlConnection self' = Some db'
              /\ exists rows, Sql.versions db' = Some (rows ++ program_versions ++ module_versions kind).
Proof.
  intros (db & Hdb & Hreal). unfold finish_index. rewrite Hdb.
  destruct (if opened then _ else _) as [db1|] eqn:Hc; [|done].
  intros [= <-]. cbn [sqlConnection set_sqlConnection]. eexists; split; [done|].
  assert (Hreal1 : Sql.is_database db1 = true).
  { destruct opened; [|by injection Hc as <-].
    unfold cleanupDatabase in Hc.
    destruct (Sql.files db), (Sql.filestmp db), (Sql.parentfolders db);
      try discriminate Hc; by injection Hc as <-. }
  unfold add_versions. rewrite Hreal1. by eexists.
Qed.

Lemma createIndex_versions scan disk kind self fileObject pathPrefix streamOffset self' fo' :
  createIndex scan disk kind self fileObject pathPrefix streamOffset = (Ok tt, (self', fo')) ->
  exists db', sqlConnection self' = Some db'
              /\ exists rows, Sql.versions db' = Some (rows ++ program_versions ++ module_versions kind).
Proof.
  destruct scan as [|members tell_end].
  - rewrite createIndex_NotATar. by destruct (createIndex_open disk self) as [[|] ?].
  - rewrite createIndex_Tar.
    destruct (createIndex_open disk self) as [[opened|] self1] eqn:Ho; [|done].
    apply createIndex_open_connected in Ho.
    destruct (scan_members _ _ _ _ _ _ _ _) as [r1 [self2 fo2]] eqn:Hsm.
    assert (Hc2 : r1 = Ok tt \/ r1 = Raise ReadError -> connected self2).
    { eapply scan_members_connected; [|exact Ho|exact Hsm].
      apply Forall_forall. intros m _. cbv beta. intros. by eapply createIndex_connected. }
    destruct r1 as [[]|e].
    + destruct (finish_index kind opened self2) as [r self3] eqn:Hf.
      intros [= -> -> ->]. eapply finish_index_versions; [|exact Hf]. apply Hc2. by left.
    + destruct e; try done.
      destruct (finish_index kind opened self2) as [r self3] eqn:Hf.
      intros [= -> -> ->]. eapply finish_index_versions; [|exact Hf]. apply Hc2. by right.
Qed.

(** C8, as the code has it: without a loaded index, [createIndex] opens
    the database and raises when one of ["files"], ["filestmp"] and
    ["parentfolders"] exists, filled or not; otherwise it creates these
    three tables, empty, and leaves the others alone.  On a file that is no
    database it raises [DatabaseError] when it opens it.  ["versions"]
    exists when [createIndex] has returned, ["metadata"] is created by
    [_storeTarMetadata]. *)
Theorem createIndex_open_tables :
  (forall disk self,
     fst (indexIsLoaded self) = Ok false ->
     let db := match indexFileName self with
               | Some p => default Sql.empty (disk !! p)
               | None => Sql.empty
               end in
     let r := createIndex_open disk self in
     (is_Some (Sql.files db) \/ is_Some (Sql.filestmp db) \/ is_Some (Sql.parentfolders db) ->
      exists msg, fst r = Raise (PyException msg))
     /\ (Sql.files db = None -> Sql.filestmp db = None -> Sql.parentfolders db = None ->
         Sql.is_database db = true ->
         fst r = Ok true
         /\ exists db', sqlConnection (snd r) = Some db'
              /\ Sql.files db' = Some ∅ /\ Sql.filestmp db' = Some []
              /\ Sql.parentfolders db' = Some ∅
              /\ Sql.versions db' = Sql.versions db
              /\ Sql.metadata db' = Sql.metadata db)
     /\ (Sql.is_database db = false ->
         fst r = Raise DatabaseError /\ sqlConnection (snd r) = Some db))
  /\ (forall scan disk kind self fileObject pathPrefix streamOffset self' fo',
        createIndex scan disk kind self fileObject pathPrefix streamOffset = (Ok tt, (self', fo')) ->
        exists db', sqlConnection self' = Some db' /\ is_Some (Sql.versions db'))
  /\ (forall self db tarStats,
        sqlConnection self = Some db -> Sql.is_database db = true -> Sql.metadata db = None ->
        exists db', sqlConnection (_storeTarMetadata self tarStats) = Some db'
                    /\ Sql.metadata db' = Some [("tarstats", serializedTarStats tarStats)]).
Proof.
  split; [|split].
  - intros disk self Hl db r. subst r. unfold createIndex_open.
    destruct (indexIsLoaded self) as [loaded self0] eqn:Hil. simpl in Hl. subst loaded.
    assert (Hname : indexFileName self0 = indexFileName self).
    { unfold indexIsLoaded in Hil. destruct (sqlConnection self) as [d|]; [|by inversion Hil].
      destruct (Sql.files d); [done|]. destruct (Sql.is_database d); by inversion Hil. }
    unfold _openSqlDb. rewrite Hname. fold db. clearbody db.
    destruct db as [[f|] [ft|] [pf|] [v|] [m|] [|] [|]|]; cbn;
      (split; [intros [[? ?]|[[? ?]|[? ?]]]; try done; by eexists
              |split; [intros; try done; (split; [done|]); eexists; by repeat split
                      |by intros]]).
  - intros * H. apply createIndex_versions in H as (db' & Hdb & rows & Hv).
    exists db'. by rewrite Hv.
  - intros self db tarStats Hdb Hreal Hm. unfold _storeTarMetadata. rewrite Hdb, Hm, Hreal.
    simpl. eexists; split; reflexivity.
Qed.

Lemma createIndex_open_tables_witness :
  fst (createIndex_open Samples.leftover_disk Samples.leftover_indexer) = Ok true.
Proof.
  pose proof createIndex_open_tables as (Hopen & _ & _).
  destruct (Hopen Samples.leftover_disk Samples.leftover_indexer eq_refl) as (_ & Hnew & _).
  destruct Hnew as [Hr _]; [reflexivity..|].
  exact Hr.
Defined.

(** C8 as stated fails twice: a new database gets the three tables of the
    scan and neither ["versions"] nor ["metadata"]; and a database that
    already has filled ["versions"] and ["metadata"] tables is not
    rejected. *)
Lemma createIndex_open_counterexample :
  Sql.tables <$> sqlConnection (snd (createIndex_open ∅ (Samples.fresh false)))
    = Some ["files"; "filestmp"; "parentfolders"]
  /\ Samples.leftover_disk !! "archive.tar.index.sqlite" = Some Samples.leftover_db
  /\ (exists row rows, Sql.versions Samples.leftover_db = Some (row :: rows))
  /\ (exists row rows, Sql.metadata Samples.leftover_db = Some (row :: rows))
  /\ fst (createIndex_open Samples.leftover_disk Samples.leftover_indexer) = Ok true.
Proof.
  split; [reflexivity|]. split; [reflexivity|].
  split; [by do 2 eexists|]. split; [by do 2 eexists|]. reflexivity.
Qed.

End CreateIndex.

(** ** Loading an index *)

Section LoadIndex.
Import SQLiteIndexedTar.

Lemma dict_of_lookup {A B} (f : A -> B) (rows : list (string * A)) (k : string) :
  dict_of f rows !! k = f <$> assoc_last k rows.
Proof.
  unfold dict_of.
  enough (H : forall d : gmap string B,
             fold_left (fun d (row : string * A) => <[row.1 := f row.2]> d) rows d !! k
             = match assoc_last k rows with Some v => Some (f v) | None => d !! k end).
  { rewrite H. by destruct (assoc_last k rows). }
  induction rows as [|[k' v] rows IH]; intros d; simpl; [done|].
  rewrite IH. destruct (assoc_last k rows); [done|].
  destruct (String.eqb_spec k' k) as [->|Hne].
  - by rewrite lookup_insert_eq.
  - by rewrite lookup_insert_ne.
Qed.

Lemma load_versions_lookup db rows (k : string) :
  Sql.versions db = Some rows ->
  exists d, load_versions db = Some d
            /\ d !! k = assoc_last k (map version_numbers rows).
Proof.
  intros Hv. unfold load_versions. rewrite Hv. eexists; split; [done|].
  pose proof (dict_of_lookup id (map version_numbers rows) k) as H.
  rewrite option_fmap_id in H. rewrite <- H. unfold dict_of. clear.
  generalize (∅ : gmap string (Sql.value * Sql.value * Sql.value)).
  induction rows as [|[[[[n ver] major] minor] patch] rows IH]; intros d; simpl; [done|].
  apply IH.
Qed.

Lemma tables_spec db :
  str_in "files" (Sql.tables db) = bool_decide (is_Some (Sql.files db))
  /\ str_in "filestmp" (Sql.tables db) = bool_decide (is_Some (Sql.filestmp db))
  /\ str_in "parentfolders" (Sql.tables db) = bool_decide (is_Some (Sql.parentfolders db))
  /\ str_in "versions" (Sql.tables db) = bool_decide (is_Some (Sql.versions db))
  /\ str_in "metadata" (Sql.tables db) = bool_decide (is_Some (Sql.metadata db))
  /\ str_in "bzip2blocks" (Sql.tables db) = Sql.bzip2blocks db.
Proof.
  destruct db as [[f|] [ft|] [pf|] [v|] [m|] [|] [|]|]; vm_compute; by repeat split.
Qed.

Lemma lt_2_spec (v : Sql.value) :
  match lt_2 v with
  | Raise e => is_number v = false
  | Ok b => is_number v = true /\ (b = true <-> below_2 v)
  end.
Proof.
  destruct v as [|n|x|negative|s|b]; cbn; try done.
  - split; [done|]. apply Z.ltb_lt.
  - split; [done|]. apply bool_decide_eq_true.
Qed.

Lemma check_outdated_spec db :
  match check_outdated (Sql.tables db) (load_versions db) with
  | Raise e => index_minor_unusable db
  | Ok printed =>
    ~ index_minor_unusable db
    /\ (index_outdated db /\ printed = [outdated_warning]
        \/ ~ index_outdated db /\ printed = [])
  end.
Proof.
  unfold check_outdated, index_minor_unusable, index_outdated.
  destruct (tables_spec db) as (_&_&_&->&_).
  destruct (Sql.versions db) as [rows|] eqn:Hv.
  - rewrite bool_decide_eq_true_2 by eauto. simpl.
    destruct (load_versions_lookup db rows "index" Hv) as (d & -> & ->).
    destruct (assoc_last "index" _) as [[[major minor] patch]|] eqn:Hl.
    + pose proof (lt_2_spec minor) as Hlt.
      destruct (lt_2 minor) as [b|e].
      * destruct Hlt as [Hnum Hb].
        destruct b;
          (split; [intros (rows' & ma & mi & pa & [= <-] & Ha & Hf);
                   rewrite Hl in Ha; injection Ha as <- <- <-; congruence|]).
        -- left. split; [|done]. by apply Hb.
        -- right. split; [|done]. intros Hbelow. by apply Hb in Hbelow.
      * exists rows, major, minor, patch. by repeat split.
    + split; [|by left]. intros (rows' & ma & mi & pa & [= <-] & Ha & _).
      by rewrite Hl in Ha.
  - rewrite bool_decide_eq_false_2 by (by intros [? ?]). simpl.
    split; [|by left]. by intros (?&?&?&?&?&_).
Qed.

Lemma ex_Some_eq {A} (x : A) (P : A -> Prop) :
  (exists y, Some x = Some y /\ P y) <-> P x.
Proof.
  split; [by intros (y & [= <-] & H)|]. intros H. by exists x.
Qed.

Lemma prefix_spec (sub s : string) :
  String.prefix sub s = true <-> exists after, s = sub +:+ after.
Proof.
  revert s. induction sub as [|c sub IH]; intros [|c' s]; simpl.
  - split; [|done]. intros _. by exists "".
  - split; [|done]. intros _. by exists (String c' s).
  - split; [done|]. by intros [? [=]].
  - destruct (Ascii.ascii_dec c c') as [->|Hne].
    + rewrite IH. split; intros [after H]; exists after; [by rewrite H|by injection H].
    + split; [done|]. by intros [after [= ? _]].
Qed.

Lemma contains_spec (s sub : string) :
  PyStr.contains s sub = true <-> occurs_in sub s.
Proof.
  unfold occurs_in. induction s as [|c s IH]; cbn [PyStr.contains].
  - rewrite orb_false_r, prefix_spec. split.
    + intros [after H]. by exists "", after.
    + intros (before & after & H). destruct before as [|c before]; [by exists after|done].
  - rewrite orb_true_iff, prefix_spec, IH. split.
    + intros [[after H]|(before & after & H)].
      * by exists "", after.
      * exists (String c before), after. by rewrite H.
    + intros (before & after & H). destruct before as [|c' before].
      * left. by exists after.
      * right. injection H as _ H. by exists before, after.
Qed.

Lemma eq_number_spec (x : Qc) (j : Json.t) :
  Json.eq_number x j = true <-> is_the_number x j.
Proof.
  unfold is_the_number.
  destruct j as [|[|]|y| |s|items|members]; cbn; rewrite ?bool_decide_eq_true.
  all: try (split; [done|]; by intros [?|[[? ?]|[? ?]]]).
  - split; [intros ->; right; by left|]. by intros [?|[[_ ->]|[? ?]]].
  - split; [intros ->; right; by right|]. by intros [?|[[? ?]|[_ ->]]].
  - split; [intros ->; by left|]. by intros [[= ->]|[[? ?]|[? ?]]].
Qed.

Lemma has_string_spec (key : string) (items : list Json.t) :
  existsb (Json.eq_string key) items = true <-> Json.JString key ∈ items.
Proof.
  rewrite existsb_exists. split.
  - intros (j & Hin & Heq). apply list_elem_of_In in Hin.
    destruct j; try done. cbn in Heq. apply String.eqb_eq in Heq. by subst.
  - intros Hin. exists (Json.JString key). split; [by apply list_elem_of_In|].
    cbn. apply String.eqb_refl.
Qed.

Lemma has_changed_loaded (x : Qc) (j : Json.t) (key : string) :
  match has_changed x (Loaded j) key with
  | Ok false => ~ changed_in j key x
  | Ok true | Raise _ => changed_in j key x
  end.
Proof.
  unfold has_changed, has_key, differs, changed_in.
  destruct j as [|b|y| |s|items|members]; try done.
  - destruct (PyStr.contains s key) eqn:E.
    + by apply contains_spec.
    + intros H. apply contains_spec in H. congruence.
  - destruct (existsb _ items) eqn:E.
    + by apply has_string_spec.
    + intros H. apply has_string_spec in H. congruence.
  - rewrite dict_of_lookup, option_fmap_id.
    destruct (assoc_last key members) as [v|]; cbn.
    + destruct (Json.eq_number x v) eqn:E; cbn.
      * intros (v' & [= <-] & Hv). apply Hv. by apply eq_number_spec.
      * exists v. split; [done|]. intros Hv. apply eq_number_spec in Hv. congruence.
    + by intros (v' & [=] & _).
Qed.

Lemma check_metadata_spec db tarStats :
  is_ok (check_metadata db tarStats) = false <-> stale db tarStats.
Proof.
  unfold check_metadata, stale.
  destruct (Sql.metadata db) as [rows|]; [|split; [done|by intros (?&?&_)]].
  rewrite ex_Some_eq.
  rewrite !dict_of_lookup, option_fmap_id.
  destruct (assoc_last "tarstats" rows) as [[text|j]|].
  - done.
  - unfold mismatch.
    pose proof (has_changed_loaded (Qc_of_Z (st_size tarStats)) j "st_size") as Hs.
    pose proof (has_changed_loaded (st_mtime tarStats) j "st_mtime") as Hm.
    destruct (has_changed _ (Loaded j) "st_size") as [[|]|e]; cbn.
    + split; [by left|done].
    + destruct (has_changed _ (Loaded j) "st_mtime") as [[|]|e]; cbn.
      * split; [by right|done].
      * split; [done|]. by intros [?|?].
      * split; [by right|done].
    + split; [by left|done].
  - unfold has_changed, has_key, differs. rewrite !dict_of_lookup, option_fmap_id.
    destruct (assoc_last "st_size" rows) as [v|]; cbn.
    + split; [|done]. intros _. left. by eexists.
    + destruct (assoc_last "st_mtime" rows) as [v|]; cbn.
      * split; [|done]. intros _. right. by eexists.
      * split; [done|]. by intros [[? ?]|[? ?]].
Qed.

Lemma validate_index_spec db tarStats :
  match validate_index db tarStats with
  | Raise e => rejected db tarStats
  | Ok printed =>
    ~ rejected db tarStats
    /\ is_Some (Sql.files db)
    /\ (index_outdated db /\ printed = [outdated_warning]
        \/ ~ index_outdated db /\ printed = [])
  end.
Proof.
  unfold validate_index, rejected.
  destruct (tables_spec db) as (-> & -> & -> & -> & _ & ->).
  pose proof (check_outdated_spec db) as Ho.
  pose proof (check_metadata_spec db tarStats) as Hm.
  destruct (Sql.bzip2blocks db) eqn:Hbz, (Sql.versions db) as [v|] eqn:Hv; simpl;
    try (left; by split).
  all: destruct (Sql.files db) as [f|] eqn:Hf; simpl; [|right; by left].
  all: destruct (Sql.filestmp db) as [ft|] eqn:Hft; simpl; [right; right; left; by eexists|].
  all: destruct (Sql.parentfolders db) as [pf|] eqn:Hpf; simpl;
    [right; right; right; left; by eexists|].
  all: destruct (check_outdated _ _) as [printed|e]; [|by do 4 right; left].
  all: destruct (check_metadata db tarStats) as [[]|e]; simpl in Hm;
    [|do 5 right; by apply Hm].
  all: destruct Ho as [Hun Hpr]; (split; [|split; [by eexists|done]]).
  all: intros [[? ?]|[?|[[? ?]|[[? ?]|[?|Hst]]]]]; try done.
  all: by apply Hm in Hst.
Qed.

(** C5, as the code has it.  The index file is an SQLite database with
    the tables as the code declares them, or a file that is no database.
    On a database, [loadIndex] on an indexer without a loaded index raises
    exactly when the database has a table of bzip2 blocks but no
    ["versions"] table, or no ["files"] table, or a ["filestmp"] or a
    ["parentfolders"] table, or an index version whose minor number is no
    number, or stored statistics that do not go with the archive: a text
    that is no JSON, a JSON value that is no object, list or string, a list
    or string with [st_size] or [st_mtime] in it, or an object whose
    [st_size] or [st_mtime] is not the number of the archive.  The
    connection is then given up and no index counts as loaded.  Otherwise
    the connection stays and the index is loaded; what is printed is the one
    warning when the version of the index is missing or below 0.2, and
    nothing else.  On a file that is no database [loadIndex] raises before
    its checks and keeps the connection, on which [indexIsLoaded] raises
    as well. *)
Theorem loadIndex_rejects_iff disk self indexFileName tarStats :
  fst (indexIsLoaded self) = Ok false ->
  let db := default Sql.empty (disk !! indexFileName) in
  let r := loadIndex disk self indexFileName tarStats in
  (Sql.is_database db = true ->
   (is_ok (fst r) = false <->
      (Sql.bzip2blocks db = true /\ Sql.versions db = None)
      \/ Sql.files db = None
      \/ is_Some (Sql.filestmp db)
      \/ is_Some (Sql.parentfolders db)
      \/ index_minor_unusable db
      \/ stale db tarStats)
   /\ (is_ok (fst r) = false ->
       sqlConnection (snd r) = None /\ fst (indexIsLoaded (snd r)) = Ok false)
   /\ (is_ok (fst r) = true ->
       sqlConnection (snd r) = Some db
       /\ fst (indexIsLoaded (snd r)) = Ok true
       /\ (index_outdated db /\ fst r = Ok [outdated_warning]
           \/ ~ index_outdated db /\ fst r = Ok [])))
  /\ (Sql.is_database db = false ->
      fst r = Raise DatabaseError
      /\ sqlConnection (snd r) = Some db
      /\ fst (indexIsLoaded (snd r)) = Raise DatabaseError).
Proof.
  intros Hl db r. subst r. unfold loadIndex.
  destruct (indexIsLoaded self) as [loaded self0]. simpl in Hl. subst loaded.
  unfold _openSqlDb. fold db. split; intros Hreal; rewrite Hreal.
  - cbn [sqlConnection set_sqlConnection].
    pose proof (validate_index_spec db tarStats) as Hv. fold (rejected db tarStats).
    destruct (validate_index db tarStats) as [printed|e]; simpl.
    + destruct Hv as (Hn & [f Hf] & Hpr). repeat split; try done.
      * unfold indexIsLoaded. simpl. by rewrite Hf.
      * by destruct Hpr as [[? ->]|[? ->]]; [left|right].
    + repeat split; done.
  - cbn [fst snd sqlConnection set_sqlConnection]. split; [done|]. split; [done|].
    unfold indexIsLoaded. cbn [sqlConnection set_sqlConnection].
    clearbody db. destruct db; [done|]. reflexivity.
Qed.

Lemma loadIndex_rejects_iff_witness :
  let r := loadIndex Samples.old_plain_disk (Samples.fresh false)
                     "archive.tar.index.sqlite" Samples.archive_stat in
  fst r = Ok [outdated_warning]
  /\ sqlConnection (snd r) = Some Samples.old_plain_db.
Proof.
  intros r.
  pose proof (loadIndex_rejects_iff Samples.old_plain_disk (Samples.fresh false)
                "archive.tar.index.sqlite" Samples.archive_stat eq_refl) as [Hdb _].
  destruct (Hdb eq_refl) as (_ & _ & Hok).
  destruct Hok as (Hc & _ & Hpr); [reflexivity|].
  split; [|exact Hc].
  destruct Hpr as [[_ Hw]|[Hn _]]; [exact Hw|]. by destruct Hn.
Defined.

(** C5 as stated fails: an index with a ["files"] table, without
    ["filestmp"], ["parentfolders"] and ["metadata"], is rejected all the
    same, because it has a table of bzip2 blocks and no ["versions"]
    table: it merely misses the version information. *)
Lemma loadIndex_counterexample :
  let db := Samples.old_bzip2_db in
  let r := loadIndex Samples.old_bzip2_disk (Samples.fresh false)
                     "archive.tar.index.sqlite" Samples.archive_stat in
  Samples.old_bzip2_disk !! "archive.tar.index.sqlite" = Some db
  /\ is_Some (Sql.files db)
  /\ Sql.filestmp db = None /\ Sql.parentfolders db = None
  /\ Sql.metadata db = None
  /\ (exists msg, fst r = Raise (PyException msg))
  /\ sqlConnection (snd r) = None.
Proof.
  intros db r. repeat split; try reflexivity.
  - by eexists.
  - by eexists.
Qed.

(** What [loadIndex] makes of some index files of an archive of 10240
    bytes: a minor version that is a fraction is compared as a number; a
    text is not; the statistics can be a JSON value of any kind; and a
    file that is no database is refused when it is opened. *)
Lemma loadIndex_examples :
  let load db :=
    fst (loadIndex (Samples.only db) (Samples.fresh false) "archive.tar.index.sqlite"
                   Samples.archive_stat) in
  let stats j := Some (Sql.Json j) in
  load (Samples.index_db (Sql.Real (Q2Qc (3 # 2))) None) = Ok [outdated_warning]
  /\ load (Samples.index_db (Sql.Real (Q2Qc (5 # 2))) None) = Ok []
  /\ load (Samples.index_db (Sql.Infinity true) None) = Ok [outdated_warning]
  /\ load (Samples.index_db (Sql.Text "abc") None) = Raise TypeError
  /\ load (Samples.index_db Sql.Null None) = Raise TypeError
  /\ load (Samples.index_db (Sql.Int 2) (stats (Json.JNumber 5))) = Raise TypeError
  /\ load (Samples.index_db (Sql.Int 2) (stats Json.JNull)) = Raise TypeError
  /\ load (Samples.index_db (Sql.Int 2) (stats (Json.JString "abc"))) = Ok []
  /\ load (Samples.index_db (Sql.Int 2) (stats (Json.JString "xst_mtimey"))) = Raise TypeError
  /\ load (Samples.index_db (Sql.Int 2) (stats (Json.JArray []))) = Ok []
  /\ load (Samples.index_db (Sql.Int 2) (stats (Json.JArray [Json.JString "st_size"])))
     = Raise TypeError
  /\ load (Samples.index_db (Sql.Int 2)
                            (stats (Json.JArray [Json.JArray [Json.JString "st_size"]])))
     = Ok []
  /\ load (Samples.index_db (Sql.Int 2) (stats (Json.JObject []))) = Ok []
  /\ load (Samples.index_db (Sql.Int 2)
                            (stats (Json.JObject [("st_size", Json.JNumber 1);
                                                  ("st_size", Json.JNumber 10240)])))
     = Ok []
  /\ load (Samples.index_db (Sql.Int 2)
                            (stats (Json.JObject [("st_size", Json.JString "10240")])))
     = Raise (PyException "TAR file for this SQLite index has changed size")
  /\ load (Samples.index_db (Sql.Int 2) (stats (Json.JObject [("st_mtime", Json.JNull)])))
     = Raise (PyException "The modification date for the TAR file has changed")
  /\ load (Samples.index_db (Sql.Int 2) (Some (Sql.NotJson "{"))) = Raise ValueError
  /\ load Sql.NotADatabase = Raise DatabaseError.
Proof. vm_compute. repeat split. Qed.

End LoadIndex.

(** ** The descent into a contained TAR *)

Section Descent.
Import SQLiteIndexedTar.

Lemma directory_mode_is_dir mode : stat.S_ISDIR (directory_mode mode) = true.
Proof.
  unfold stat.S_ISDIR, stat.S_IFMT, directory_mode.
  apply Z.eqb_eq.
  assert (H0 : Z.land (Z.land mode 511) stat.S_IFMT_MASK = 0).
  { rewrite <- Z.land_assoc. change (Z.land 511 stat.S_IFMT_MASK) with 0.
    by rewrite Z.land_0_r. }
  repeat match goal with
         | |- context [if ?b then _ else _] => destruct b
         end;
    rewrite ?Z.land_lor_distr_l, H0; reflexivity.
Qed.

Lemma directory_mode_low mode : directory_mode (Z.land mode 511) = directory_mode mode.
Proof.
  unfold directory_mode. rewrite <- Z.land_assoc. by change (Z.land 511 511) with 511.
Qed.

(** The directory mode, tested for each value of the low nine bits of the
    mode: the read and write bits are kept, an execute bit is set where it
    was set or where the read bit of the same class is set. *)
Lemma directory_mode_checked :
  forallb
    (fun k =>
       let m := directory_mode k in
       (Z.land m 438 =? Z.land k 438)
       && (Z.land m 73 =? Z.lor (Z.land k 73) (Z.shiftr (Z.land k 292) 2)))
    (map Z.of_nat (seq 0 512)) = true.
Proof. vm_compute. reflexivity. Qed.

Lemma directory_mode_bits mode :
  Z.land (directory_mode mode) 438 = Z.land mode 438
  /\ Z.land (directory_mode mode) 73
     = Z.lor (Z.land mode 73) (Z.shiftr (Z.land mode 292) 2).
Proof.
  pose proof directory_mode_checked as Hall. rewrite forallb_forall in Hall.
  specialize (Hall (Z.land mode 511)).
  assert (Hrange : 0 <= Z.land mode 511 < 512).
  { change 511 with (Z.ones 9). rewrite Z.land_ones by lia.
    change (2 ^ 9) with 512. apply Z.mod_pos_bound. lia. }
  rewrite directory_mode_low in Hall. cbv zeta in Hall.
  rewrite <- !Z.land_assoc in Hall.
  change (Z.land 511 438) with 438 in Hall. change (Z.land 511 73) with 73 in Hall.
  change (Z.land 511 292) with 292 in Hall.
  destruct (andb_prop _ _ (Hall ltac:(apply in_map_iff; exists (Z.to_nat (Z.land mode 511));
                                        split; [lia|apply in_seq; lia])))
    as [H1 H2].
  apply Z.eqb_eq in H1, H2. by split.
Qed.

Lemma recurse_into_off descend streamed self fileObject tarInfo mode fullPath globalOffset :
  mountRecursively self = false ->
  recurse_into descend streamed self fileObject tarInfo mode fullPath globalOffset
  = (Ok (mode, false), (self, fileObject)).
Proof. intros H. unfold recurse_into. by rewrite H. Qed.

Lemma tables_of_tryAddParentFolders self path :
  sqlConnection (snd (_tryAddParentFolders self path)) ≫= Sql.files
  = sqlConnection self ≫= Sql.files.
Proof.
  unfold _tryAddParentFolders. destruct (new_parent_folders _ _); [done|].
  change (sqlConnection (set_parentFolderCache self ?c)) with (sqlConnection self).
  destruct (sqlConnection self) as [db|] eqn:E;
    [|by cbn [snd sqlConnection set_parentFolderCache]; rewrite E].
  destruct (Sql.parentfolders db); [done|].
  by cbn [snd sqlConnection set_parentFolderCache]; rewrite E.
Qed.

Lemma tarFileName_setFileInfo self row :
  tarFileName (snd (_setFileInfo self row)) = tarFileName self.
Proof. unfold _setFileInfo, _tryAddParentFolders. by repeat case_match. Qed.

(** The row of [row] is in the table of the files after [_setFileInfo],
    whatever becomes of the parent folders. *)
Lemma _setFileInfo_files (self : t) (row : Sql.FileRow) (db : Sql.Db)
      (rows : gmap (string * string) Sql.FileRow) :
  sqlConnection self = Some db -> Sql.files db = Some rows ->
  sqlConnection (snd (_setFileInfo self row)) ≫= Sql.files
  = Some (<[Sql.key row := row]> rows).
Proof.
  intros Hdb Hrows. unfold _setFileInfo. rewrite Hdb, Hrows.
  by rewrite tables_of_tryAddParentFolders.
Qed.

End Descent.

(** ** The read path *)

Section ReadPath.
Import TarMount.

Variable extractfile : StenciledFile.t -> Z -> Z -> outcome bytes * StenciledFile.t.

Lemma read_S depth self path len off :
  read extractfile (S depth) self path len off =
  match SQLiteIndexedTar.getFileInfo (indexedTar self) path with
  | Raise e => (Raise e, self)
  | Ok None => (Raise ENOENT, self)
  | Ok (Some fileInfo) =>
    if is_hard_link fileInfo && negb (String.eqb (targetLink fileInfo) path)
    then read extractfile depth self (targetLink fileInfo) len off
    else if SQLiteIndexedTar.issparse fileInfo
    then read_sparse extractfile self fileInfo len off
    else
      match fseek (tarFile self) (SQLiteIndexedTar.offset fileInfo + off) with
      | (Raise e, f) => (Raise e, set_tarFile self f)
      | (Ok _, f) =>
        let '(data, f) := fread f len in
        (Ok data, set_tarFile self f)
      end
  end.
Proof. reflexivity. Qed.

(** Reading straight from the archive stream. *)
Lemma read_direct depth self path len off fileInfo :
  SQLiteIndexedTar.getFileInfo (indexedTar self) path = Ok (Some fileInfo) ->
  is_hard_link fileInfo && negb (String.eqb (targetLink fileInfo) path) = false ->
  SQLiteIndexedTar.issparse fileInfo = false ->
  0 <= SQLiteIndexedTar.offset fileInfo + off ->
  0 <= len ->
  let data := f_data (tarFile self) in
  let result := take (Z.to_nat len) (drop (Z.to_nat (SQLiteIndexedTar.offset fileInfo + off)) data) in
  read extractfile (S depth) self path len off
  = (Ok result,
     set_tarFile self (mkFileObj data (SQLiteIndexedTar.offset fileInfo + off
                                       + Z.of_nat (length result)))).
Proof.
  intros Hinfo Hlink Hsparse Hpos Hlen data result.
  rewrite read_S, Hinfo, Hlink, Hsparse. unfold fseek.
  destruct (_ <? 0) eqn:E; [apply Z.ltb_lt in E; lia|].
  unfold fread. simpl.
  destruct (len <? 0) eqn:E'; [apply Z.ltb_lt in E'; lia|]. done.
Qed.

(** C1, as the code has it: for a regular, not sparse member found under
    [path], [read] seeks the archive stream to [offset_data + off] and returns
    the [len] bytes from there, fewer only at the end of the stream.  These
    are the bytes from [off] to [off + len] of the member's content as long as
    [off + len] stays inside the member. *)
Theorem read_regular_file depth self path len off fileInfo :
  SQLiteIndexedTar.getFileInfo (indexedTar self) path = Ok (Some fileInfo) ->
  stat.S_ISREG (SQLiteIndexedTar.mode fileInfo) = true ->
  SQLiteIndexedTar.issparse fileInfo = false ->
  0 <= SQLiteIndexedTar.offset fileInfo ->
  0 <= off -> 0 <= len ->
  let data := f_data (tarFile self) in
  let content := take (Z.to_nat (SQLiteIndexedTar.size fileInfo))
                      (drop (Z.to_nat (SQLiteIndexedTar.offset fileInfo)) data) in
  let stream_bytes :=
    take (Z.to_nat len) (drop (Z.to_nat (SQLiteIndexedTar.offset fileInfo + off)) data) in
  let r := read extractfile (S depth) self path len off in
  fst r = Ok stream_bytes
  /\ tarFile (snd r)
     = mkFileObj data (SQLiteIndexedTar.offset fileInfo + off + Z.of_nat (length stream_bytes))
  /\ (off + len <= SQLiteIndexedTar.size fileInfo ->
      fst r = Ok (take (Z.to_nat len) (drop (Z.to_nat off) content))).
Proof.
  intros Hinfo Hreg Hsparse Ho Hoff Hlen data content stream_bytes r.
  assert (Hr : r = (Ok stream_bytes,
                    set_tarFile self (mkFileObj data (SQLiteIndexedTar.offset fileInfo + off
                                                      + Z.of_nat (length stream_bytes))))).
  { apply read_direct; try done; [|lia]. unfold is_hard_link. by rewrite Hreg. }
  rewrite Hr. simpl. repeat split.
  intros Hin. f_equal. subst content stream_bytes.
  rewrite take_drop_take by lia. rewrite drop_drop. do 2 f_equal. lia.
Qed.

(** C2, as the code has it: for a member that is neither a regular file nor
    a symbolic link and has a link name, [read] on a path other than the
    target is the [read] on the target, one call deeper, which follows a
    further link in the same way; when the target is the path itself, [read]
    raises nothing and returns the bytes at the member's own data offset.
    Through a link to a member that is no such link, two nested calls give the
    bytes of the target. *)
Theorem read_follows_hard_links depth self path len off fileInfo :
  SQLiteIndexedTar.getFileInfo (indexedTar self) path = Ok (Some fileInfo) ->
  stat.S_ISREG (SQLiteIndexedTar.mode fileInfo) = false ->
  stat.S_ISLNK (SQLiteIndexedTar.mode fileInfo) = false ->
  SQLiteIndexedTar.linkname fileInfo <> "" ->
  0 <= len ->
  let data := f_data (tarFile self) in
  let bytes_at (pos : Z) := take (Z.to_nat len) (drop (Z.to_nat pos) data) in
  (targetLink fileInfo <> path ->
   read extractfile (S depth) self path len off
   = read extractfile depth self (targetLink fileInfo) len off)
  /\ (targetLink fileInfo = path ->
      SQLiteIndexedTar.issparse fileInfo = false ->
      0 <= SQLiteIndexedTar.offset fileInfo + off ->
      fst (read extractfile (S depth) self path len off)
      = Ok (bytes_at (SQLiteIndexedTar.offset fileInfo + off)))
  /\ (forall target,
        targetLink fileInfo <> path ->
        SQLiteIndexedTar.getFileInfo (indexedTar self) (targetLink fileInfo) = Ok (Some target) ->
        is_hard_link target = false ->
        SQLiteIndexedTar.issparse target = false ->
        0 <= SQLiteIndexedTar.offset target + off ->
        fst (read extractfile (S (S depth)) self path len off)
        = Ok (bytes_at (SQLiteIndexedTar.offset target + off))).
Proof.
  intros Hinfo Hreg Hlnk Hname Hlen data bytes_at.
  assert (Hlink : is_hard_link fileInfo = true).
  { unfold is_hard_link. rewrite Hreg, Hlnk. simpl.
    by destruct (String.eqb_spec (SQLiteIndexedTar.linkname fileInfo) ""). }
  assert (Hhop : targetLink fileInfo <> path ->
                 forall d, read extractfile (S d) self path len off
                           = read extractfile d self (targetLink fileInfo) len off).
  { intros Hne d. rewrite read_S, Hinfo, Hlink.
    by destruct (String.eqb_spec (targetLink fileInfo) path). }
  split; [|split].
  - intros Hne. by apply Hhop.
  - intros Heq Hsparse Hpos.
    rewrite (read_direct depth self path len off fileInfo); try done.
    rewrite Heq, String.eqb_refl. by rewrite andb_false_r.
  - intros target Hne Htarget Hnolink Hsparse Hpos.
    rewrite Hhop by done.
    rewrite (read_direct depth self (targetLink fileInfo) len off target); try done.
    by rewrite Hnolink.
Qed.

End ReadPath.

(** *** The read path on the sample archives *)

Lemma read_regular_file_witness :
  fst (TarMount.read Samples.no_sparse 1 Samples.symlink_mount "/a.txt" 5 2)
  = Ok (Samples.B "23456").
Proof.
  pose proof (read_regular_file Samples.no_sparse 0 Samples.symlink_mount "/a.txt" 5 2
                Samples.a_txt_info eq_refl eq_refl eq_refl
                ltac:(done) ltac:(done) ltac:(done)) as H.
  cbv zeta in H. destruct H as (_ & _ & H). rewrite H; [reflexivity|done].
Defined.

(** C1 as stated fails: [/a.txt] has the 10 bytes [0123456789]; reading 20
    bytes at offset 0 does not stop at the member's end but returns 20 bytes,
    the content and the padding that follows it in the archive. *)
Lemma read_regular_file_counterexample :
  SQLiteIndexedTar.getFileInfo (TarMount.indexedTar Samples.symlink_mount) "/a.txt"
    = Ok (Some Samples.a_txt_info)
  /\ take 10 (drop 512 (f_data (TarMount.tarFile Samples.symlink_mount))) = Samples.a_txt_content
  /\ take 20 (drop 0 Samples.a_txt_content) = Samples.a_txt_content
  /\ fst (TarMount.read Samples.no_sparse 1 Samples.symlink_mount "/a.txt" 20 0)
     = Ok (Samples.a_txt_content ++ replicate 10 x00)
  /\ fst (TarMount.read Samples.no_sparse 1 Samples.symlink_mount "/a.txt" 20 0)
     <> Ok (take 20 (drop 0 Samples.a_txt_content)).
Proof.
  repeat split; try reflexivity. vm_compute. discriminate.
Qed.

Lemma read_follows_hard_links_witness :
  fst (TarMount.read Samples.no_sparse 2 Samples.hardlink_mount "/hard" 3 0)
  = Ok (Samples.B "012").
Proof.
  pose proof (read_follows_hard_links Samples.no_sparse 0 Samples.hardlink_mount "/hard" 3 0
                Samples.hard_info eq_refl eq_refl eq_refl
                ltac:(discriminate) ltac:(done)) as H.
  cbv zeta in H. destruct H as (_ & _ & H).
  rewrite (H Samples.a_txt_info); [reflexivity|discriminate|reflexivity..|done].
Defined.

(** C2 as stated fails twice.  The hard link [self] names itself: [read]
    returns bytes, no error.  The hard link [second] names the hard link
    [hard], which names [a.txt]: with room for one nested call only the read
    does not come to an end, with room for two it returns the bytes of
    [a.txt], so two links are followed. *)
Lemma read_single_hop_counterexample :
  SQLiteIndexedTar.getFileInfo (TarMount.indexedTar Samples.hardlink_mount) "/self"
    = Ok (Some Samples.self_info)
  /\ TarMount.is_hard_link Samples.self_info = true
  /\ TarMount.targetLink Samples.self_info = "/self"
  /\ fst (TarMount.read Samples.no_sparse 1 Samples.hardlink_mount "/self" 3 0)
     = Ok [x00; x00; x00]
  /\ fst (TarMount.read Samples.no_sparse 2 Samples.hardlink_mount "/second" 3 0)
     = Raise RecursionError
  /\ fst (TarMount.read Samples.no_sparse 3 Samples.hardlink_mount "/second" 3 0)
     = Ok (Samples.B "012").
Proof. repeat split; reflexivity. Qed.

(** C3, as the code has it: [readlink] gives the link name; [read] on the
    symbolic link does not follow it and returns the bytes at the link
    member's own data offset, here three zero bytes after its header; the
    bytes [012] are read under the target's path, and through a hard link
    to [a.txt]. *)
Theorem symlink_is_not_followed extractfile depth :
  TarMount.readlink Samples.symlink_mount "/link" = Ok "a.txt"
  /\ fst (TarMount.read extractfile (S depth) Samples.symlink_mount "/link" 3 0)
     = Ok [x00; x00; x00]
  /\ fst (TarMount.read extractfile (S depth) Samples.symlink_mount "/a.txt" 3 0)
     = Ok (Samples.B "012")
  /\ TarMount.readlink Samples.hardlink_mount "/hard" = Ok "a.txt"
  /\ fst (TarMount.read extractfile (S (S depth)) Samples.hardlink_mount "/hard" 3 0)
     = Ok (Samples.B "012").
Proof. repeat split; reflexivity. Qed.

(** C3 as stated fails: whatever the depth allowed, [read] on [/link] does
    not return [012]. *)
Lemma symlink_read_counterexample :
  ~ (TarMount.readlink Samples.symlink_mount "/link" = Ok "a.txt"
     /\ exists depth,
         fst (TarMount.read Samples.no_sparse depth Samples.symlink_mount "/link" 3 0)
         = Ok (Samples.B "012")).
Proof.
  intros [_ [depth H]]. destruct depth; vm_compute in H; discriminate.
Qed.

(** ** The parent folders of the indexed members *)

Section ParentFolders.
Import SQLiteIndexedTar.

Lemma split_cons s : exists c rest, PyStr.split s = c :: rest.
Proof.
  induction s as [|a s (c & rest & IH)]; simpl; [by eexists _, _|].
  destruct (PyStr.is_sep a); [by eexists _, _|]. rewrite IH. by eexists _, _.
Qed.

Lemma join_cons_cons c d rest :
  PyStr.join (c :: d :: rest) = c +:+ "/" +:+ PyStr.join (d :: rest).
Proof. reflexivity. Qed.

Lemma split_String a s :
  PyStr.split (String a s) =
  if PyStr.is_sep a then "" :: PyStr.split s
  else match PyStr.split s with
       | h :: t => String a h :: t
       | [] => [String a ""]
       end.
Proof. reflexivity. Qed.

Lemma join_split s : PyStr.join (PyStr.split s) = s.
Proof.
  induction s as [|a s IH]; [done|]. rewrite split_String.
  destruct (split_cons s) as (c & rest & Hs). rewrite Hs in *.
  destruct (PyStr.is_sep a) eqn:E.
  - apply Ascii.eqb_eq in E. subst a. by rewrite join_cons_cons, IH.
  - destruct rest as [|d rest].
    + by rewrite <- IH.
    + by rewrite <- IH.
Qed.

Lemma split_absolute rest :
  exists c comps, PyStr.split (String "/" rest) = "" :: c :: comps.
Proof.
  rewrite split_String. change (PyStr.is_sep "/") with true. cbv iota.
  destruct (split_cons rest) as (c & comps & ->). by eexists _, _.
Qed.

Lemma string_app_assoc (a b c : string) : (a +:+ b) +:+ c = a +:+ (b +:+ c).
Proof.
  induction a as [|x a IH]; [done|].
  change (String x ((a +:+ b) +:+ c) = String x (a +:+ (b +:+ c))). by rewrite IH.
Qed.

Lemma join_cons c (l : list string) :
  l <> [] -> PyStr.join (c :: l) = c +:+ "/" +:+ PyStr.join l.
Proof. by destruct l. Qed.

Lemma join_snoc (l : list string) (x : string) :
  l <> [] -> PyStr.join (l ++ [x]) = PyStr.join l +:+ "/" +:+ x.
Proof.
  induction l as [|c l IH]; [done|]. intros _.
  destruct l as [|d l]; [done|].
  change ((c :: d :: l) ++ [x]) with (c :: ((d :: l) ++ [x])).
  rewrite join_cons by done. rewrite IH by done.
  rewrite (join_cons c (d :: l)) by done. by rewrite !string_app_assoc.
Qed.

(** [k] names the folder [p]: it is the pair of [p]'s own parent and name. *)
Lemma elem_of_parent_pairs path k :
  k ∈ parent_pairs path <->
  exists i x, (1 <= i)%nat /\ PyStr.split path !! i = Some x
              /\ k = (PyStr.join (take i (PyStr.split path)), x).
Proof.
  unfold parent_pairs. rewrite list_elem_of_omap. split.
  - intros (i & Hi & Hk). apply elem_of_seq in Hi.
    destruct (PyStr.split path !! i) as [x|] eqn:Hx; [|done].
    simpl in Hk. inversion Hk. exists i, x. repeat split; [lia|done].
  - intros (i & x & Hi & Hx & ->). exists i. split.
    + apply elem_of_seq. apply lookup_lt_Some in Hx. lia.
    + by rewrite Hx.
Qed.

Lemma take_S_lookup {A} (l : list A) i x : l !! i = Some x -> take (S i) l = take i l ++ [x].
Proof. intros H. by apply take_S_r. Qed.

Lemma parent_pair_names path i x :
  (1 <= i)%nat -> PyStr.split path !! i = Some x ->
  PyStr.join (take i (PyStr.split path)) +:+ "/" +:+ x = PyStr.join (take (S i) (PyStr.split path)).
Proof.
  intros Hi Hx. rewrite (take_S_lookup _ _ _ Hx), join_snoc; [done|].
  destruct (split_cons path) as (c & rest & ->). destruct i; [lia|done].
Qed.

(** The pairs of an absolute path: the last one names the path, and the
    parent of each is the root or is named by another pair. *)
Lemma parent_pairs_name_path rest :
  exists k, k ∈ parent_pairs (String "/" rest) /\ names k (String "/" rest).
Proof.
  set (path := String "/" rest).
  destruct (split_absolute rest) as (c & comps & Hs). fold path in Hs.
  assert (Hlast : exists x, PyStr.split path !! (length (c :: comps)) = Some x).
  { rewrite Hs. apply lookup_lt_is_Some. simpl. lia. }
  destruct Hlast as [x Hx].
  exists (PyStr.join (take (length (c :: comps)) (PyStr.split path)), x). split.
  - apply elem_of_parent_pairs. exists (length (c :: comps)), x. repeat split; [simpl; lia|done].
  - unfold names. cbn [fst snd]. rewrite parent_pair_names; [|simpl; lia|done].
    rewrite take_ge; [apply join_split|]. rewrite Hs. simpl. lia.
Qed.

Lemma parent_pairs_closed rest k :
  k ∈ parent_pairs (String "/" rest) ->
  k.1 = "" \/ exists k', k' ∈ parent_pairs (String "/" rest) /\ names k' k.1.
Proof.
  set (path := String "/" rest).
  destruct (split_absolute rest) as (c & comps & Hs). fold path in Hs.
  intros (i & x & Hi & Hx & ->)%elem_of_parent_pairs. cbn [fst snd].
  destruct i as [|[|i]]; [lia| |].
  - left. by rewrite Hs.
  - right. assert (Hy : exists y, PyStr.split path !! (S i) = Some y).
    { apply lookup_lt_is_Some. apply lookup_lt_Some in Hx. lia. }
    destruct Hy as [y Hy].
    exists (PyStr.join (take (S i) (PyStr.split path)), y). split.
    + apply elem_of_parent_pairs. exists (S i), y. repeat split; [lia|done].
    + unfold names. cbn [fst snd]. by rewrite parent_pair_names; [|lia|].
Qed.

End ParentFolders.

(** ** The rows of the index after the scan *)

Section IndexRows.
Import SQLiteIndexedTar.

Lemma rsplit1_spec s : forall p n, PyStr.rsplit1 s = Some (p, n) -> s = p +:+ "/" +:+ n.
Proof.
  induction s as [|a s IH]; intros p n H; [done|]. simpl in H.
  destruct (PyStr.rsplit1 s) as [[p' n']|].
  - inversion H; subst. by rewrite (IH p' n).
  - destruct (PyStr.is_sep a) eqn:E; [|done]. inversion H; subst.
    apply Ascii.eqb_eq in E. by subst a.
Qed.

Lemma rsplit1_rooted x p n : PyStr.rsplit1 (String "/" x) = Some (p, n) -> rooted p.
Proof.
  intros H%rsplit1_spec. destruct p as [|a p]; [by left|]. right.
  inversion H. by eexists.
Qed.

Lemma member_fullPath_absolute pathPrefix tarInfo :
  rooted pathPrefix -> exists x, member_fullPath pathPrefix tarInfo = String "/" x.
Proof.
  unfold member_fullPath. intros [->|[rest ->]]; by eexists.
Qed.

Lemma rooted_names_pair path :
  rooted path -> path = "" \/ exists k, k ∈ parent_pairs path /\ names k path.
Proof.
  intros [->|[rest ->]]; [by left|]. right. apply parent_pairs_name_path.
Qed.

Lemma rooted_pairs_closed path k :
  rooted path -> k ∈ parent_pairs path ->
  k.1 = "" \/ exists k', k' ∈ parent_pairs path /\ names k' k.1.
Proof.
  intros [->|[rest ->]] Hk; [|by apply parent_pairs_closed].
  apply elem_of_parent_pairs in Hk as (i & x & Hi & Hx & _).
  apply lookup_lt_Some in Hx. simpl in Hx. lia.
Qed.

Lemma elem_of_new_parent_folders cache path k :
  k ∈ new_parent_folders cache path <-> k ∈ parent_pairs path /\ k ∉ cache.
Proof.
  unfold new_parent_folders. rewrite !list_elem_of_In, filter_In, <- !list_elem_of_In.
  unfold pair_in. rewrite negb_true_iff, bool_decide_eq_false. done.
Qed.

Lemma grow_cache_elem_of cache paths k :
  k ∈ grow_cache cache paths -> k ∈ cache \/ k ∈ paths.
Proof.
  unfold grow_cache. intros H. apply elem_of_app.
  destruct (16 <? _); [|done]. by eapply subseteq_drop.
Qed.

Lemma scanning_pending_intro pending self db rows pf :
  sqlConnection self = Some db ->
  Sql.files db = Some rows ->
  Sql.filestmp db = Some [] ->
  Sql.parentfolders db = Some pf ->
  (forall k, k ∈ parentFolderCache self -> k ∈ pf) ->
  closed pf ->
  (forall k r, rows !! k = Some r ->
     Sql.key r = k
     /\ (exists b, Sql.type r = Sql.TypeFlag b)
     /\ (Sql.path r = "" \/ Sql.path r = pending
         \/ exists k', k' ∈ pf /\ names k' (Sql.path r))) ->
  scanning_pending pending self.
Proof. intros. exists db, rows, pf. by split_and!. Qed.

(** Adding the parent folders of the pending folder restores [scanning]. *)
Lemma _tryAddParentFolders_scanning self path :
  scanning_pending path self -> rooted path ->
  exists self', _tryAddParentFolders self path = (Ok tt, self') /\ scanning self'.
Proof.
  intros (db & rows & pf & Hdb & Hrows & Htmp & Hpf & Hcache & Hclosed & Hr) Hrooted.
  assert (Hall : forall k, k ∈ parent_pairs path ->
                           k ∈ pf ∪ list_to_set (new_parent_folders (parentFolderCache self) path)).
  { intros k Hk. destruct (decide (k ∈ parentFolderCache self)) as [Hin|Hnin].
    - apply elem_of_union_l. by apply Hcache.
    - apply elem_of_union_r, elem_of_list_to_set. by apply elem_of_new_parent_folders. }
  assert (Hclosed' : closed (pf ∪ list_to_set (new_parent_folders (parentFolderCache self) path))).
  { intros k [Hk|Hk%elem_of_list_to_set%elem_of_new_parent_folders]%elem_of_union.
    - destruct (Hclosed k Hk) as [?|(k' & Hk' & Hn)]; [by left|].
      right. exists k'. split; [by apply elem_of_union_l|done].
    - destruct Hk as [Hk _].
      destruct (rooted_pairs_closed path k Hrooted Hk) as [?|(k' & Hk' & Hn)]; [by left|].
      right. exists k'. split; [by apply Hall|done]. }
  assert (Hrows' : forall k r, rows !! k = Some r ->
            Sql.key r = k /\ (exists b, Sql.type r = Sql.TypeFlag b)
            /\ (Sql.path r = "" \/ Sql.path r = ""
                \/ exists k', k' ∈ pf ∪ list_to_set (new_parent_folders (parentFolderCache self) path)
                              /\ names k' (Sql.path r))).
  { intros k r Hk. destruct (Hr k r Hk) as (Hkey & Hty & [?|[Hp|(k' & Hk' & Hn)]]);
      (split; [done|split; [done|]]); [by left| |].
    - destruct (rooted_names_pair path Hrooted) as [Hroot|(k' & Hk' & Hn)];
        [left; congruence|].
      right; right. exists k'. split; [by apply Hall|congruence].
    - right; right. exists k'. split; [by apply elem_of_union_l|done]. }
  unfold _tryAddParentFolders.
  destruct (new_parent_folders (parentFolderCache self) path) as [|p paths] eqn:Hnew.
  - exists self. split; [done|].
    change (list_to_set []) with (∅ : gset (string * string)) in *.
    rewrite union_empty_r_L in Hclosed'.
    apply (scanning_pending_intro "" self db rows pf); try done.
    intros k r Hk. destruct (Hrows' k r Hk) as (? & ? & Hp). split; [done|]. split; [done|].
    by rewrite union_empty_r_L in Hp.
  - cbn [sqlConnection set_parentFolderCache]. rewrite Hdb, Hpf. eexists. split; [done|].
    eapply (scanning_pending_intro "" _ _ rows); cbn -[list_to_set union]; try done.
    intros k [Hk|Hk]%grow_cache_elem_of.
    + apply elem_of_union_l. by apply Hcache.
    + by apply elem_of_union_r, elem_of_list_to_set.
Qed.

Lemma _setFileInfo_scanning self row b :
  scanning self -> rooted (Sql.path row) -> Sql.type row = Sql.TypeFlag b ->
  exists self', _setFileInfo self row = (Ok tt, self') /\ scanning self'.
Proof.
  intros (db & rows & pf & Hdb & Hrows & Htmp & Hpf & Hcache & Hclosed & Hr) Hrooted Hty.
  unfold _setFileInfo. rewrite Hdb, Hrows.
  apply _tryAddParentFolders_scanning; [|done].
  eapply (scanning_pending_intro _ _ _ _ pf); simpl; try done.
  intros k r H. unfold Sql.insert_or_replace in H.
  apply lookup_insert_Some in H as [[<- <-]|[Hne Hk]].
  - split; [done|]. split; [by eexists|]. by right; left.
  - destruct (Hr k r Hk) as (? & ? & [?|[?|?]]);
      (split; [done|split; [done|]]); [by left|by left|by right; right].
Qed.

Lemma scanning_set_tarFileName self n : scanning self -> scanning (set_tarFileName self n).
Proof.
  intros (db & rows & pf & Hdb & Hrows & Htmp & Hpf & Hcache & Hclosed & Hr).
  by apply (scanning_pending_intro "" _ db rows pf).
Qed.

Lemma recurse_into_scanning descend streamed self fileObject tarInfo mode fullPath globalOffset
      r self' fileObject' :
  preserves_scanning descend -> scanning self -> rooted fullPath ->
  recurse_into descend streamed self fileObject tarInfo mode fullPath globalOffset
  = (r, (self', fileObject')) ->
  r <> Raise ReadError /\ (forall mb, r = Ok mb -> scanning self').
Proof.
  intros Hd Hs Hp. unfold recurse_into.
  destruct (_ && _); [|intros [= <- <- <-]; by split].
  unfold fseek at 1. destruct (globalOffset <? 0); [intros [= <- <- <-]; by split|].
  destruct (descend _ _ _ _) as [r1 [self1 fo1]] eqn:Hdesc.
  assert (Hs1 : r1 = Ok tt \/ r1 = Raise ReadError -> scanning self1).
  { intros Hr1. eapply Hd; [|done|exact Hdesc|done]. by apply scanning_set_tarFileName. }
  destruct r1 as [[]|e].
  - unfold fseek. destruct (ftell fileObject <? 0); intros [= <- <- <-]; split; try done.
    intros _ _. apply scanning_set_tarFileName. apply Hs1. by left.
  - destruct e; try (intros [= <- <- <-]; by split).
    unfold fseek. destruct (ftell fileObject <? 0); intros [= <- <- <-]; split; try done.
    intros _ _. apply scanning_set_tarFileName. apply Hs1. by right.
Qed.

Lemma index_member_scanning descend streamed self fileObject pathPrefix streamOffset tarInfo
      r self' fileObject' :
  preserves_scanning descend -> scanning self -> rooted pathPrefix ->
  index_member descend streamed self fileObject pathPrefix streamOffset tarInfo
  = (r, (self', fileObject')) ->
  r <> Raise ReadError /\ (r = Ok tt -> scanning self').
Proof.
  intros Hd Hs Hp. unfold index_member.
  destruct (member_fullPath_absolute pathPrefix tarInfo Hp) as [x Hx].
  destruct (recurse_into _ _ _ _ _ _ _ _) as [r1 [self1 fo1]] eqn:Hrec.
  eapply recurse_into_scanning in Hrec as [Hne Hs1]; [|done|done|].
  2: { rewrite Hx. right. by eexists. }
  destruct r1 as [[mode isTar]|e];
    [|intros [= <- <- <-]; split; [intros [= ->]; by apply Hne|done]].
  rewrite Hx. destruct (PyStr.rsplit1 (String "/" x)) as [[path name]|] eqn:Hsplit;
    [|intros [= <- <- <-]; by split].
  destruct (_setFileInfo_scanning self1 (member_row path name streamOffset tarInfo mode isTar)
              (tarfile.type tarInfo)) as (self2 & -> & Hs2);
    [by eapply Hs1|by eapply rsplit1_rooted|done|].
  intros [= <- <- <-]. by split.
Qed.

Lemma scan_members_scanning disk kind pathPrefix streamOffset tell_end members :
  Forall (fun m => preserves_scanning (createIndex (tarfile.inner m) disk kind)) members ->
  forall self fileObject r self' fileObject',
    scanning self -> rooted pathPrefix ->
    scan_members disk kind pathPrefix streamOffset tell_end members self fileObject
    = (r, (self', fileObject')) ->
    r <> Raise ReadError /\ (r = Ok tt -> scanning self').
Proof.
  induction 1 as [|[tarInfo tell inner] members Hm _ IH];
    intros self fileObject r self' fileObject' Hs Hp; simpl.
  - intros [= <- <- <-]. by split.
  - destruct (index_member _ _ _ _ _ _ _) as [r1 [self1 fo1]] eqn:Him.
    eapply index_member_scanning in Him as [Hne Hs1]; [|done..].
    destruct r1 as [[]|e]; [|intros [= <- <- <-]; by split].
    apply IH; [by apply Hs1|done].
Qed.

Lemma createIndex_open_scanning disk self :
  scanning self -> createIndex_open disk self = (Ok false, self).
Proof.
  intros (db & rows & pf & Hdb & Hrows & _). unfold createIndex_open, indexIsLoaded.
  by rewrite Hdb, Hrows.
Qed.

Lemma finish_index_scanning kind self :
  scanning self -> exists self', finish_index kind false self = (Ok tt, self') /\ scanning self'.
Proof.
  intros (db & rows & pf & Hdb & Hrows & Htmp & Hpf & Hcache & Hclosed & Hr).
  unfold finish_index. rewrite Hdb, add_versions_database by by eapply files_database.
  eexists. split; [done|].
  by eapply (scanning_pending_intro "" _ _ rows pf).
Qed.

Lemma createIndex_preserves_scanning disk kind scan :
  preserves_scanning (createIndex scan disk kind).
Proof.
  induction scan as [|members tell_end IH] using Scan_nested_ind;
    intros self fileObject pathPrefix streamOffset r self' fileObject' Hs Hp.
  - rewrite createIndex_NotATar, createIndex_open_scanning by done. by intros [= <- <- <-].
  - rewrite createIndex_Tar, createIndex_open_scanning by done.
    destruct (scan_members _ _ _ _ _ _ _ _) as [r1 [self1 fo1]] eqn:Hsm.
    eapply scan_members_scanning in Hsm as [Hne Hs1]; [|done..].
    destruct r1 as [[]|e].
    + destruct (finish_index_scanning kind self1) as (self2 & -> & Hs2); [by apply Hs1|].
      by intros [= <- <- <-].
    + destruct e; try done; intros [= <- <- <-] [?|?]; done.
Qed.

Lemma synthesize_lookup (pairs : list (string * string)) : forall rows k,
  fold_left (fun t k => Sql.insert_or_ignore (synthesized_row k) t) pairs rows !! k
  = match rows !! k with
    | Some r => Some r
    | None => if decide (k ∈ pairs) then Some (synthesized_row k) else None
    end.
Proof.
  induction pairs as [|[pa pn] pairs IH]; intros rows k; cbn [fold_left].
  - destruct (rows !! k); [done|]. by rewrite decide_False by apply not_elem_of_nil.
  - rewrite IH. unfold Sql.insert_or_ignore.
    set (p := (pa, pn)). change (Sql.key (synthesized_row p)) with p.
    destruct (decide (p = k)) as [->|Hne].
    + destruct (rows !! k) eqn:Hk; [by rewrite Hk|].
      rewrite lookup_insert_eq. rewrite decide_True by apply list_elem_of_here. done.
    + assert (Hk : (match rows !! p with Some _ => rows | None => <[p:=synthesized_row p]> rows end)
                     !! k = rows !! k).
      { destruct (rows !! p); [done|]. by rewrite lookup_insert_ne. }
      rewrite Hk. destruct (rows !! k); [done|].
      destruct (decide (k ∈ pairs)) as [Hin|Hnin].
      * by rewrite decide_True by by apply list_elem_of_further.
      * rewrite decide_False; [done|]. intros [?|?]%elem_of_cons; [congruence|done].
Qed.

(** What step 5 does, row by row: a row of the scan stays as it is; a
    parent folder without a row gets the synthesized one; nothing else
    appears; the two tables of the scan are dropped. *)
Lemma cleanupDatabase_lookup db db' rows tmp pf :
  Sql.files db = Some rows -> Sql.filestmp db = Some tmp -> Sql.parentfolders db = Some pf ->
  cleanupDatabase db = Ok db' ->
  let merged := fold_left (fun t r => Sql.insert_or_replace r t) tmp rows in
  exists rows',
    Sql.files db' = Some rows'
    /\ Sql.filestmp db' = None /\ Sql.parentfolders db' = None
    /\ forall k, rows' !! k = match merged !! k with
                              | Some r => Some r
                              | None => if decide (k ∈ pf) then Some (synthesized_row k) else None
                              end.
Proof.
  intros Hrows Htmp Hpf. unfold cleanupDatabase. rewrite Hrows, Htmp, Hpf.
  intros [= <-]. eexists. split; [done|]. split; [done|]. split; [done|].
  intros k. rewrite synthesize_lookup. destruct (fold_left _ tmp rows !! k); [done|].
  destruct (decide (k ∈ pf)) as [Hin|Hnin].
  - by rewrite decide_True by by apply elem_of_elements.
  - rewrite decide_False; [done|]. by rewrite elem_of_elements.
Qed.

(** C6, as the code has it.  After [createIndex] on a new indexer has
    returned, every row of ["files"] lies in the root or in a folder that has
    a row in ["files"]; that row is the synthesized one unless the scan itself
    recorded a row under this path and name, whatever its type.  Step 5 keeps
    every row of the scan and gives each parent folder without a row the
    synthesized one: mode [0555|S_IFDIR], mtime 0, type [int( DIRTYPE )],
    uid, gid and both offsets 0. *)
Theorem parent_folders_have_rows :
  (forall scan disk kind self fileObject self' fileObject',
     sqlConnection self = None -> parentFolderCache self = [] ->
     createIndex scan disk kind self fileObject "" 0 = (Ok tt, (self', fileObject')) ->
     exists db rows,
       sqlConnection self' = Some db /\ Sql.files db = Some rows
       /\ forall k r, rows !! k = Some r ->
            Sql.key r = k
            /\ (Sql.path r = ""
                \/ exists k' r',
                    rows !! k' = Some r' /\ names k' (Sql.path r)
                    /\ (r' = synthesized_row k' \/ exists b, Sql.type r' = Sql.TypeFlag b)))
  /\ (forall db db' rows pf,
        Sql.files db = Some rows -> Sql.filestmp db = Some [] ->
        Sql.parentfolders db = Some pf ->
        cleanupDatabase db = Ok db' ->
        exists rows',
          Sql.files db' = Some rows'
          /\ (forall k r, rows !! k = Some r -> rows' !! k = Some r)
          /\ (forall k, k ∈ pf -> rows !! k = None -> rows' !! k = Some (synthesized_row k))
          /\ (forall k, k ∉ pf -> rows !! k = None -> rows' !! k = None))
  /\ (forall k,
        let r := synthesized_row k in
        Sql.key r = k
        /\ Sql.mode r = Z.lor 365 stat.S_IFDIR /\ stat.S_ISDIR (Sql.mode r) = true
        /\ Sql.mtime r = 0 /\ Sql.type r = Sql.TypeInt 5
        /\ Sql.uid r = 0 /\ Sql.gid r = 0
        /\ Sql.offsetheader r = Some 0 /\ Sql.offset r = 0).
Proof.
  split; [|split].
  - intros scan disk kind self fileObject self' fileObject' Hconn Hcache.
    destruct scan as [|members tell_end].
    { rewrite createIndex_NotATar. by destruct (createIndex_open disk self) as [[|] ?]. }
    rewrite createIndex_Tar. unfold createIndex_open, indexIsLoaded. rewrite Hconn.
    unfold _openSqlDb. cbn [sqlConnection set_sqlConnection].
    set (db0 := match indexFileName self with Some p => _ | None => _ end).
    destruct (Sql.is_database db0); [|done]. cbn [sqlConnection set_sqlConnection].
    destruct (already_has_table db0); [done|].
    set (self1 := set_sqlConnection _ _).
    assert (Hs1 : scanning self1).
    { apply (scanning_pending_intro "" self1 (createTables db0) ∅ ∅); try done.
      subst self1. simpl. rewrite Hcache. by intros k ?%elem_of_nil. }
    destruct (scan_members _ _ _ _ _ _ _ _) as [r1 [self2 fo2]] eqn:Hsm.
    assert (Hall : Forall (fun m => preserves_scanning (createIndex (tarfile.inner m) disk kind))
                          members).
    { apply Forall_forall. intros m _. apply createIndex_preserves_scanning. }
    assert (Hroot : rooted "") by by left.
    destruct (scan_members_scanning disk kind "" 0 tell_end members Hall
                _ _ _ _ _ Hs1 Hroot Hsm) as [Hne Hs2].
    destruct r1 as [[]|e]; [|by destruct e].
    destruct Hs2 as (db & rows & pf & Hdb & Hrows & Htmp & Hpf & _ & Hclosed & Hr); [done|].
    unfold finish_index. rewrite Hdb.
    destruct (cleanupDatabase db) as [db'|] eqn:Hclean; [|done].
    destruct (cleanupDatabase_lookup db db' rows [] pf Hrows Htmp Hpf Hclean)
      as (rows' & Hrows' & _ & _ & Hl).
    rewrite add_versions_database by by eapply files_database.
    intros [= <- _].
    simpl in Hl. eexists _, rows'. split; [done|]. split; [done|].
    assert (Hfolder : forall k', k' ∈ pf ->
              exists r', rows' !! k' = Some r'
                         /\ (r' = synthesized_row k' \/ exists b, Sql.type r' = Sql.TypeFlag b)).
    { intros k' Hk'. rewrite Hl. destruct (rows !! k') as [r'|] eqn:Hrk.
      - exists r'. split; [done|]. right. by destruct (Hr k' r' Hrk) as (_ & ? & _).
      - rewrite decide_True by done. eexists. split; [done|]. by left. }
    intros k r. rewrite Hl. destruct (rows !! k) as [r0|] eqn:Hrk.
    + intros [= <-]. destruct (Hr k r0 Hrk) as (Hkey & _ & [?|[?|(k' & Hk' & Hn)]]);
        (split; [done|]); [by left|by left|].
      right. destruct (Hfolder k' Hk') as (r' & ? & ?). exists k', r'. split; [assumption|split; assumption].
    + destruct (decide (k ∈ pf)) as [Hin|]; [|done]. intros [= <-]. split; [by destruct k|].
      destruct (Hclosed k Hin) as [?|(k' & Hk' & Hn)]; [by left|].
      right. destruct (Hfolder k' Hk') as (r' & ? & ?). exists k', r'. split; [assumption|split; assumption].
  - intros db db' rows pf Hrows Htmp Hpf Hclean.
    destruct (cleanupDatabase_lookup db db' rows [] pf Hrows Htmp Hpf Hclean)
      as (rows' & Hrows' & _ & _ & Hl).
    simpl in Hl. exists rows'. split; [done|]. split; [|split].
    + intros k r Hk. by rewrite Hl, Hk.
    + intros k Hin Hk. by rewrite Hl, Hk, decide_True.
    + intros k Hnin Hk. by rewrite Hl, Hk, decide_False.
  - intros [kp kn] r. by repeat split.
Qed.

(** The archive with [a.txt] and [dir/b.txt]: the folder [dir] gets the
    synthesized row. *)
Lemma parent_folders_have_rows_witness :
  (exists db rows,
     sqlConnection (fst (snd Samples.plain_index)) = Some db /\ Sql.files db = Some rows
     /\ forall k r, rows !! k = Some r ->
          Sql.key r = k
          /\ (Sql.path r = ""
              \/ exists k' r',
                  rows !! k' = Some r' /\ names k' (Sql.path r)
                  /\ (r' = synthesized_row k' \/ exists b, Sql.type r' = Sql.TypeFlag b)))
  /\ Samples.rows_of (fst (snd Samples.plain_index)) !! ("", "dir")
     = Some (synthesized_row ("", "dir")).
Proof.
  split; [|reflexivity].
  destruct parent_folders_have_rows as [H _].
  apply (H Samples.plain_scan ∅ PlainFile (Samples.fresh false)
           (mkFileObj Samples.plain_data 0) _ (snd (snd Samples.plain_index)));
    reflexivity.
Defined.

(** C6 as stated fails.  A regular file [a] followed by a member [a/b]: the
    row of [a/b] lies in [/a], and the only row of that name is the one of
    the file, which is no directory by type or by mode and is not replaced.
    And with the recursive mode, the rows of the members of [inner.tar] lie
    in [/inner.tar], whose row has a directory mode but keeps the type flag
    of a regular file. *)
Lemma parent_folders_counterexample :
  (let rows := Samples.rows_of (fst (snd Samples.shadowed_index)) in
   fst Samples.shadowed_index = Ok tt
   /\ rows !! ("/a", "b") = Some (member_row "/a" "b" 0 Samples.file_a_b 33188 false)
   /\ forall k' r', rows !! k' = Some r' -> names k' "/a" ->
        Sql.type_is_dir (Sql.type r') = false /\ stat.S_ISDIR (Sql.mode r') = false)
  /\ (let rows := Samples.rows_of (fst (snd Samples.nested_index)) in
      fst Samples.nested_index = Ok tt
      /\ rows !! ("/inner.tar", "hello")
         = Some (member_row "/inner.tar" "hello" 0 Samples.hello 33188 false)
      /\ forall k' r', rows !! k' = Some r' -> names k' "/inner.tar" ->
           Sql.type_is_dir (Sql.type r') = false).
Proof.
  split.
  - intros rows.
    assert (Hrows : rows = <[("", "a") := member_row "" "a" 0 Samples.file_a 33188 false]>
                           (<[("/a", "b") := member_row "/a" "b" 0 Samples.file_a_b 33188 false]> ∅))
      by (vm_compute; reflexivity).
    clearbody rows. subst rows.
    split; [vm_compute; reflexivity|]. split; [vm_compute; reflexivity|].
    intros k' r' Hk Hn.
    apply lookup_insert_Some in Hk as [[<- <-]|[_ Hk]]; [by split|].
    apply lookup_insert_Some in Hk as [[<- <-]|[_ Hk]]; [|by rewrite lookup_empty in Hk].
    vm_compute in Hn. discriminate.
  - intros rows.
    assert (Hrows : rows = <[("", "inner.tar") := member_row "" "inner.tar" 0 Samples.inner_tar 16877 true]>
                           (<[("/inner.tar", "hello") := member_row "/inner.tar" "hello" 0 Samples.hello 33188 false]>
                           (<[("", "notes.tar") := member_row "" "notes.tar" 0 Samples.notes_tar 33188 false]> ∅)))
      by (vm_compute; reflexivity).
    clearbody rows. subst rows.
    split; [vm_compute; reflexivity|]. split; [vm_compute; reflexivity|].
    intros k' r' Hk Hn.
    apply lookup_insert_Some in Hk as [[<- <-]|[_ Hk]]; [done|].
    apply lookup_insert_Some in Hk as [[<- <-]|[_ Hk]]; [vm_compute in Hn; discriminate|].
    apply lookup_insert_Some in Hk as [[<- <-]|[_ Hk]]; [|by rewrite lookup_empty in Hk].
    vm_compute in Hn. discriminate.
Qed.

End IndexRows.

(** ** What the descent leaves in the table of the files *)

Section DescentRecord.
Import SQLiteIndexedTar.

Lemma rooted_fullPath pathPrefix tarInfo :
  rooted pathPrefix -> rooted (member_fullPath pathPrefix tarInfo).
Proof.
  intros H. destruct (member_fullPath_absolute pathPrefix tarInfo H) as [x ->].
  right. by exists x.
Qed.

(** C7: with the recursive mode on, for a regular file whose name ends in
    [.tar], the step that descends into the member leaves the file object at
    the position it had before, whether the descent succeeds or ends in a
    [ReadError]; the name used for printing is restored as well.  The row
    that the step then puts into the table of the files, under the path and
    the name of the member, is spelled out: after a [ReadError] it is the row
    of the treatment without the recursive mode, with the mode of the header
    and [istar] not set; after a successful descent it differs from that
    row in the mode, which is the directory mode made from it, and in
    [istar], which is set.  The directory mode has the file type of a
    directory, the read and write bits of the mode, and an execute bit
    where the mode has it or has the read bit of the same class. *)
Theorem descent_restores_position
        (descend : t -> FileObj -> string -> Z -> outcome unit * State) (streamed : bool)
        self fileObject pathPrefix streamOffset tarInfo path name :
  mountRecursively self = true ->
  tarfile.isfile tarInfo = true ->
  PyStr.endswith (tarfile.name tarInfo) ".tar" = true ->
  0 <= ftell fileObject ->
  0 <= streamOffset + tarfile.offset_data tarInfo ->
  PyStr.rsplit1 (member_fullPath pathPrefix tarInfo) = Some (path, name) ->
  let globalOffset := streamOffset + tarfile.offset_data tarInfo in
  let fullPath := member_fullPath pathPrefix tarInfo in
  let mode := member_mode tarInfo in
  let row (mode : Z) (isTar : bool) :=
    Sql.mkFileRow path name (Some (streamOffset + tarfile.offset tarInfo)) globalOffset
                  (tarfile.size tarInfo) (tarfile.mtime tarInfo) mode
                  (Sql.TypeFlag (tarfile.type tarInfo)) (tarfile.linkname tarInfo)
                  (tarfile.uid tarInfo) (tarfile.gid tarInfo) isTar
                  (Some (tarfile.issparse tarInfo)) in
  let descent :=
    descend (set_tarFileName self (PyStr.lstrip (tarfile.name tarInfo)))
            (mkFileObj (f_data fileObject) globalOffset)
            fullPath (if streamed then globalOffset else 0) in
  let after := index_member descend streamed self fileObject pathPrefix streamOffset tarInfo in
  let recorded (r : Sql.FileRow) :=
    forall (db : Sql.Db) (rows : gmap (string * string) Sql.FileRow),
      sqlConnection (fst (snd descent)) = Some db -> Sql.files db = Some rows ->
      sqlConnection (fst (snd after)) ≫= Sql.files = Some (<[(path, name) := r]> rows) in
  (fst descent = Ok tt \/ fst descent = Raise ReadError ->
   ftell (snd (snd after)) = ftell fileObject
   /\ f_data (snd (snd after)) = f_data (snd (snd descent))
   /\ tarFileName (fst (snd after)) = tarFileName self)
  /\ (fst descent = Raise ReadError -> recorded (row mode false))
  /\ (fst descent = Ok tt -> recorded (row (directory_mode mode) true))
  /\ (stat.S_ISDIR (directory_mode mode) = true
      /\ Z.land (directory_mode mode) 438 = Z.land mode 438
      /\ Z.land (directory_mode mode) 73
         = Z.lor (Z.land mode 73) (Z.shiftr (Z.land mode 292) 2))
  /\ (forall (self0 : t) (db : Sql.Db) (rows : gmap (string * string) Sql.FileRow),
        mountRecursively self0 = false ->
        sqlConnection self0 = Some db -> Sql.files db = Some rows ->
        let plain :=
          index_member descend streamed self0 fileObject pathPrefix streamOffset tarInfo in
        snd (snd plain) = fileObject
        /\ sqlConnection (fst (snd plain)) ≫= Sql.files
           = Some (<[(path, name) := row mode false]> rows))
  /\ (preserves_scanning descend -> scanning self -> rooted pathPrefix ->
      let found :=
        match sqlConnection (fst (snd after)) ≫= Sql.files with
        | Some rows => rows !! (path, name)
        | None => None
        end in
      (fst descent = Raise ReadError -> found = Some (row mode false))
      /\ (fst descent = Ok tt -> found = Some (row (directory_mode mode) true))).
Proof.
  intros Hrec Hfile Htar Hpos Hoff Hsplit globalOffset fullPath mode row descent after recorded.
  set (into := recurse_into descend streamed self fileObject tarInfo mode fullPath globalOffset).
  assert (Hinto : into =
            match descent with
            | (Ok _, (self1, fo1)) =>
              (Ok (directory_mode mode, true),
               (set_tarFileName self1 (tarFileName self), mkFileObj (f_data fo1) (ftell fileObject)))
            | (Raise ReadError, (self1, fo1)) =>
              (Ok (mode, false),
               (set_tarFileName self1 (tarFileName self), mkFileObj (f_data fo1) (ftell fileObject)))
            | (Raise e, st) => (Raise e, st)
            end).
  { subst into. unfold recurse_into. rewrite Hrec, Hfile, Htar. simpl.
    unfold fseek at 1. fold globalOffset.
    destruct (globalOffset <? 0) eqn:E; [apply Z.ltb_lt in E; lia|].
    fold fullPath. fold descent.
    destruct descent as [[[]|e] [self1 fo1]].
    - unfold fseek. by destruct (ftell fileObject <? 0) eqn:E'; [apply Z.ltb_lt in E'; lia|].
    - destruct e; try done.
      unfold fseek. by destruct (ftell fileObject <? 0) eqn:E'; [apply Z.ltb_lt in E'; lia|]. }
  assert (Hafter : forall m b self1 fo1,
            into = (Ok (m, b), (self1, fo1)) ->
            after = (fst (_setFileInfo self1 (row m b)),
                     (snd (_setFileInfo self1 (row m b)), fo1))).
  { intros m b self1 fo1 Hi. subst after. unfold index_member.
    fold mode. fold fullPath. fold globalOffset. fold into. rewrite Hi.
    fold fullPath in Hsplit. rewrite Hsplit.
    change (member_row path name streamOffset tarInfo m b) with (row m b).
    by destruct (_setFileInfo self1 (row m b)). }
  assert (Hkey : forall m b, Sql.key (row m b) = (path, name)) by done.
  assert (Hplain : forall (self0 : t) (db : Sql.Db) (rows : gmap (string * string) Sql.FileRow),
            mountRecursively self0 = false ->
            sqlConnection self0 = Some db -> Sql.files db = Some rows ->
            let plain :=
              index_member descend streamed self0 fileObject pathPrefix streamOffset tarInfo in
            snd (snd plain) = fileObject
            /\ sqlConnection (fst (snd plain)) ≫= Sql.files
               = Some (<[(path, name) := row mode false]> rows)).
  { intros self0 db rows H0 Hdb Hrows plain. subst plain. unfold index_member.
    rewrite recurse_into_off by done.
    fold fullPath in Hsplit. fold fullPath. rewrite Hsplit. fold mode.
    change (member_row path name streamOffset tarInfo mode false) with (row mode false).
    pose proof (_setFileInfo_files self0 (row mode false) db rows Hdb Hrows) as Hset.
    destruct (_setFileInfo self0 (row mode false)) as [r2 self2]. by split. }
  assert (Hscan : preserves_scanning descend -> scanning self -> rooted pathPrefix ->
                  fst descent = Ok tt \/ fst descent = Raise ReadError ->
                  exists (db : Sql.Db) (rows : gmap (string * string) Sql.FileRow),
                    sqlConnection (fst (snd descent)) = Some db /\ Sql.files db = Some rows).
  { intros Hpres Hs Hp Hr.
    destruct descent as [r1 [self1 fo1]] eqn:Hd. cbn [fst snd] in *.
    destruct (Hpres _ _ _ _ _ _ _
                (scanning_set_tarFileName self (PyStr.lstrip (tarfile.name tarInfo)) Hs)
                (rooted_fullPath pathPrefix tarInfo Hp) Hd Hr)
      as (db & rows & pf & Hdb & Hrows & _).
    by exists db, rows. }
  subst recorded. clearbody after into descent.
  destruct descent as [r1 [self1 fo1]]. cbn [fst snd] in *.
  assert (Hfail : r1 = Raise ReadError ->
            forall (db : Sql.Db) (rows : gmap (string * string) Sql.FileRow),
              sqlConnection self1 = Some db -> Sql.files db = Some rows ->
              sqlConnection (fst (snd after)) ≫= Sql.files
              = Some (<[(path, name) := row mode false]> rows)).
  { intros -> db rows Hdb Hrows.
    rewrite (Hafter mode false _ _ Hinto). cbn [fst snd].
    rewrite <- (Hkey mode false). by apply (_setFileInfo_files _ _ db). }
  assert (Hok : r1 = Ok tt ->
            forall (db : Sql.Db) (rows : gmap (string * string) Sql.FileRow),
              sqlConnection self1 = Some db -> Sql.files db = Some rows ->
              sqlConnection (fst (snd after)) ≫= Sql.files
              = Some (<[(path, name) := row (directory_mode mode) true]> rows)).
  { intros -> db rows Hdb Hrows.
    rewrite (Hafter (directory_mode mode) true _ _ Hinto). cbn [fst snd].
    rewrite <- (Hkey (directory_mode mode) true). by apply (_setFileInfo_files _ _ db). }
  split; [|split; [|split; [|split; [|split]]]].
  - intros H.
    assert (Hmb : exists m b, into = (Ok (m, b), (set_tarFileName self1 (tarFileName self),
                                                  mkFileObj (f_data fo1) (ftell fileObject)))).
    { rewrite Hinto. destruct H as [->| ->]; by do 2 eexists. }
    destruct Hmb as (m & b & Hi). rewrite (Hafter _ _ _ _ Hi). cbn [fst snd ftell f_pos f_data].
    split; [done|]. split; [done|]. by rewrite tarFileName_setFileInfo.
  - exact Hfail.
  - exact Hok.
  - split; [apply directory_mode_is_dir|apply directory_mode_bits].
  - exact Hplain.
  - intros Hpres Hs Hp. cbv zeta. split; intros Hr.
    + destruct (Hscan Hpres Hs Hp (or_intror Hr)) as (db & rows & Hdb & Hrows).
      rewrite (Hfail Hr db rows Hdb Hrows). cbn. apply lookup_insert_eq.
    + destruct (Hscan Hpres Hs Hp (or_introl Hr)) as (db & rows & Hdb & Hrows).
      rewrite (Hok Hr db rows Hdb Hrows). cbn. apply lookup_insert_eq.
Qed.

(** The two members of the nested sample: [inner.tar] is a TAR, [notes.tar]
    is refused by [tarfile]. *)
Lemma descent_restores_position_witness :
  let self := snd (createIndex_open ∅ (Samples.fresh true)) in
  let after tarInfo tell inner :=
    index_member (createIndex inner ∅ PlainFile) false self
                 (mkFileObj Samples.nested_data tell) "" 0 tarInfo in
  (ftell (snd (snd (after Samples.inner_tar 512 Samples.inner_scan))) = 512
   /\ Samples.rows_of (fst (snd (after Samples.inner_tar 512 Samples.inner_scan)))
        !! ("", "inner.tar")
      = Some (Sql.mkFileRow "" "inner.tar" (Some 0) 512 2048 0 16877
                            (Sql.TypeFlag tarfile.REGTYPE) "" 0 0 true (Some false)))
  /\ (ftell (snd (snd (after Samples.notes_tar 3072 tarfile.NotATar))) = 3072
      /\ Samples.rows_of (fst (snd (after Samples.notes_tar 3072 tarfile.NotATar)))
           !! ("", "notes.tar")
         = Some (Sql.mkFileRow "" "notes.tar" (Some 2560) 3072 1536 0 33188
                               (Sql.TypeFlag tarfile.REGTYPE) "" 0 0 false (Some false))).
Proof.
  intros self after. split.
  - pose proof (descent_restores_position
                  (createIndex Samples.inner_scan ∅ PlainFile) false self
                  (mkFileObj Samples.nested_data 512) "" 0 Samples.inner_tar "" "inner.tar"
                  eq_refl eq_refl eq_refl ltac:(done) ltac:(done) eq_refl) as H.
    cbv zeta in H. destruct H as (Hpos & _ & Hok & _).
    split.
    + apply Hpos. left. reflexivity.
    + unfold Samples.rows_of, after.
      erewrite (Hok eq_refl); [|reflexivity|reflexivity].
      apply lookup_insert_eq.
  - pose proof (descent_restores_position
                  (createIndex tarfile.NotATar ∅ PlainFile) false self
                  (mkFileObj Samples.nested_data 3072) "" 0 Samples.notes_tar "" "notes.tar"
                  eq_refl eq_refl eq_refl ltac:(done) ltac:(done) eq_refl) as H.
    cbv zeta in H. destruct H as (Hpos & Hfail & _ & _).
    split.
    + apply Hpos. right. reflexivity.
    + unfold Samples.rows_of, after.
      erewrite (Hfail eq_refl); [|reflexivity|reflexivity].
      apply lookup_insert_eq.
Defined.

End DescentRecord.

(** ** The constructor of the stenciled file, and seeking before its start *)

Section StenciledFileConstruction.
Import StenciledFile.

Lemma init_cumsizes_checks stencils : forall cum,
  init_cumsizes stencils cum =
  if forallb (fun st : Z * Z => (0 <=? fst st) && (0 <? snd st)) stencils
  then Ok (cum ++ running (last_item cum) (map snd stencils))
  else Raise AssertionError.
Proof.
  induction stencils as [|[o s] stencils IH]; intros cum; simpl.
  - by rewrite app_nil_r.
  - destruct (o <? 0) eqn:Eo.
    { apply Z.ltb_lt in Eo. destruct (0 <=? o) eqn:E; [apply Z.leb_le in E; lia|done]. }
    apply Z.ltb_ge in Eo. destruct (0 <=? o) eqn:E; [|apply Z.leb_gt in E; lia].
    destruct (s <=? 0) eqn:Es.
    { apply Z.leb_le in Es. destruct (0 <? s) eqn:E'; [apply Z.ltb_lt in E'; lia|done]. }
    apply Z.leb_gt in Es. destruct (0 <? s) eqn:E'; [|apply Z.ltb_ge in E'; lia].
    rewrite IH. simpl. destruct (forallb _ _); [|done].
    rewrite <- app_assoc. simpl. unfold last_item at 2. by rewrite last_last.
Qed.

Lemma total_pos_sizes (stencils : list (Z * Z)) :
  Forall (fun st => 0 <= fst st /\ 0 < snd st) stencils -> 0 <= total (map snd stencils).
Proof.
  induction 1 as [|[o s] l [_ Hs] _ IH]; [done|].
  change (total (map snd ((o, s) :: l))) with (s + total (map snd l)). simpl in Hs. lia.
Qed.

(** X1: the constructor accepts the stencils exactly when every offset is
    non-negative and every size is positive, and raises [AssertionError]
    otherwise.  The accepted object is at the virtual position 0, with the
    underlying file moved to the offset of the first stencil (left alone
    when there is none). *)
Theorem init_checks_stencils f stencils :
  let accepted := Forall (fun st : Z * Z => 0 <= fst st /\ 0 < snd st) stencils in
  (accepted ->
   exists self,
     __init__ f stencils = Ok self
     /\ constructed (f_data f) stencils self
     /\ tell self = 0
     /\ f_pos (fileobj self) = match stencils with
                               | [] => f_pos f
                               | (o, _) :: _ => o
                               end)
  /\ (~ accepted -> __init__ f stencils = Raise AssertionError).
Proof.
  intros accepted. unfold __init__. rewrite init_cumsizes_checks.
  destruct (forallb _ stencils) eqn:Hall.
  - split; [|intros Hn; exfalso; apply Hn].
    2: { apply Forall_forall. intros st Hst. rewrite forallb_forall in Hall.
         specialize (Hall st (proj1 (list_elem_of_In _ _) Hst)).
         apply andb_prop in Hall as [H1 H2].
         apply Z.leb_le in H1. apply Z.ltb_lt in H2. done. }
    intros Hacc. change (last_item [0]) with 0.
    destruct stencils as [|[o s] rest].
    + eexists. split; [reflexivity|]. by split_and!.
    + pose proof (Forall_inv Hacc) as [Ho Hs]. simpl in Ho, Hs.
      pose proof (total_pos_sizes rest (Forall_inv_tail Hacc)) as Hrest.
      set (self0 := mk _ _ _ _ _).
      assert (Hlast : last_item (cumsizes self0) = s + total (map snd rest)).
      { unfold self0. cbn [cumsizes]. change ([0] ++ ?l) with (0 :: l).
        rewrite running_last.
        change (total (map snd ((o, s) :: rest))) with (s + total (map snd rest)). lia. }
      unfold seek. cbn [set_offset offset]. change (0 <? 0) with false. cbv iota.
      change (set_offset self0 0) with self0.
      rewrite Hlast. destruct (_ <=? 0) eqn:E; [apply Z.leb_le in E; lia|].
      assert (Hfind : _findStencil self0 0 = Ok 0%nat).
      { unfold _findStencil, self0. simpl.
        destruct (0 + s <? 0 + 1) eqn:E1; [apply Z.ltb_lt in E1; lia|]. done. }
      rewrite Hfind.
      change (getitem (cumsizes self0) 0) with (Ok (A:=Z) 0).
      change (getitem (sizes self0) 0) with (Ok s).
      change (getitem (offsets self0) 0) with (Ok o).
      cbv zeta. unfold fseek. rewrite !Z.sub_diag, !Z.add_0_r.
      change (0 <? 0) with false. cbv iota.
      destruct (s <=? 0) eqn:E2; [apply Z.leb_le in E2; lia|].
      destruct (o <? 0) eqn:E3; [apply Z.ltb_lt in E3; lia|].
      eexists. split; [reflexivity|]. by split_and!.
  - split; [|done]. intros Hacc. exfalso.
    assert (forallb (fun st : Z * Z => (0 <=? st.1) && (0 <? st.2)) stencils = true);
      [|congruence].
    apply forallb_forall. intros st Hst.
    unfold accepted in Hacc. rewrite Forall_forall in Hacc. destruct (Hacc st (proj2 (list_elem_of_In _ _) Hst)).
    apply andb_true_intro. split; [by apply Z.leb_le|by apply Z.ltb_lt].
Qed.

(** The stencils of the class' documentation are accepted; a stencil of size 0 is not. *)
Lemma init_checks_stencils_witness :
  (exists self,
     __init__ Samples.abc Samples.abc_twice = Ok self
     /\ constructed (f_data Samples.abc) Samples.abc_twice self
     /\ tell self = 0 /\ f_pos (fileobj self) = 0)
  /\ __init__ Samples.abc [(0, 3); (1, 0)] = Raise AssertionError.
Proof.
  split.
  - apply (proj1 (init_checks_stencils Samples.abc Samples.abc_twice)).
    repeat constructor; simpl; lia.
  - apply (proj2 (init_checks_stencils Samples.abc [(0, 3); (1, 0)])).
    intros H. apply Forall_inv_tail, Forall_inv in H. simpl in H. lia.
Defined.

(** X2: a seek to a position before the start raises, whatever the
    [whence], but only after the virtual position has been set: the
    underlying file is untouched, [tell] reports the negative position,
    and a following [read] raises [AssertionError]. *)
Theorem seek_before_start self off w n :
  let target := match w with
                | SEEK_SET => off
                | SEEK_CUR => offset self + off
                | SEEK_END => last_item (cumsizes self) + off
                end in
  target < 0 ->
  exists self',
    seek self off w = (Raise SeekBeforeStart, self')
    /\ fileobj self' = fileobj self
    /\ tell self' = target
    /\ read self' n = (Raise AssertionError, self').
Proof.
  intros target Hneg. exists (set_offset self target).
  assert (Hlt : (target <? 0) = true) by by apply Z.ltb_lt.
  split_and!; [|done|done|].
  - unfold seek. destruct w; cbn [set_offset offset]; fold target; by rewrite Hlt.
  - unfold read, _findStencil. cbn [set_offset offset]. by rewrite Hlt.
Qed.

(** Seven bytes back from the end of a virtual file of six. *)
Lemma seek_before_start_witness :
  exists self',
    seek Samples.abc_stenciled (-7) SEEK_END = (Raise SeekBeforeStart, self')
    /\ fileobj self' = fileobj Samples.abc_stenciled
    /\ tell self' = -1
    /\ read self' 2 = (Raise AssertionError, self').
Proof. apply (seek_before_start Samples.abc_stenciled (-7) SEEK_END 2). vm_compute. reflexivity. Defined.

End StenciledFileConstruction.

(** ** Reads of a stenciled file in a row *)

Section StenciledFileReads.
Import StenciledFile.

(** The loop of [read] keeps the underlying file in step with the virtual
    position: it ends inside or at the end of some stencil, with the
    underlying file at the matching place. *)
Lemma read_loop_in_step data : forall fuel done o s todo self size acc,
  Forall (fits data) (done ++ (o, s) :: todo) ->
  constructed data (done ++ (o, s) :: todo) self ->
  total (map snd done) <= offset self <= total (map snd done) + s ->
  f_pos (fileobj self) = o + (offset self - total (map snd done)) ->
  0 <= size ->
  exists done' o' s' todo',
    let self' := snd (read_loop fuel self size (length done) acc) in
    done ++ (o, s) :: todo = done' ++ (o', s') :: todo'
    /\ constructed data (done ++ (o, s) :: todo) self'
    /\ total (map snd done') <= offset self' <= total (map snd done') + s'
    /\ f_pos (fileobj self') = o' + (offset self' - total (map snd done')).
Proof.
  induction fuel as [|fuel IH];
    intros done o s todo self size acc HF Hc Hoff Hpos Hsize.
  { by exists done, o, s, todo. }
  destruct (constructed_lookups _ _ _ _ _ _ Hc) as (Hs & Hcum & Ho & Hlen & Hleno).
  pose proof (proj1 (Forall_app _ _ _) HF) as [HFdone HFrest].
  pose proof (Forall_inv HFrest) as Hfit. pose proof (Forall_inv_tail HFrest) as HFtodo.
  pose proof Hfit as (Hfo & Hfs & Hfd). simpl in Hfo, Hfs, Hfd.
  cbn [read_loop]. rewrite Hlen.
  destruct (0 <? size) eqn:Esz; cbn [andb].
  2: { by exists done, o, s, todo. }
  apply Z.ltb_lt in Esz.
  destruct (Z.of_nat (length done) <? Z.of_nat (length done + S (length todo))) eqn:Ei;
    [|apply Z.ltb_ge in Ei; lia].
  rewrite Hs, Hcum. cbv zeta.
  set (d := offset self - total (map snd done)) in *.
  destruct (Z.min size (s - d) =? 0) eqn:Er.
  - apply Z.eqb_eq in Er. assert (Hd : d = s) by lia.
    rewrite Hleno. destruct todo as [|[o' s'] todo].
    + destruct (_ <=? _) eqn:E; [|apply Z.leb_gt in E; simpl in E; lia].
      by exists done, o, s, [].
    + destruct (_ <=? _) eqn:E; [apply Z.leb_le in E; simpl in E; lia|].
      assert (Hc' : constructed data ((done ++ [(o, s)]) ++ (o', s') :: todo) self)
        by by rewrite <- app_assoc.
      destruct (constructed_lookups _ _ _ _ _ _ Hc') as (_ & _ & Ho' & _ & _).
      replace (S (length done)) with (length (done ++ [(o, s)]))
        by (rewrite length_app; simpl; lia).
      rewrite Ho'.
      pose proof (Forall_inv HFtodo) as (Hfo' & Hfs' & Hfd'). simpl in Hfo', Hfs', Hfd'.
      unfold fseek. destruct (o' <? 0) eqn:Eo; [apply Z.ltb_lt in Eo; lia|].
      destruct (IH (done ++ [(o, s)]) o' s' todo
                   (set_fileobj self {| f_data := f_data (fileobj self); f_pos := o' |})
                   size acc) as (done2 & o2 & s2 & todo2 & Hst & Hc2 & Hoff2 & Hpos2).
      * by rewrite <- app_assoc.
      * apply constructed_set_fileobj; [done|]. by destruct Hc as (_ & _ & _ & ?).
      * rewrite map_app, total_app. change (total (map snd [(o, s)])) with (s + 0). simpl. lia.
      * rewrite map_app, total_app. change (total (map snd [(o, s)])) with (s + 0). simpl. lia.
      * done.
      * rewrite <- app_assoc in Hst, Hc2. simpl in Hst, Hc2.
        by exists done2, o2, s2, todo2.
  - apply Z.eqb_neq in Er.
    set (r := Z.min size (s - d)) in *.
    assert (Hr : 0 < r <= s - d) by lia.
    assert (Hdata : f_data (fileobj self) = data) by by destruct Hc as (_ & _ & _ & ?).
    assert (Hlenout : Z.of_nat (length (fst (fread (fileobj self) r))) = r).
    { unfold fread. simpl. destruct (r <? 0) eqn:E; [apply Z.ltb_lt in E; lia|].
      rewrite length_take, length_drop, Hdata, Hpos. lia. }
    destruct (fread (fileobj self) r) as [tmp f2] eqn:Hfr. simpl in Hlenout.
    assert (Hf2 : f_data f2 = data /\ f_pos f2 = o + d + r).
    { unfold fread in Hfr. inversion Hfr; subst f2. simpl. split; [done|].
      rewrite H0, Hlenout, Hpos. lia. }
    destruct Hf2 as [Hf2d Hf2p].
    destruct (IH done o s todo
                 (set_offset (set_fileobj self f2) (offset self + Z.of_nat (length tmp)))
                 (size - r) (acc ++ tmp)) as (done2 & o2 & s2 & todo2 & Hst & Hc2 & Hoff2 & Hpos2).
    + done.
    + apply constructed_set_offset. by apply constructed_set_fileobj.
    + simpl. lia.
    + simpl. lia.
    + lia.
    + by exists done2, o2, s2, todo2.
Qed.

(** A position inside a stencil is inside no other one, and it is at the
    end of another one only when it is the start of its own. *)
Lemma stencil_of_position data (done done' todo todo' : list (Z * Z)) o s o' s' x :
  Forall (fits data) (done ++ (o, s) :: todo) ->
  done ++ (o, s) :: todo = done' ++ (o', s') :: todo' ->
  total (map snd done) <= x < total (map snd done) + s ->
  total (map snd done') <= x <= total (map snd done') + s' ->
  x <> total (map snd done) \/ x < total (map snd done') + s' ->
  done' = done /\ o' = o /\ s' = s /\ todo' = todo.
Proof.
  intros HF Heq Hx Hx' Hne.
  assert (Hdone : done' = done).
  { destruct (app_eq_inv _ _ _ _ Heq) as [(k & Hk & Hrest)|(k & Hk & Hrest)].
    - destruct k as [|st k]; [by rewrite app_nil_r in Hk|].
      simpl in Hrest. injection Hrest as <- Hrest. exfalso.
      rewrite Hk in HF. rewrite <- app_assoc in HF.
      apply Forall_app in HF as [_ HF]. apply Forall_app in HF as [HF _].
      pose proof (total_nonneg data k (Forall_inv_tail HF)) as Hk0.
      rewrite Hk, map_app, total_app in Hx, Hne.
      change (total (map snd ((o', s') :: k))) with (s' + total (map snd k)) in Hx, Hne. lia.
    - destruct k as [|st k]; [by rewrite app_nil_r in Hk|].
      simpl in Hrest. injection Hrest as <- Hrest. exfalso.
      rewrite Hrest in HF.
      apply Forall_app in HF as [_ HF]. apply Forall_inv_tail in HF.
      apply Forall_app in HF as [HF _].
      pose proof (total_nonneg data k HF) as Hk0.
      rewrite Hk, map_app, total_app in Hx'.
      change (total (map snd ((o, s) :: k))) with (s + total (map snd k)) in Hx'. lia. }
  subst done'. apply app_inv_head in Heq. by injection Heq as -> -> ->.
Qed.

(** The running totals hold the start of every stencil. *)
Lemma start_in_cumsizes data (done todo : list (Z * Z)) st self :
  constructed data (done ++ st :: todo) self ->
  total (map snd done) ∈ cumsizes self.
Proof.
  intros (_ & _ & -> & _). rewrite map_app.
  pose proof (running_lookup (map snd done) (map snd (st :: todo)) 0) as H.
  rewrite Z.add_0_l in H. by apply list_elem_of_lookup_2 in H.
Qed.

Lemma bisect_left_all (l : list Z) x : Forall (fun c => c < x) l -> bisect_left l x = length l.
Proof.
  induction 1 as [|c l Hc _ IH]; [done|]. simpl.
  destruct (c <? x) eqn:E; [by rewrite IH|apply Z.ltb_ge in E; lia].
Qed.

Lemma running_bounded (sizes : list Z) : forall a,
  Forall (fun s => 0 < s) sizes ->
  Forall (fun c => c <= a + total sizes) (a :: running a sizes).
Proof.
  induction sizes as [|s sizes IH]; intros a Hpos.
  - constructor; [|done]. unfold total. simpl. lia.
  - pose proof (Forall_inv Hpos) as Hs.
    assert (H0 : 0 <= total sizes).
    { clear -Hpos. apply Forall_inv_tail in Hpos.
      induction Hpos as [|? ? ? ? IH]; [done|]. unfold total in *. simpl. lia. }
    change (total (s :: sizes)) with (s + total sizes).
    constructor; [cbv beta in *; lia|]. specialize (IH (a + s) (Forall_inv_tail Hpos)).
    cbn [running]. eapply Forall_impl; [exact IH|]. cbv beta. intros. lia.
Qed.

Lemma running_length (sizes : list Z) : forall a, length (running a sizes) = length sizes.
Proof. induction sizes as [|s sizes IH]; intros a; simpl; [done|]. by rewrite IH. Qed.

(** At the end of the virtual file, and beyond, [read] returns nothing. *)
Lemma read_at_end data stencils self n :
  constructed data stencils self -> Forall (fits data) stencils ->
  total (map snd stencils) <= offset self -> 0 <= n ->
  read self n = (Ok [], self).
Proof.
  intros Hc HF Hend Hn. pose proof Hc as (Ho & Hs & Hcum & _).
  pose proof (total_nonneg data stencils HF) as H0.
  unfold read. destruct (n =? -1) eqn:E; [apply Z.eqb_eq in E; lia|].
  unfold _findStencil. destruct (offset self <? 0) eqn:E0; [apply Z.ltb_lt in E0; lia|].
  rewrite Hcum, bisect_left_all.
  2: { eapply Forall_impl; [apply running_bounded|].
       - apply Forall_forall. intros s Hin. apply list_elem_of_fmap in Hin as (st & -> & Hin).
         rewrite Forall_forall in HF. by destruct (HF st Hin) as (_ & ? & _).
       - simpl. intros. lia. }
  cbn [length]. rewrite running_length.
  destruct (_ - 1 <? 0) eqn:E1; [apply Z.ltb_lt in E1; lia|].
  replace (Z.to_nat (Z.of_nat (S (length (map snd stencils))) - 1))
    with (length (sizes self)) by (rewrite Hs; lia).
  unfold read_fuel. cbn [read_loop].
  destruct (0 <? n); cbn [andb]; [|done].
  by rewrite Z.ltb_irrefl.
Qed.

(** X3: [_findStencil] raises [AssertionError] for a negative position;
    for a position inside the virtual file it returns the index of the
    stencil that holds the position, counting the bytes of the stencils
    before it; and for a position at or beyond the end it returns the number
    of stencils, which is the index of no stencil. *)
Theorem findStencil_finds_the_stencil data stencils self position :
  constructed data stencils self ->
  Forall (fits data) stencils ->
  (position < 0 -> _findStencil self position = Raise AssertionError)
  /\ (0 <= position < total (map snd stencils) ->
      exists done o s todo,
        stencils = done ++ (o, s) :: todo
        /\ _findStencil self position = Ok (length done)
        /\ total (map snd done) <= position < total (map snd done) + s)
  /\ (total (map snd stencils) <= position ->
      _findStencil self position = Ok (length stencils)).
Proof.
  intros Hc HF. split; [|split].
  - intros Hneg. unfold _findStencil.
    by destruct (position <? 0) eqn:E; [|apply Z.ltb_ge in E; lia].
  - by apply (_findStencil_inside data).
  - intros Hend. pose proof Hc as (_ & _ & Hcum & _).
    pose proof (total_nonneg data stencils HF) as H0.
    unfold _findStencil. destruct (position <? 0) eqn:E0; [apply Z.ltb_lt in E0; lia|].
    rewrite Hcum, bisect_left_all.
    2: { eapply Forall_impl; [apply running_bounded|].
         - apply Forall_forall. intros s Hin. apply list_elem_of_fmap in Hin as (st & -> & Hin).
           rewrite Forall_forall in HF. by destruct (HF st Hin) as (_ & ? & _).
         - simpl. intros. lia. }
    cbn [length]. rewrite running_length, length_map.
    destruct (_ - 1 <? 0) eqn:E1; [apply Z.ltb_lt in E1; lia|]. f_equal. lia.
Qed.

(** The positions -1, 4 and 6 of [abcabc]. *)
Lemma findStencil_finds_the_stencil_witness :
  (-1 < 0 -> _findStencil Samples.abc_stenciled (-1) = Raise AssertionError)
  /\ _findStencil Samples.abc_stenciled 4 = Ok 1%nat
  /\ _findStencil Samples.abc_stenciled 6 = Ok 2%nat.
Proof.
  assert (Hc : constructed (Samples.B "abc") Samples.abc_twice Samples.abc_stenciled)
    by by split_and!.
  assert (HF : Forall (fits (Samples.B "abc")) Samples.abc_twice)
    by (repeat constructor; simpl; lia).
  pose proof (findStencil_finds_the_stencil _ _ _ (-1) Hc HF) as (H1 & _ & _).
  pose proof (findStencil_finds_the_stencil _ _ _ 6 Hc HF) as (_ & _ & H3).
  split; [exact H1|]. split; [reflexivity|]. apply H3. vm_compute. discriminate.
Defined.

(** A [seek] into the virtual file puts the underlying file in step. *)
Lemma seek_in_step data stencils self p :
  constructed data stencils self ->
  Forall (fits data) stencils ->
  0 <= p < total (map snd stencils) ->
  exists self1 done o s todo,
    seek self p SEEK_SET = (Ok p, self1)
    /\ constructed data stencils self1
    /\ offset self1 = p
    /\ stencils = done ++ (o, s) :: todo
    /\ total (map snd done) <= p < total (map snd done) + s
    /\ f_pos (fileobj self1) = o + (p - total (map snd done)).
Proof.
  intros Hc HF Hp.
  destruct (_findStencil_inside data stencils self p Hc Hp)
    as (done & o & s & todo & -> & Hfind & Hr).
  destruct (constructed_lookups _ _ _ _ _ _ Hc) as (Hs & Hcum & Ho & Hlen & Hleno).
  pose proof (constructed_total _ _ _ Hc) as Htotal.
  pose proof (proj1 (Forall_app _ _ _) HF) as [HFdone HFrest].
  pose proof (Forall_inv HFrest) as (Hfo & Hfs & Hfd). simpl in Hfo, Hfs, Hfd.
  set (f1 := {| f_data := f_data (fileobj self);
                f_pos := o + (p - total (map snd done)) |}).
  exists (set_fileobj (set_offset self p) f1), done, o, s, todo.
  split; [|split; [|done]].
  - unfold seek. cbn [set_offset offset cumsizes sizes offsets fileobj].
    destruct (p <? 0) eqn:E; [apply Z.ltb_lt in E; lia|].
    rewrite Htotal. destruct (_ <=? p) eqn:E'; [apply Z.leb_le in E'; lia|].
    change (_findStencil (set_offset self p) p) with (_findStencil self p).
    rewrite Hfind, Hcum, Hs, Ho.
    destruct (p - _ <? 0) eqn:E1; [apply Z.ltb_lt in E1; lia|].
    destruct (s <=? _) eqn:E2; [apply Z.leb_le in E2; lia|].
    unfold fseek. by destruct (o + _ <? 0) eqn:E3; [apply Z.ltb_lt in E3; lia|].
  - apply constructed_set_fileobj; [by apply constructed_set_offset|].
    by destruct Hc as (_ & _ & _ & ?).
Qed.

(** With the underlying file in step, [read] returns the next bytes of the
    virtual file and leaves the underlying file in step with the stencil it
    stopped in. *)
Lemma read_in_step data done o s todo self n :
  let stencils := done ++ (o, s) :: todo in
  constructed data stencils self ->
  Forall (fits data) stencils ->
  total (map snd done) <= offset self < total (map snd done) + s ->
  f_pos (fileobj self) = o + (offset self - total (map snd done)) ->
  0 <= n ->
  exists self' done' o' s' todo',
    read self n
    = (Ok (take (Z.to_nat n) (drop (Z.to_nat (offset self)) (contents data stencils))), self')
    /\ offset self' = Z.min (offset self + n) (total (map snd stencils))
    /\ constructed data stencils self'
    /\ stencils = done' ++ (o', s') :: todo'
    /\ total (map snd done') <= offset self' <= total (map snd done') + s'
    /\ f_pos (fileobj self') = o' + (offset self' - total (map snd done')).
Proof.
  intros stencils Hc HF Hoff Hpos Hn.
  destruct (constructed_lookups _ _ _ _ _ _ Hc) as (Hs & Hcum & Ho & Hlen & Hleno).
  assert (Hfind : _findStencil self (offset self) = Ok (length done)).
  { pose proof (proj1 (Forall_app _ _ _) HF) as [HFdone HFrest].
    pose proof (total_nonneg data done HFdone) as Hdone0.
    pose proof (total_nonneg data todo (Forall_inv_tail HFrest)) as Htodo0.
    destruct (_findStencil_inside data stencils self (offset self) Hc)
      as (done2 & o2 & s2 & todo2 & Hst & Hfind & Hr).
    { unfold stencils. rewrite map_app, total_app.
      change (total (map snd ((o, s) :: todo))) with (s + total (map snd todo)). lia. }
    destruct (stencil_of_position data done done2 todo todo2 o s o2 s2 (offset self))
      as (-> & _); try done; [lia|right; lia]. }
  destruct (read_loop_spec data (read_fuel self n) done o s todo self n [])
    as (self' & Hread & Hoffset); try done; [lia| |].
  { unfold read_fuel. rewrite Hlen. lia. }
  destruct (read_loop_in_step data (read_fuel self n) done o s todo self n [])
    as (done' & o' & s' & todo' & Hrest); try done; [lia|].
  cbv zeta in Hrest. rewrite Hread in Hrest. cbn [snd] in Hrest.
  destruct Hrest as (Hst & Hc' & Hoff' & Hpos').
  exists self', done', o', s', todo'. split; [|done].
  unfold read. destruct (n =? -1) eqn:E; [apply Z.eqb_eq in E; lia|].
  by rewrite Hfind.
Qed.

(** X4: after a [seek] to a position [p] inside the virtual file, given
    from the start, from the current position or from the end, [read(n)]
    returns the bytes [p, p + n) of the concatenated slices, cut at the end
    of the virtual file, and [read()] returns all of them from [p] on;
    [tell] then reports the position after the bytes returned.  The
    stencils are required to lie inside the underlying file. *)
Theorem read_range_after_seek data stencils self off w n :
  constructed data stencils self ->
  Forall (fits data) stencils ->
  let p := match w with
           | SEEK_SET => off
           | SEEK_CUR => tell self + off
           | SEEK_END => total (map snd stencils) + off
           end in
  0 <= p < total (map snd stencils) ->
  0 <= n ->
  exists self1 self2 self3,
    seek self off w = (Ok p, self1)
    /\ tell self1 = p
    /\ read self1 n
       = (Ok (take (Z.to_nat n) (drop (Z.to_nat p) (contents data stencils))), self2)
    /\ tell self2 = Z.min (p + n) (total (map snd stencils))
    /\ read self1 (-1) = (Ok (drop (Z.to_nat p) (contents data stencils)), self3)
    /\ tell self3 = total (map snd stencils).
Proof.
  intros Hc HF p Hp Hn.
  assert (Hw : seek self off w = seek self p SEEK_SET).
  { subst p. destruct w; try reflexivity.
    unfold seek. by rewrite (constructed_total _ _ _ Hc). }
  destruct (seek_then_read data stencils self p n Hc HF Hp Hn)
    as (self1 & self2 & Hseek & Htell1 & _ & Hread & Htell2).
  destruct (seek_then_read_all data stencils self p Hc HF Hp)
    as (self1' & self3 & Hseek' & Hall & Htell3).
  rewrite Hseek in Hseek'. injection Hseek' as <-. rewrite Hw.
  by exists self1, self2, self3.
Qed.

(** [abcabc], four bytes back from the end: three bytes, and all the rest. *)
Lemma read_range_after_seek_witness :
  exists self1 self2 self3,
    seek Samples.abc_stenciled (-4) SEEK_END = (Ok 2, self1)
    /\ tell self1 = 2
    /\ read self1 3 = (Ok (Samples.B "cab"), self2)
    /\ tell self2 = 5
    /\ read self1 (-1) = (Ok (Samples.B "cabc"), self3)
    /\ tell self3 = 6.
Proof.
  apply (read_range_after_seek (Samples.B "abc") Samples.abc_twice Samples.abc_stenciled
                               (-4) SEEK_END 3).
  - by split_and!.
  - repeat constructor; simpl; lia.
  - vm_compute. split; [discriminate|reflexivity].
  - lia.
Defined.

(** X5: two reads in a row after [seek(p)] return the bytes [p, p + n) and
    [p + n, p + n + m) of the concatenated slices, provided that the first
    read does not end at the start of a stencil: it ends inside a stencil,
    or it reaches the end of the virtual file, where the second read returns
    nothing. *)
Theorem consecutive_reads data stencils self p n m :
  constructed data stencils self ->
  Forall (fits data) stencils ->
  0 <= p < total (map snd stencils) ->
  0 <= n -> 0 <= m ->
  p + n ∉ cumsizes self \/ total (map snd stencils) <= p + n ->
  exists self1 self2 self3,
    seek self p SEEK_SET = (Ok p, self1)
    /\ read self1 n
       = (Ok (take (Z.to_nat n) (drop (Z.to_nat p) (contents data stencils))), self2)
    /\ read self2 m
       = (Ok (take (Z.to_nat m) (drop (Z.to_nat (p + n)) (contents data stencils))), self3)
    /\ tell self3 = Z.min (p + n + m) (total (map snd stencils)).
Proof.
  intros Hc HF Hp Hn Hm Hend.
  destruct (seek_in_step data stencils self p Hc HF Hp)
    as (self1 & done & o & s & todo & Hseek & Hc1 & Hoff1 & Hst & Hin & Hpos1).
  pose proof (contents_length data stencils HF) as Hlen.
  assert (Hcum : cumsizes self1 = cumsizes self).
  { destruct Hc as (_ & _ & -> & _). by destruct Hc1 as (_ & _ & -> & _). }
  subst stencils.
  destruct (read_in_step data done o s todo self1 n)
    as (self2 & done2 & o2 & s2 & todo2 & Hread & Hoff2 & Hc2 & Hst2 & Hin2 & Hpos2);
    try done; [by rewrite Hoff1|by rewrite Hoff1|].
  rewrite Hoff1 in Hread, Hoff2.
  exists self1, self2. 
  destruct (Z_le_gt_dec (total (map snd (done ++ (o, s) :: todo))) (p + n)) as [Hge|Hlt].
  - exists self2. split_and!; try done.
    + rewrite (read_at_end data _ self2 m Hc2 HF) by lia.
      rewrite drop_ge, take_nil by lia. done.
    + unfold tell. lia.
  - assert (Hnot : p + n ∉ cumsizes self) by (destruct Hend; [done|lia]).
    assert (Hx : offset self2 = p + n) by lia.
    assert (Hstrict : total (map snd done2) <= offset self2 < total (map snd done2) + s2).
    { split; [lia|]. destruct (Z.eq_dec (offset self2) (total (map snd done2) + s2)) as [Heq|]; [|lia].
      exfalso. destruct todo2 as [|st todo2].
      - rewrite Hst2, map_app, total_app in Hlt.
        change (total (map snd [(o2, s2)])) with (s2 + 0) in Hlt. lia.
      - apply Hnot. rewrite <- Hx, Heq, <- Hcum.
        replace (total (map snd done2) + s2) with (total (map snd (done2 ++ [(o2, s2)]))).
        2: { rewrite map_app, total_app. change (total (map snd [(o2, s2)])) with (s2 + 0). lia. }
        apply (start_in_cumsizes data _ todo2 st).
        rewrite <- app_assoc. simpl. by rewrite <- Hst2. }
    rewrite Hst2 in Hc2, HF.
    destruct (read_in_step data done2 o2 s2 todo2 self2 m)
      as (self3 & _ & _ & _ & _ & Hread3 & Hoff3 & _); try done.
    rewrite <- Hst2 in Hread3, Hoff3. rewrite Hx in Hread3, Hoff3.
    exists self3. split_and!; try done.
Qed.

(** [abcabc] from the position 1: three bytes across the boundary, ending
    inside the second stencil, and then the two bytes that are left. *)
Lemma consecutive_reads_witness :
  exists self1 self2 self3,
    seek Samples.abc_stenciled 1 SEEK_SET = (Ok 1, self1)
    /\ read self1 3 = (Ok (Samples.B "bca"), self2)
    /\ read self2 5 = (Ok (Samples.B "bc"), self3)
    /\ tell self3 = 6.
Proof.
  apply (consecutive_reads (Samples.B "abc") Samples.abc_twice Samples.abc_stenciled 1 3 5).
  - by split_and!.
  - repeat constructor; simpl; lia.
  - vm_compute. split; [discriminate|reflexivity].
  - lia.
  - lia.
  - left. vm_compute. intros H. by repeat (apply elem_of_cons in H as [H|H]; [discriminate H|]); apply elem_of_nil in H.
Defined.

End StenciledFileReads.

(** ** getattr *)

Section Getattr.
Import TarMount.

Lemma getattr_S depth root self path :
  getattr (S depth) root self path =
  match (if String.eqb path "/" then Ok (Some root)
         else SQLiteIndexedTar.getFileInfo (indexedTar self) path) with
  | Raise e => Raise e
  | Ok None => Raise ENOENT
  | Ok (Some fileInfo) =>
    if is_hard_link fileInfo
    then getattr depth root self (targetLink fileInfo)
    else
      Ok (mkStatDict
            (SQLiteIndexedTar.size fileInfo)
            (py_int (SQLiteIndexedTar.mtime fileInfo))
            (Z.land (SQLiteIndexedTar.mode fileInfo)
                    (Z.lnot (Z.lor (Z.lor stat.S_IWUSR stat.S_IWGRP) stat.S_IWOTH)))
            (SQLiteIndexedTar.uid fileInfo)
            (SQLiteIndexedTar.gid fileInfo)
            2)
  end.
Proof. reflexivity. Qed.

Lemma land_mask_assoc m a b c : Z.land a b = c -> Z.land (Z.land m a) b = Z.land m c.
Proof. intros <-. by rewrite Z.land_assoc. Qed.

(** [int()] leaves a whole number as it is and cuts the fraction of any
    other number: the result is the nearest integer towards zero. *)
Lemma py_int_whole (n : Z) : py_int (Qc_of_Z n) = n.
Proof. unfold py_int. cbn. apply Z.quot_1_r. Qed.

Lemma py_int_fraction :
  py_int (Q2Qc (3144000001 # 2)) = 1572000000 /\ py_int (Q2Qc (-3 # 2)) = -1.
Proof. split; vm_compute; reflexivity. Qed.

(** What [getattr] finds under a path. *)
Lemma getattr_found root self path fileInfo :
  (if String.eqb path "/" then Ok (Some root)
   else SQLiteIndexedTar.getFileInfo (indexedTar self) path) = Ok (Some fileInfo)
  <-> found root self path fileInfo.
Proof.
  unfold found. destruct (String.eqb_spec path "/") as [->|Hne].
  - split; [intros [= <-]; by left|]. by intros [[_ ->]|[? _]].
  - split; [intros H; by right|]. by intros [[? _]|[_ ?]].
Qed.

(** X6: whatever [getattr] returns for a path describes the entry at the
    end of the chain of link names that starts at this path, an entry that
    is no hard link: its size and owner, its time as a whole number, its
    mode without the three write bits and with the same file type, and a
    link count of 2. *)
Theorem getattr_is_read_only depth root self path s :
  getattr depth root self path = Ok s ->
  exists target fileInfo,
    link_chain root self path target fileInfo
    /\ Z.land (st_mode s) stat.S_IWUSR = 0
    /\ Z.land (st_mode s) stat.S_IWGRP = 0
    /\ Z.land (st_mode s) stat.S_IWOTH = 0
    /\ Z.lor (st_mode s) (Z.land (SQLiteIndexedTar.mode fileInfo) 146)
       = SQLiteIndexedTar.mode fileInfo
    /\ stat.S_IFMT (st_mode s) = stat.S_IFMT (SQLiteIndexedTar.mode fileInfo)
    /\ st_size s = SQLiteIndexedTar.size fileInfo
    /\ st_mtime s = py_int (SQLiteIndexedTar.mtime fileInfo)
    /\ st_uid s = SQLiteIndexedTar.uid fileInfo
    /\ st_gid s = SQLiteIndexedTar.gid fileInfo
    /\ st_nlink s = 2.
Proof.
  revert path. induction depth as [|depth IH]; intros path H; [done|].
  rewrite getattr_S in H.
  destruct (if String.eqb path "/" then Ok (Some root)
            else SQLiteIndexedTar.getFileInfo (indexedTar self) path)
    as [[fileInfo|]|] eqn:Hinfo; [|done|done].
  apply getattr_found in Hinfo.
  destruct (is_hard_link fileInfo) eqn:Hlink.
  { destruct (IH _ H) as (target & targetInfo & Hchain & Hrest).
    exists target, targetInfo. split; [|exact Hrest]. by eapply chain_link. }
  injection H as <-. exists path, fileInfo. cbn [st_mode st_size st_mtime st_uid st_gid st_nlink].
  split; [by apply chain_end|].
  set (m := SQLiteIndexedTar.mode fileInfo).
  split_and!; try done.
  - by rewrite (land_mask_assoc m _ _ 0), Z.land_0_r.
  - by rewrite (land_mask_assoc m _ _ 0), Z.land_0_r.
  - by rewrite (land_mask_assoc m _ _ 0), Z.land_0_r.
  - rewrite <- Z.land_lor_distr_r.
    change (Z.lor (Z.lnot (Z.lor (Z.lor stat.S_IWUSR stat.S_IWGRP) stat.S_IWOTH)) 146)
      with (-1).
    apply Z.land_m1_r.
  - unfold stat.S_IFMT. by rewrite (land_mask_assoc m _ _ stat.S_IFMT_MASK).
Qed.

(** [/second] links to [/hard], which links to [/a.txt], of mode 0644. *)
Lemma getattr_is_read_only_witness :
  exists target fileInfo,
    link_chain (rootFileInfo 33188 3584 0 1000 1000) Samples.hardlink_mount
               "/second" target fileInfo
    /\ Z.land 33060 stat.S_IWUSR = 0
    /\ Z.land 33060 stat.S_IWGRP = 0
    /\ Z.land 33060 stat.S_IWOTH = 0
    /\ Z.lor 33060 (Z.land (SQLiteIndexedTar.mode fileInfo) 146)
       = SQLiteIndexedTar.mode fileInfo
    /\ stat.S_IFMT 33060 = stat.S_IFMT (SQLiteIndexedTar.mode fileInfo)
    /\ 10 = SQLiteIndexedTar.size fileInfo
    /\ 0 = py_int (SQLiteIndexedTar.mtime fileInfo)
    /\ 0 = SQLiteIndexedTar.uid fileInfo
    /\ 0 = SQLiteIndexedTar.gid fileInfo
    /\ 2 = 2.
Proof.
  apply (getattr_is_read_only 3 (rootFileInfo 33188 3584 0 1000 1000) Samples.hardlink_mount
                              "/second" (mkStatDict 10 0 33060 0 0 2)).
  vm_compute. reflexivity.
Defined.

(** X7: for a hard link whose link name leads back to its own path,
    [getattr] calls itself until the interpreter's recursion limit is hit,
    whatever the limit: it has no test like the one of [read], which reads
    such a member at its own offset. *)
Theorem getattr_link_to_itself depth root self path fileInfo :
  path <> "/" ->
  SQLiteIndexedTar.getFileInfo (indexedTar self) path = Ok (Some fileInfo) ->
  is_hard_link fileInfo = true ->
  targetLink fileInfo = path ->
  getattr depth root self path = Raise RecursionError.
Proof.
  intros Hroot Hinfo Hlink Htarget. induction depth as [|depth IH]; [done|].
  rewrite getattr_S.
  destruct (String.eqb path "/") eqn:E; [by apply String.eqb_eq in E|].
  by rewrite Hinfo, Hlink, Htarget.
Qed.

(** The member [self], a hard link to [self], with the recursion limit of
    the interpreter. *)
Lemma getattr_link_to_itself_witness :
  getattr 1000 (rootFileInfo 33188 3584 0 1000 1000) Samples.hardlink_mount "/self"
  = Raise RecursionError.
Proof.
  apply (getattr_link_to_itself 1000 _ Samples.hardlink_mount "/self" Samples.self_info).
  - discriminate.
  - vm_compute. reflexivity.
  - vm_compute. reflexivity.
  - vm_compute. reflexivity.
Defined.

Lemma mountMode_low st_mode : mountMode (Z.land st_mode 511) = mountMode st_mode.
Proof.
  unfold mountMode. rewrite <- Z.land_assoc. by change (Z.land 511 511) with 511.
Qed.

Lemma land_511_range m : 0 <= Z.land m 511 < 512.
Proof.
  change 511 with (Z.ones 9). rewrite Z.land_ones by lia.
  change (2 ^ 9) with 512. apply Z.mod_pos_bound. lia.
Qed.

(** The mode that [getattr] reports for the mount point, tested for each
    value of the low nine bits of the mode of the archive file. *)
Lemma root_mode_checked :
  forallb
    (fun k =>
       let m := Z.land (mountMode k)
                       (Z.lnot (Z.lor (Z.lor stat.S_IWUSR stat.S_IWGRP) stat.S_IWOTH)) in
       stat.S_ISDIR m
       && (Z.land m 146 =? 0)
       && (Z.land m 292 =? Z.land k 292)
       && Bool.eqb (negb (Z.land m stat.S_IXUSR =? 0))
                   (negb (Z.land k stat.S_IRUSR =? 0) || negb (Z.land k stat.S_IXUSR =? 0))
       && Bool.eqb (negb (Z.land m stat.S_IXGRP =? 0))
                   (negb (Z.land k stat.S_IRGRP =? 0) || negb (Z.land k stat.S_IXGRP =? 0))
       && Bool.eqb (negb (Z.land m stat.S_IXOTH =? 0))
                   (negb (Z.land k stat.S_IROTH =? 0) || negb (Z.land k stat.S_IXOTH =? 0)))
    (map Z.of_nat (seq 0 512)) = true.
Proof. vm_compute. reflexivity. Qed.

Lemma nonzero_iff (a b c : Z) :
  Bool.eqb (negb (a =? 0)) (negb (b =? 0) || negb (c =? 0)) = true ->
  (a <> 0 <-> b <> 0 \/ c <> 0).
Proof.
  intros H. apply Bool.eqb_prop in H.
  destruct (Z.eqb_spec a 0), (Z.eqb_spec b 0), (Z.eqb_spec c 0); simpl in H; try done;
    intuition lia.
Qed.

(** X8: [getattr] of the mount point itself never looks at the index: it
    reports a directory owned like the archive file, with the size of the
    archive file and its time cut to a whole number, the read bits of its
    mode, no write bit, and an execute bit for whom the archive file is
    readable or executable. *)
Theorem getattr_mount_point depth self (mode size : Z) (mtime : number) (uid gid : Z) :
  exists s,
    getattr (S depth) (rootFileInfo mode size mtime uid gid) self "/" = Ok s
    /\ stat.S_ISDIR (st_mode s) = true
    /\ Z.land (st_mode s) 146 = 0
    /\ Z.land (st_mode s) 292 = Z.land mode 292
    /\ (Z.land (st_mode s) stat.S_IXUSR <> 0
        <-> Z.land mode stat.S_IRUSR <> 0 \/ Z.land mode stat.S_IXUSR <> 0)
    /\ (Z.land (st_mode s) stat.S_IXGRP <> 0
        <-> Z.land mode stat.S_IRGRP <> 0 \/ Z.land mode stat.S_IXGRP <> 0)
    /\ (Z.land (st_mode s) stat.S_IXOTH <> 0
        <-> Z.land mode stat.S_IROTH <> 0 \/ Z.land mode stat.S_IXOTH <> 0)
    /\ st_size s = size /\ st_mtime s = py_int mtime
    /\ st_uid s = uid /\ st_gid s = gid /\ st_nlink s = 2.
Proof.
  eexists. split.
  { rewrite getattr_S. change (String.eqb "/" "/") with true. cbv iota.
    unfold is_hard_link, rootFileInfo. cbn [SQLiteIndexedTar.linkname].
    change (negb (String.eqb "" "")) with false. rewrite andb_false_r. reflexivity. }
  cbn [st_mode st_size st_mtime st_uid st_gid st_nlink SQLiteIndexedTar.mode
       SQLiteIndexedTar.size SQLiteIndexedTar.mtime SQLiteIndexedTar.uid SQLiteIndexedTar.gid].
  pose proof root_mode_checked as Hall. rewrite forallb_forall in Hall.
  specialize (Hall (Z.land mode 511)).
  destruct (land_511_range mode) as [H0 H1].
  rewrite mountMode_low in Hall. cbv zeta in Hall.
  rewrite !(land_mask_assoc mode 511 _ _ eq_refl) in Hall.
  destruct (andb_prop _ _ (Hall ltac:(apply in_map_iff; exists (Z.to_nat (Z.land mode 511));
                                        split; [lia|apply in_seq; lia])))
    as [Hrest Hxo].
  apply andb_prop in Hrest as [Hrest Hxg]. apply andb_prop in Hrest as [Hrest Hxu].
  apply andb_prop in Hrest as [Hrest Hr]. apply andb_prop in Hrest as [Hdir Hw].
  apply Z.eqb_eq in Hw, Hr.
  split_and!; try done; by apply nonzero_iff.
Qed.

End Getattr.

(** ** getattr and read *)

Section GetattrAndRead.
Import TarMount.

(** X9: [getattr] and [read] mean the same member by a path.  When
    [getattr] returns for a path, the size that it reports is the one of the
    entry at the end of the chain of link names that starts at this path,
    and [read] with the same recursion limit returns the bytes of the archive
    at the offset of this very member, unless the chain ends at the mount
    point, which only [getattr] answers by itself. *)
Theorem getattr_describes_what_read_reads
        (extractfile : StenciledFile.t -> Z -> Z -> outcome bytes * StenciledFile.t)
        depth root self path s len off :
  is_hard_link root = false ->
  0 <= len ->
  getattr depth root self path = Ok s ->
  exists target fileInfo,
    link_chain root self path target fileInfo
    /\ st_size s = SQLiteIndexedTar.size fileInfo
    /\ (target <> "/" ->
        SQLiteIndexedTar.issparse fileInfo = false ->
        0 <= SQLiteIndexedTar.offset fileInfo + off ->
        fst (read extractfile depth self path len off)
        = Ok (take (Z.to_nat len)
                   (drop (Z.to_nat (SQLiteIndexedTar.offset fileInfo + off))
                         (f_data (tarFile self))))).
Proof.
  intros Hroot Hlen. revert path. induction depth as [|depth IH]; intros path H; [done|].
  rewrite getattr_S in H.
  destruct (String.eqb path "/") eqn:Epath.
  { rewrite Hroot in H. injection H as <-. apply String.eqb_eq in Epath. subst path.
    exists "/", root. split; [|by split].
    apply chain_end; [by left|done]. }
  destruct (SQLiteIndexedTar.getFileInfo (indexedTar self) path) as [[fileInfo|]|] eqn:Hinfo;
    [|done..].
  assert (Hfound : found root self path fileInfo).
  { right. split; [|done]. intros ->. discriminate. }
  destruct (is_hard_link fileInfo) eqn:Hlink.
  - assert (Hne : targetLink fileInfo <> path).
    { intros Heq. rewrite Heq in H. clear IH.
      assert (Hloop : forall d, getattr d root self path = Raise RecursionError).
      { induction d as [|d IHd]; [done|].
        by rewrite getattr_S, Epath, Hinfo, Hlink, Heq. }
      by rewrite Hloop in H. }
    destruct (IH _ H) as (target & info & Hchain & Hsize & Hread).
    exists target, info. split; [by eapply chain_link|]. split; [done|].
    intros Htarget Hsparse Hoff.
    rewrite read_S, Hinfo, Hlink.
    destruct (String.eqb (targetLink fileInfo) path) eqn:E;
      [by apply String.eqb_eq in E|]. by apply Hread.
  - injection H as <-. exists path, fileInfo. split; [by apply chain_end|]. split; [done|].
    intros _ Hsparse Hoff.
    rewrite (read_direct extractfile depth self path len off fileInfo) by
      (done || by rewrite Hlink).
    done.
Qed.

(** [/second] links to [/hard], which links to [/a.txt]. *)
Lemma getattr_describes_what_read_reads_witness :
  exists target fileInfo,
    link_chain (rootFileInfo 33188 3584 0 1000 1000) Samples.hardlink_mount
               "/second" target fileInfo
    /\ 10 = SQLiteIndexedTar.size fileInfo
    /\ (target <> "/" ->
        SQLiteIndexedTar.issparse fileInfo = false ->
        0 <= SQLiteIndexedTar.offset fileInfo + 2 ->
        fst (read Samples.no_sparse 3 Samples.hardlink_mount "/second" 5 2)
        = Ok (take (Z.to_nat 5)
                   (drop (Z.to_nat (SQLiteIndexedTar.offset fileInfo + 2))
                         (f_data (tarFile Samples.hardlink_mount))))).
Proof.
  apply (getattr_describes_what_read_reads
           Samples.no_sparse 3 (rootFileInfo 33188 3584 0 1000 1000) Samples.hardlink_mount
           "/second" (mkStatDict 10 0 33060 0 0 2) 5 2).
  - reflexivity.
  - lia.
  - vm_compute. reflexivity.
Defined.

End GetattrAndRead.

(** ** The table of the parent folders *)

Section ParentFolderTable.
Import SQLiteIndexedTar.



End ParentFolderTable.

(** ** The listing of a folder *)

Section Listing.
Import SQLiteIndexedTar.

(** A row is selected when it is in the table and has the path asked for. *)
Lemma elem_of_select_path rows path row :
  row ∈ select_path rows path <->
  (exists k, rows !! k = Some row) /\ Sql.path row = path.
Proof.
  unfold select_path. rewrite list_elem_of_In, filter_In, <- list_elem_of_In.
  rewrite list_elem_of_fmap. split.
  - intros [([k r] & -> & Hin) Hp]. apply elem_of_map_to_list in Hin.
    split; [by exists k|]. by apply String.eqb_eq.
  - intros [[k Hk] Hp]. split; [|by apply String.eqb_eq].
    exists (k, row). split; [done|]. by apply elem_of_map_to_list.
Qed.

(** The dictionary filled from a list of rows holds what the last row of a
    name says; with at most one row of a name, it holds this row. *)
Lemma add_entries_other (l : list Sql.FileRow) : forall dir n,
  (forall row, row ∈ l -> Sql.name row <> n) ->
  fold_left add_entry l dir !! n = dir !! n.
Proof.
  induction l as [|x l IH]; intros dir n Hnone; [done|].
  cbn [fold_left]. rewrite IH.
  - unfold add_entry. destruct (String.eqb (Sql.name x) ""); [done|].
    apply lookup_insert_ne. apply Hnone. left.
  - intros row Hin. apply Hnone. by right.
Qed.

Lemma add_entries_row (l : list Sql.FileRow) : forall dir n row,
  n <> "" -> row ∈ l -> Sql.name row = n ->
  (forall row', row' ∈ l -> Sql.name row' = n -> row' = row) ->
  fold_left add_entry l dir !! n = Some (FileInfo_of_row row).
Proof.
  induction l as [|x l IH]; intros dir n row Hn Hin Hname Huniq.
  { by apply elem_of_nil in Hin. }
  cbn [fold_left].
  destruct (decide (Exists (fun r => Sql.name r = n) l)) as [Hl|Hl].
  - apply Exists_exists in Hl as (row' & Hin' & Hname').
    assert (row' = row) as -> by (apply Huniq; [by right|done]).
    apply IH; try done. intros row' Hin''. apply Huniq. by right.
  - assert (Hnone : forall row', row' ∈ l -> Sql.name row' <> n).
    { intros row' Hin' Hname'. apply Hl, Exists_exists. by exists row'. }
    apply elem_of_cons in Hin as [->|Hin]; [|by destruct (Hnone row Hin)].
    rewrite add_entries_other by done.
    unfold add_entry. rewrite Hname.
    destruct (String.eqb n "") eqn:E; [by apply String.eqb_eq in E|].
    apply lookup_insert_eq.
Qed.

(** The listing of a folder, read off the table. *)
Lemma listDir_spec (self : t) (db : Sql.Db) (rows : gmap (string * string) Sql.FileRow) fullPath :
  sqlConnection self = Some db ->
  Sql.files db = Some rows ->
  (forall k row, rows !! k = Some row -> Sql.key row = k) ->
  let path := PyStr.rstrip ("/" +:+ PyStr.lstrip (PyStr.normpath fullPath)) in
  exists result,
    getFileInfo_listDir self fullPath = Ok result
    /\ (is_Some result <-> exists name, is_Some (rows !! (path, name)))
    /\ forall dir, result = Some dir ->
         forall name, dir !! name = if decide (name = "") then None
                                    else FileInfo_of_row <$> rows !! (path, name).
Proof.
  intros Hconn Hfiles Hkeyed path. unfold getFileInfo_listDir. rewrite Hconn, Hfiles.
  fold path. set (selected := select_path rows path).
  assert (Hsel : forall row, row ∈ selected <-> rows !! (path, Sql.name row) = Some row).
  { intros row. unfold selected. rewrite elem_of_select_path. split.
    - intros [[k Hk] Hp]. rewrite <- Hp. by rewrite <- (Hkeyed k row Hk) in Hk.
    - intros Hk. split; [by eexists|]. by injection (Hkeyed _ _ Hk). }
  eexists. split; [reflexivity|]. split.
  - split.
    + intros Hsome. destruct selected as [|row l]; [by destruct Hsome|].
      assert (Hin : row ∈ row :: l) by left.
      apply Hsel in Hin. by exists (Sql.name row), row.
    + intros (name & row & Hrow).
      pose proof (Hkeyed _ _ Hrow) as Hkey. injection Hkey as Hp Hn.
      assert (Hin : row ∈ selected) by (apply Hsel; by rewrite Hn).
      destruct selected; [by apply elem_of_nil in Hin|done].
  - intros dir Hdir name.
    assert (dir = fold_left add_entry selected ∅) as ->.
    { destruct selected; [done|by injection Hdir]. }
    destruct (decide (name = "")) as [->|Hname].
    + assert (Hempty : forall (l : list Sql.FileRow) d, d !! "" = None ->
                         fold_left add_entry l d !! "" = None).
      { induction l as [|x l IH]; intros d Hd; [done|]. cbn [fold_left]. apply IH.
        unfold add_entry. destruct (String.eqb (Sql.name x) "") eqn:E; [done|].
        rewrite lookup_insert_ne; [done|]. intros Heq. by rewrite Heq in E. }
      by apply Hempty.
    + destruct (rows !! (path, name)) as [row|] eqn:Hrow.
      * pose proof (Hkeyed _ _ Hrow) as Hkey. injection Hkey as Hp Hn.
        apply add_entries_row; try done.
        -- apply Hsel. by rewrite Hn.
        -- intros row' Hin' Hn'. apply Hsel in Hin'. rewrite Hn' in Hin'. congruence.
      * rewrite add_entries_other; [done|].
        intros row Hin Hn. apply Hsel in Hin. rewrite Hn in Hin. congruence.
Qed.

(** X11: with [listDir = True], [getFileInfo] returns a dictionary exactly
    when some row has the normalised path without trailing slashes in its
    path column, and so [isDir] says; the dictionary holds these rows by
    name, each with the value that the lookup of this path and name gives,
    except for a row with an empty name. *)
Theorem listDir_lists_the_rows_of_the_path (self : t) (db : Sql.Db)
        (rows : gmap (string * string) Sql.FileRow) fullPath :
  sqlConnection self = Some db ->
  Sql.files db = Some rows ->
  (forall k row, rows !! k = Some row -> Sql.key row = k) ->
  let path := PyStr.rstrip ("/" +:+ PyStr.lstrip (PyStr.normpath fullPath)) in
  exists result is_dir,
    getFileInfo_listDir self fullPath = Ok result
    /\ isDir self fullPath = Ok is_dir
    /\ (is_dir = true <-> is_Some result)
    /\ (is_Some result <-> exists name, is_Some (rows !! (path, name)))
    /\ forall dir, result = Some dir ->
         forall name, dir !! name = if decide (name = "") then None
                                    else FileInfo_of_row <$> rows !! (path, name).
Proof.
  intros Hconn Hfiles Hkeyed path.
  destruct (listDir_spec self db rows fullPath Hconn Hfiles Hkeyed)
    as (result & Hlist & Hsome & Hdir).
  exists result, (bool_decide (is_Some result)). split; [done|]. split; [|split; [|done]].
  - unfold isDir. rewrite Hlist. by destruct result.
  - apply bool_decide_eq_true.
Qed.

End Listing.

(** ** readdir *)

Section Readdir.
Import TarMount.

(** X12: [readdir] yields [.] and [..] and then the non-empty names of the
    rows whose path column is the normalised path without trailing slashes,
    each once; for a path without such rows, be it unknown, a file or a
    folder without entries, only [.] and [..]. *)
Theorem readdir_lists_the_names (self : t) (db : Sql.Db) (rows : gmap (string * string) Sql.FileRow) path :
  SQLiteIndexedTar.sqlConnection (indexedTar self) = Some db ->
  Sql.files db = Some rows ->
  (forall k row, rows !! k = Some row -> Sql.key row = k) ->
  let folder := PyStr.rstrip ("/" +:+ PyStr.lstrip (PyStr.normpath path)) in
  exists names,
    readdir self path = Ok ("." :: ".." :: names)
    /\ NoDup names
    /\ forall name, name ∈ names <-> name <> "" /\ is_Some (rows !! (folder, name)).
Proof.
  intros Hconn Hfiles Hkeyed folder.
  destruct (listDir_spec (indexedTar self) db rows path Hconn Hfiles Hkeyed)
    as (result & Hlist & Hsome & Hdir).
  unfold readdir. rewrite Hlist. eexists. split; [reflexivity|].
  destruct result as [dir|].
  - split; [apply NoDup_fst_map_to_list|].
    intros name. specialize (Hdir dir eq_refl name). fold folder in Hdir.
    rewrite list_elem_of_fmap. split.
    + intros ([n info] & -> & Hin). apply elem_of_map_to_list in Hin. simpl in *.
      rewrite Hin in Hdir. destruct (decide (n = "")); [done|]. split; [done|].
      destruct (rows !! (folder, n)); [by eexists|done].
    + intros [Hn [row Hrow]]. rewrite Hrow in Hdir.
      destruct (decide (name = "")); [done|].
      exists (name, SQLiteIndexedTar.FileInfo_of_row row). split; [done|]. by apply elem_of_map_to_list.
  - split; [constructor|]. intros name. split; [by intros ?%elem_of_nil|].
    intros [_ Hrow]. exfalso.
    assert (Hs : is_Some (@None (gmap string SQLiteIndexedTar.FileInfo)));
      [|by destruct Hs].
    apply Hsome. by exists name.
Qed.

End Readdir.

(** *** The listings of a sample index *)

Section ListingWitness.
Import SQLiteIndexedTar.

(** The folder [dir] of the archive with [a.txt] and [dir/b.txt], asked
    for with a trailing slash. *)
Lemma listDir_lists_the_rows_of_the_path_witness :
  let rows := Samples.rows_of (fst (snd Samples.plain_index)) in
  let db := Sql.mkDb (Some rows) None None None None false false in
  let self := mk "archive.tar" false None (Some db) [] in
  exists result is_dir,
    getFileInfo_listDir self "/dir/" = Ok result
    /\ isDir self "/dir/" = Ok is_dir
    /\ (is_dir = true <-> is_Some result)
    /\ (is_Some result <-> exists name, is_Some (rows !! ("/dir", name)))
    /\ forall dir, result = Some dir ->
         forall name, dir !! name = if decide (name = "") then None
                                    else FileInfo_of_row <$> rows !! ("/dir", name).
Proof.
  intros rows db self.
  apply (listDir_lists_the_rows_of_the_path self db rows "/dir/").
  - reflexivity.
  - reflexivity.
  - apply (proj1 (map_Forall_lookup (fun k row => Sql.key row = k) rows)).
    apply (bool_decide_unpack (map_Forall (fun k row => Sql.key row = k) rows)).
    vm_compute. exact I.
Defined.

(** The root of the archive with [a.txt] and [dir/b.txt]. *)
Lemma readdir_lists_the_names_witness :
  let rows := Samples.rows_of (fst (snd Samples.plain_index)) in
  let db := Sql.mkDb (Some rows) None None None None false false in
  let self := TarMount.mk (mk "archive.tar" false None (Some db) [])
                          (mkFileObj Samples.plain_data 0) in
  exists names,
    TarMount.readdir self "/" = Ok ("." :: ".." :: names)
    /\ NoDup names
    /\ forall name, name ∈ names <-> name <> "" /\ is_Some (rows !! ("", name)).
Proof.
  intros rows db self.
  apply (readdir_lists_the_names self db rows "/").
  - reflexivity.
  - reflexivity.
  - apply (proj1 (map_Forall_lookup (fun k row => Sql.key row = k) rows)).
    apply (bool_decide_unpack (map_Forall (fun k row => Sql.key row = k) rows)).
    vm_compute. exact I.
Defined.

End ListingWitness.

(** ** setFileInfo *)

Section SetFileInfo.
Import SQLiteIndexedTar.

Lemma rsplit1_absolute x : exists p n, PyStr.rsplit1 (String "/" x) = Some (p, n).
Proof. simpl. destruct (PyStr.rsplit1 x) as [[p n]|]; eauto. Qed.

Lemma FileInfo_of_row_of_FileInfo path name fileInfo :
  FileInfo_of_row (row_of_FileInfo path name fileInfo) = fileInfo.
Proof. by destruct fileInfo. Qed.

Lemma getFileInfo_rows self rows fullPath :
  sqlConnection self ≫= Sql.files = Some rows ->
  getFileInfo self fullPath =
  match PyStr.rsplit1 ("/" +:+ PyStr.lstrip (PyStr.normpath fullPath)) with
  | None => Raise ValueError
  | Some (path, name) => Ok (FileInfo_of_row <$> rows !! (path, name))
  end.
Proof.
  intros H. unfold getFileInfo. destruct (PyStr.rsplit1 _) as [[path name]|]; [|done].
  destruct (sqlConnection self) as [db|]; [|done]. simpl in H. by rewrite H.
Qed.

(** X13: after [setFileInfo] for a path that is its own normal form,
    [getFileInfo] of this path returns the value given, also when the
    parents of the path could not be recorded, and the answer for every
    other path is what it was.  With a table of parent folders at hand
    [setFileInfo] returns. *)
Theorem setFileInfo_then_getFileInfo (self : t) (db : Sql.Db)
        (rows : gmap (string * string) Sql.FileRow) fullPath fileInfo :
  sqlConnection self = Some db ->
  Sql.files db = Some rows ->
  "/" +:+ PyStr.lstrip (PyStr.normpath fullPath) = fullPath ->
  let result := setFileInfo self fullPath fileInfo in
  getFileInfo (snd result) fullPath = Ok (Some fileInfo)
  /\ (forall other,
        "/" +:+ PyStr.lstrip (PyStr.normpath other) <> fullPath ->
        getFileInfo (snd result) other = getFileInfo self other)
  /\ (is_Some (Sql.parentfolders db) -> fst result = Ok tt).
Proof.
  intros Hconn Hfiles Hnorm result.
  assert (Hslash : exists x, fullPath = String "/" x).
  { rewrite <- Hnorm. by eexists. }
  destruct Hslash as [x Hx].
  destruct (rsplit1_absolute x) as (path & name & Hsplit). rewrite <- Hx in Hsplit.
  set (row := row_of_FileInfo path name fileInfo).
  set (self1 := set_sqlConnection self
                  (Some (Sql.set_files db (Some (Sql.insert_or_replace row rows))))).
  assert (Hresult : result = _tryAddParentFolders self1 path).
  { unfold result, setFileInfo. rewrite Hconn, Hx. change (Ascii.eqb "/" "/") with true.
    cbn [negb]. rewrite <- Hx, Hsplit. unfold _setFileInfo. by rewrite Hconn, Hfiles. }
  assert (Hrows : sqlConnection (snd result) ≫= Sql.files
                  = Some (<[(path, name) := row]> rows)).
  { by rewrite Hresult, tables_of_tryAddParentFolders. }
  assert (Hold : sqlConnection self ≫= Sql.files = Some rows) by by rewrite Hconn.
  split; [|split].
  - rewrite (getFileInfo_rows _ _ _ Hrows), Hnorm, Hsplit, lookup_insert_eq.
    cbn [fmap option_fmap option_map]. unfold row.
    by rewrite FileInfo_of_row_of_FileInfo.
  - intros other Hother.
    rewrite (getFileInfo_rows _ _ _ Hrows), (getFileInfo_rows _ _ _ Hold).
    destruct (PyStr.rsplit1 ("/" +:+ PyStr.lstrip (PyStr.normpath other)))
      as [[path' name']|] eqn:Hsplit'; [|done].
    rewrite lookup_insert_ne; [done|]. intros [= -> ->]. apply Hother.
    by rewrite (rsplit1_spec _ _ _ Hsplit'), (rsplit1_spec _ _ _ Hsplit).
  - intros [pf Hpf]. rewrite Hresult. unfold _tryAddParentFolders.
    destruct (new_parent_folders _ _); [done|].
    cbn [sqlConnection set_parentFolderCache self1 set_sqlConnection
         Sql.parentfolders Sql.set_files]. by rewrite Hpf.
Qed.

(** A third file, set in the index of the archive with [a.txt] and
    [dir/b.txt]. *)
Lemma setFileInfo_then_getFileInfo_witness :
  let rows := Samples.rows_of (fst (snd Samples.plain_index)) in
  let db := Sql.mkDb (Some rows) None None None None false false in
  let self := mk "archive.tar" false None (Some db) [] in
  let result := setFileInfo self "/dir/c.txt" Samples.a_txt_info in
  getFileInfo (snd result) "/dir/c.txt" = Ok (Some Samples.a_txt_info)
  /\ (forall other,
        "/" +:+ PyStr.lstrip (PyStr.normpath other) <> "/dir/c.txt" ->
        getFileInfo (snd result) other = getFileInfo self other)
  /\ (is_Some (Sql.parentfolders db) -> fst result = Ok tt).
Proof.
  intros rows db self.
  apply (setFileInfo_then_getFileInfo self db rows "/dir/c.txt" Samples.a_txt_info);
    reflexivity.
Defined.

End SetFileInfo.

(** ** _tryLoadIndex *)

Section TryLoadIndex.
Import SQLiteIndexedTar.

(** X14: without a loaded index, [_tryLoadIndex] returns [True] exactly
    when the index file exists and none of the checks of [loadIndex]
    rejects it; then the file is kept and the object holds the connection
    to it.  When it returns [False] the object is left without a
    connection, and an index file that was opened and rejected is removed
    if it can be, so that a second attempt on it fails without opening
    anything.  It raises exactly when the index file is no database:
    [loadIndex] fails on it before its checks, the file is removed if it
    can be, and the last [indexIsLoaded] raises [DatabaseError] on the
    connection that is left. *)
Theorem _tryLoadIndex_loads_or_removes removable (disk : Disk) (self : t) indexFileName tarStats :
  sqlConnection self = None ->
  let r := _tryLoadIndex removable disk self indexFileName tarStats in
  let disk' := fst (snd r) in
  let self' := snd (snd r) in
  (fst r = Ok true <-> exists db, disk !! indexFileName = Some db /\ ~ rejected db tarStats)
  /\ (fst r = Ok true ->
      disk' = disk /\ is_Some (disk !! indexFileName)
      /\ sqlConnection self' = disk !! indexFileName
      /\ fst (indexIsLoaded self') = Ok true)
  /\ (fst r = Ok false ->
      sqlConnection self' = None
      /\ disk' = (if removable indexFileName then delete indexFileName disk else disk)
      /\ (removable indexFileName = true ->
          _tryLoadIndex removable disk' self' indexFileName tarStats
          = (Ok false, (disk', self'))))
  /\ (is_ok (fst r) = false <-> disk !! indexFileName = Some Sql.NotADatabase)
  /\ (is_ok (fst r) = false ->
      fst r = Raise DatabaseError
      /\ sqlConnection self' = Some Sql.NotADatabase
      /\ disk' = (if removable indexFileName then delete indexFileName disk else disk)).
Proof.
  intros Hconn r disk' self'. subst disk' self'.
  assert (Hr : r = _tryLoadIndex removable disk self indexFileName tarStats) by done.
  clearbody r. unfold _tryLoadIndex, indexIsLoaded in Hr. rewrite Hconn in Hr.
  destruct (disk !! indexFileName) as [db|] eqn:Hdisk.
  2: { rewrite bool_decide_eq_false_2 in Hr by (by intros [? ?]). cbn in Hr. subst r.
       cbn [fst snd is_ok]. split; [split; [done|by intros (? & ? & _)]|].
       split; [done|]. split; [|by split].
       intros _. split; [done|]. split.
       - destruct (removable indexFileName); [|done]. symmetry. by apply delete_id.
       - intros _. unfold _tryLoadIndex, indexIsLoaded. rewrite Hconn, Hdisk.
         by rewrite bool_decide_eq_false_2 by (by intros [? ?]). }
  rewrite bool_decide_eq_true_2 in Hr by (by eexists). cbn [negb] in Hr.
  unfold loadIndex, indexIsLoaded, _openSqlDb in Hr. rewrite Hconn in Hr.
  rewrite Hdisk in Hr.
  change (default Sql.empty (Some db)) with db in Hr.
  destruct (Sql.is_database db) eqn:Hreal.
  2: { destruct db; [done|]. cbn in Hr. subst r. cbn [fst snd is_ok].
       split; [split; [done|]; intros (? & [= <-] & Hn); destruct Hn; right; by left|].
       by repeat split. }
  assert (Hdb : Some db <> Some Sql.NotADatabase) by (intros [= ->]; done).
  cbn [sqlConnection set_sqlConnection] in Hr.
  pose proof (validate_index_spec db tarStats) as Hv.
  destruct (validate_index db tarStats) as [printed|e].
  - destruct Hv as (Hnot & [rows Hrows] & _).
    cbn [sqlConnection set_sqlConnection] in Hr. rewrite Hrows in Hr. subst r.
    cbn [fst snd is_ok].
    split; [split; [by exists db|done]|]. split; [|by repeat split]. intros _.
    split_and!; try done. unfold indexIsLoaded. cbn [sqlConnection set_sqlConnection].
    by rewrite Hrows.
  - cbn [sqlConnection set_sqlConnection] in Hr. subst r. cbn [fst snd is_ok].
    split; [split; [done|by intros (? & [= <-] & ?)]|]. split; [done|].
    split; [|by repeat split]. intros _.
    cbn [sqlConnection set_sqlConnection]. split; [done|]. split; [done|].
    intros ->. unfold _tryLoadIndex, indexIsLoaded. cbn [sqlConnection set_sqlConnection].
    assert (Hgone : delete indexFileName disk !! indexFileName = None)
      by apply lookup_delete_eq.
    rewrite Hgone. by rewrite bool_decide_eq_false_2 by (by intros [? ?]).
Qed.

(** The index of a bzip2 compressed archive without a table of versions
    is rejected and removed. *)
Lemma _tryLoadIndex_loads_or_removes_witness :
  let self := Samples.fresh false in
  let r := _tryLoadIndex (fun _ => true) Samples.old_bzip2_disk self
                         "archive.tar.index.sqlite" Samples.archive_stat in
  fst r = Ok false
  /\ sqlConnection (snd (snd r)) = None
  /\ fst (snd r) = delete "archive.tar.index.sqlite" Samples.old_bzip2_disk.
Proof.
  intros self r.
  assert (Hfalse : fst r = Ok false) by reflexivity.
  split; [done|].
  destruct (proj1 (proj2 (proj2 (_tryLoadIndex_loads_or_removes
                            (fun _ => true) Samples.old_bzip2_disk self
                            "archive.tar.index.sqlite" Samples.archive_stat eq_refl)))
                  Hfalse) as (Hconn & Hdisk & _).
  split; [exact Hconn|exact Hdisk].
Defined.

End TryLoadIndex.

(** ** An index from its creation to the next load *)

Section IndexFrame.
Import SQLiteIndexedTar.

(** The tables that the scan of the members does not write to. *)
Local Abbreviation kept self :=
  ((fun db => (Sql.filestmp db, Sql.metadata db, Sql.bzip2blocks db, Sql.gzipindex db))
     <$> sqlConnection self).

Lemma kept_tryAddParentFolders self path :
  kept (snd (_tryAddParentFolders self path)) = kept self.
Proof.
  unfold _tryAddParentFolders. destruct (new_parent_folders _ _); [done|].
  change (sqlConnection (set_parentFolderCache self ?c)) with (sqlConnection self).
  destruct (sqlConnection self) as [db|] eqn:E;
    [|by cbn [snd sqlConnection set_parentFolderCache]; rewrite E].
  destruct (Sql.parentfolders db); [done|].
  by cbn [snd sqlConnection set_parentFolderCache]; rewrite E.
Qed.

Lemma kept_setFileInfo self row : kept (snd (_setFileInfo self row)) = kept self.
Proof.
  unfold _setFileInfo. destruct (sqlConnection self) as [db|] eqn:E;
    [|by cbn [snd]; rewrite E].
  destruct (Sql.files db); [|by cbn [snd]; rewrite E].
  by rewrite kept_tryAddParentFolders.
Qed.

Lemma kept_index_member descend streamed self fileObject pathPrefix streamOffset tarInfo :
  preserves_scanning descend ->
  (forall self fileObject pathPrefix streamOffset,
     scanning self -> rooted pathPrefix ->
     kept (fst (snd (descend self fileObject pathPrefix streamOffset))) = kept self) ->
  scanning self -> rooted pathPrefix ->
  kept (fst (snd (index_member descend streamed self fileObject pathPrefix streamOffset tarInfo)))
  = kept self.
Proof.
  intros Hpres Hkept Hs Hp. unfold index_member.
  assert (Hrec : kept (fst (snd (recurse_into descend streamed self fileObject tarInfo
                                   (member_mode tarInfo) (member_fullPath pathPrefix tarInfo)
                                   (streamOffset + tarfile.offset_data tarInfo))))
                 = kept self).
  { unfold recurse_into. destruct (_ && _); [|done].
    destruct (fseek fileObject _) as [[?|e] fo1]; [|done].
    specialize (Hkept (set_tarFileName self (PyStr.lstrip (tarfile.name tarInfo))) fo1
                      (member_fullPath pathPrefix tarInfo)
                      (if streamed then streamOffset + tarfile.offset_data tarInfo else 0)
                      (scanning_set_tarFileName _ _ Hs) (rooted_fullPath _ _ Hp)).
    destruct (descend _ _ _ _) as [[[]|e] [self1 fo2]]; cbn [fst snd] in Hkept.
    - by destruct (fseek fo2 _) as [[?|?] ?].
    - destruct e; try done. by destruct (fseek fo2 _) as [[?|?] ?]. }
  destruct (recurse_into _ _ _ _ _ _ _ _) as [[[mode isTar]|e] [self1 fo1]]; [|done].
  cbn [fst snd] in Hrec.
  destruct (PyStr.rsplit1 _) as [[path name]|]; [|done].
  pose proof (kept_setFileInfo self1 (member_row path name streamOffset tarInfo mode isTar)) as H.
  destruct (_setFileInfo self1 _) as [r self2]. cbn [fst snd] in *. by rewrite H.
Qed.

Lemma kept_scan_members disk kind pathPrefix streamOffset tell_end members :
  Forall (fun m =>
            forall self fileObject pathPrefix streamOffset,
              scanning self -> rooted pathPrefix ->
              kept (fst (snd (createIndex (tarfile.inner m) disk kind
                                          self fileObject pathPrefix streamOffset)))
              = kept self) members ->
  forall self fileObject,
    scanning self -> rooted pathPrefix ->
    kept (fst (snd (scan_members disk kind pathPrefix streamOffset tell_end members
                                 self fileObject)))
    = kept self.
Proof.
  induction 1 as [|[tarInfo tell inner] members Hm _ IH]; intros self fileObject Hs Hp; [done|].
  cbn [scan_members].
  pose proof (kept_index_member (createIndex inner disk kind) (is_streamed kind) self
                                (mkFileObj (f_data fileObject) tell) pathPrefix streamOffset
                                tarInfo (createIndex_preserves_scanning disk kind inner)
                                Hm Hs Hp) as Hk.
  destruct (index_member _ _ _ _ _ _ _) as [r1 [self1 fo1]] eqn:Him.
  eapply index_member_scanning in Him as [_ Hs1];
    [|apply createIndex_preserves_scanning|done..].
  cbn [fst snd] in Hk. destruct r1 as [[]|e]; [|done].
  rewrite IH; [done|by apply Hs1|done].
Qed.

Lemma kept_createIndex disk kind scan :
  forall self fileObject pathPrefix streamOffset,
    scanning self -> rooted pathPrefix ->
    kept (fst (snd (createIndex scan disk kind self fileObject pathPrefix streamOffset)))
    = kept self.
Proof.
  induction scan as [|members tell_end IH] using Scan_nested_ind;
    intros self fileObject pathPrefix streamOffset Hs Hp.
  - by rewrite createIndex_NotATar, createIndex_open_scanning.
  - rewrite createIndex_Tar, createIndex_open_scanning by done.
    pose proof (kept_scan_members disk kind pathPrefix streamOffset tell_end members IH
                                  self fileObject Hs Hp) as Hk.
    destruct (scan_members _ _ _ _ _ _ _ _) as [r1 [self1 fo1]] eqn:Hsm.
    eapply scan_members_scanning in Hsm as [Hne Hs1]; [|by apply Forall_forall; intros;
      apply createIndex_preserves_scanning|done..].
    cbn [fst snd] in Hk. destruct r1 as [[]|e].
    + destruct (finish_index_scanning kind self1 (Hs1 eq_refl)) as (self2 & Hfin & _).
      rewrite Hfin. cbn [fst snd]. rewrite <- Hk.
      destruct (Hs1 eq_refl) as (db & rows & pf & Hdb & Hrows & _).
      unfold finish_index in Hfin. rewrite Hdb in Hfin.
      rewrite add_versions_database in Hfin by by eapply files_database.
      injection Hfin as <-. cbn [sqlConnection set_sqlConnection]. by rewrite Hdb.
    + by destruct e.
Qed.

Lemma assoc_last_app {A} (k : string) (l1 l2 : list (string * A)) :
  assoc_last k (l1 ++ l2) = match assoc_last k l2 with
                            | Some v => Some v
                            | None => assoc_last k l1
                            end.
Proof.
  induction l1 as [|[k' v] l1 IH]; simpl.
  - by destruct (assoc_last k l2).
  - rewrite IH. by destruct (assoc_last k l2).
Qed.

Lemma assoc_last_absent {A} (k : string) (l : list (string * A)) :
  k ∉ l.*1 -> assoc_last k l = None.
Proof.
  induction l as [|[k' v] l IH]; [done|]. simpl. intros Hk.
  rewrite IH by (intros ?; apply Hk; by right).
  destruct (String.eqb k' k) eqn:E; [|done].
  apply String.eqb_eq in E. subst. destruct Hk. left.
Qed.

(** The state before the first member is indexed. *)
Lemma createIndex_open_fresh disk self :
  sqlConnection self = None -> parentFolderCache self = [] ->
  (forall p, indexFileName self = Some p -> disk !! p = None) ->
  exists self1,
    createIndex_open disk self = (Ok true, self1)
    /\ scanning self1
    /\ kept self1 = Some (Some [], None, false, false)
    /\ (sqlConnection self1 ≫= Sql.versions) = None.
Proof.
  intros Hconn Hcache Hdisk. unfold createIndex_open, indexIsLoaded. rewrite Hconn.
  unfold _openSqlDb. cbn [sqlConnection set_sqlConnection].
  assert (match indexFileName self with
          | Some p => default Sql.empty (disk !! p)
          | None => Sql.empty
          end = Sql.empty) as ->.
  { destruct (indexFileName self) as [p|]; [|done]. by rewrite (Hdisk p eq_refl). }
  change (already_has_table Sql.empty) with false. cbv iota.
  eexists. split; [reflexivity|]. split; [|done].
  apply (scanning_pending_intro "" _ (createTables Sql.empty) ∅ ∅); try done.
  simpl. rewrite Hcache. by intros k ?%elem_of_nil.
Qed.

(** What [createIndex] leaves in a new index file. *)
Lemma createIndex_result scan disk kind self fileObject self' fileObject' :
  sqlConnection self = None -> parentFolderCache self = [] ->
  (forall p, indexFileName self = Some p -> disk !! p = None) ->
  createIndex scan disk kind self fileObject "" 0 = (Ok tt, (self', fileObject')) ->
  exists rows old,
    sqlConnection self'
    = Some (Sql.mkDb (Some rows) None None
                     (Some (old ++ program_versions ++ module_versions kind))
                     None false false).
Proof.
  intros Hconn Hcache Hdisk.
  destruct scan as [|members tell_end].
  { rewrite createIndex_NotATar. by destruct (createIndex_open disk self) as [[|] ?]. }
  rewrite createIndex_Tar.
  destruct (createIndex_open_fresh disk self Hconn Hcache Hdisk)
    as (self1 & -> & Hs1 & Hk1 & Hv1).
  assert (Hroot : rooted "") by by left.
  pose proof (kept_scan_members disk kind "" 0 tell_end members
                (proj2 (Forall_forall _ _) (fun m _ => kept_createIndex disk kind _))
                self1 fileObject Hs1 Hroot) as Hk.
  destruct (scan_members _ _ _ _ _ _ _ _) as [r1 [self2 fo2]] eqn:Hsm.
  eapply scan_members_scanning in Hsm as [Hne Hs2]; [|by apply Forall_forall; intros;
    apply createIndex_preserves_scanning|done..].
  cbn [fst snd] in Hk. rewrite Hk1 in Hk.
  destruct r1 as [[]|e]; [|by destruct e].
  destruct (Hs2 eq_refl) as (db & rows & pf & Hdb & Hrows & Htmp & Hpf & _).
  unfold finish_index. rewrite Hdb. rewrite Hdb in Hk. injection Hk as _ Hmeta Hbz Hgz.
  unfold cleanupDatabase. rewrite Hrows, Htmp, Hpf.
  intros [= <- _]. eexists _, (default [] (Sql.versions db)).
  cbn [sqlConnection set_sqlConnection]. f_equal.
  unfold add_versions, Sql.set_versions, Sql.set_parentfolders, Sql.set_filestmp, Sql.set_files.
  cbn [Sql.files Sql.filestmp Sql.parentfolders Sql.versions Sql.metadata Sql.bzip2blocks
       Sql.gzipindex].
  by rewrite Hmeta, Hbz, Hgz.
Qed.

Lemma Qc_of_Z_inj (a b : Z) : Qc_of_Z a = Qc_of_Z b <-> a = b.
Proof. split; [|by intros ->]. unfold Qc_of_Z. by intros [= ->]. Qed.

Lemma validate_index_fresh (rows : gmap (string * string) Sql.FileRow) old kind tarStats now :
  Forall (fun row => (version_numbers row).1 <> "index") (module_versions kind) ->
  "st_size" ∉ (st_other tarStats).*1 ->
  "st_mtime" ∉ (st_other tarStats).*1 ->
  validate_index
    (Sql.mkDb (Some rows) None None
              (Some (old ++ program_versions ++ module_versions kind))
              (Some [("tarstats", serializedTarStats tarStats)]) false false) now
  = if negb (st_size now =? st_size tarStats)
    then Raise (PyException "TAR file for this SQLite index has changed size")
    else if negb (bool_decide (st_mtime now = st_mtime tarStats))
    then Raise (PyException "The modification date for the TAR file has changed")
    else Ok [].
Proof.
  intros Hmod Hsize Hmtime.
  set (db := Sql.mkDb _ _ _ _ _ _ _).
  unfold validate_index.
  change (Sql.tables db) with ["files"; "versions"; "metadata"].
  change (str_in "bzip2blocks" ["files"; "versions"; "metadata"]) with false.
  change (str_in "files" ["files"; "versions"; "metadata"]) with true.
  change (str_in "filestmp" ["files"; "versions"; "metadata"]) with false.
  change (str_in "parentfolders" ["files"; "versions"; "metadata"]) with false.
  cbn [andb negb orb].
  unfold check_outdated.
  change (str_in "versions" ["files"; "versions"; "metadata"]) with true. cbn [negb].
  destruct (load_versions_lookup db _ "index" eq_refl) as (d & -> & ->).
  rewrite !map_app, !assoc_last_app.
  assert (assoc_last "index" (map version_numbers (module_versions kind)) = None) as ->.
  { apply assoc_last_absent. intros Hin.
    apply list_elem_of_fmap in Hin as (pair & Hname & Hin).
    apply list_elem_of_fmap in Hin as (row & -> & Hin).
    rewrite Forall_forall in Hmod. by apply (Hmod row Hin). }
  change (assoc_last "index" (map version_numbers program_versions))
    with (Some (Sql.Int 0, Sql.Int 2, Sql.Int 0)).
  cbn [lt_2]. change (2 <? 2) with false. cbv iota.
  unfold check_metadata. cbn [Sql.metadata db].
  rewrite dict_of_lookup.
  change (assoc_last "tarstats" [("tarstats", serializedTarStats tarStats)])
    with (Some (serializedTarStats tarStats)).
  cbn [fmap option_fmap option_map id serializedTarStats].
  unfold has_changed, has_key, differs. rewrite !dict_of_lookup, !option_fmap_id.
  set (others := map _ (st_other tarStats)).
  assert (Hnames : others.*1 = (st_other tarStats).*1).
  { subst others. clear. induction (st_other tarStats) as [|[k v] l IH]; [done|].
    cbn. by rewrite IH. }
  assert (assoc_last "st_size" (("st_size", Json.JNumber (st_size tarStats))
                                :: ("st_mtime", Json.JNumber (st_mtime tarStats)) :: others)
          = Some (Json.JNumber (st_size tarStats))) as ->.
  { cbn [assoc_last]. rewrite assoc_last_absent by by rewrite Hnames. done. }
  assert (assoc_last "st_mtime" (("st_size", Json.JNumber (st_size tarStats))
                                 :: ("st_mtime", Json.JNumber (st_mtime tarStats)) :: others)
          = Some (Json.JNumber (st_mtime tarStats))) as ->.
  { cbn [assoc_last]. rewrite assoc_last_absent by by rewrite Hnames. done. }
  cbn [is_Some Json.eq_number].
  rewrite !bool_decide_eq_true_2 by by eexists.
  match goal with
  | |- context [@bool_decide (@eq ?T (Qc_of_Z (st_size now)) ?y) ?D] =>
    assert (Hsz : @bool_decide (@eq T (Qc_of_Z (st_size now)) y) D
                  = (st_size now =? st_size tarStats))
  end.
  { destruct (Z.eqb_spec (st_size now) (st_size tarStats)) as [->|Hne].
    - by apply bool_decide_eq_true_2.
    - apply bool_decide_eq_false_2. by intros ?%Qc_of_Z_inj. }
  rewrite Hsz.
  destruct (st_size now =? st_size tarStats); [|done].
  cbn [negb]. rewrite (bool_decide_eq_true_2 (is_Some _)) by by eexists.
  destruct (decide (st_mtime now = st_mtime tarStats)) as [H|H].
  - by rewrite !bool_decide_eq_true_2 by done.
  - by rewrite !bool_decide_eq_false_2 by done.
Qed.

(** X15: an index that [createIndex] wrote into a new index file and
    that [_storeTarMetadata] stamped with the stat of the archive is
    accepted by [loadIndex] without a warning as long as the size and the
    modification time of the archive are the ones stored, and is rejected,
    with the connection closed, once one of them differs. *)
Theorem fresh_index_is_accepted_until_the_archive_changes
        scan disk kind self fileObject self' fileObject' tarStats :
  sqlConnection self = None -> parentFolderCache self = [] ->
  (forall p, indexFileName self = Some p -> disk !! p = None) ->
  Forall (fun row => (version_numbers row).1 <> "index") (module_versions kind) ->
  "st_size" ∉ (st_other tarStats).*1 ->
  "st_mtime" ∉ (st_other tarStats).*1 ->
  createIndex scan disk kind self fileObject "" 0 = (Ok tt, (self', fileObject')) ->
  exists db,
    sqlConnection (_storeTarMetadata self' tarStats) = Some db
    /\ forall (later : Disk) other indexFileName now,
         later !! indexFileName = Some db ->
         sqlConnection other = None ->
         let r := loadIndex later other indexFileName now in
         (st_size now = st_size tarStats /\ st_mtime now = st_mtime tarStats ->
          fst r = Ok [] /\ sqlConnection (snd r) = Some db)
         /\ (st_size now <> st_size tarStats \/ st_mtime now <> st_mtime tarStats ->
             (exists msg, fst r = Raise (PyException msg))
             /\ sqlConnection (snd r) = None).
Proof.
  intros Hconn Hcache Hdisk Hmod Hsize Hmtime Hcreate.
  destruct (createIndex_result _ _ _ _ _ _ _ Hconn Hcache Hdisk Hcreate) as (rows & old & Hdb).
  eexists. split.
  { unfold _storeTarMetadata. rewrite Hdb.
    cbn [Sql.metadata Sql.is_database sqlConnection set_sqlConnection].
    reflexivity. }
  intros later other indexFileName now Hlater Hother r. subst r.
  unfold loadIndex, indexIsLoaded. rewrite Hother. unfold _openSqlDb.
  rewrite Hlater.
  change (default Sql.empty (Some ?d)) with d.
  unfold Sql.set_metadata.
  cbn [Sql.files Sql.filestmp Sql.parentfolders Sql.versions Sql.bzip2blocks Sql.gzipindex
       Sql.is_database sqlConnection set_sqlConnection].
  rewrite (validate_index_fresh rows old kind tarStats now Hmod Hsize Hmtime).
  split.
  - intros [-> ->]. by rewrite Z.eqb_refl, bool_decide_eq_true_2.
  - intros Hdiff. destruct (Z.eqb_spec (st_size now) (st_size tarStats)) as [Hs|Hs];
      cbn [negb]; [|split; [by eexists|done]].
    destruct (decide (st_mtime now = st_mtime tarStats)) as [Hm|Hm].
    + by destruct Hdiff.
    + rewrite bool_decide_eq_false_2 by done. cbn [negb]. split; [by eexists|done].
Qed.

(** The index of the archive with [a.txt] and [dir/b.txt]. *)
Lemma fresh_index_is_accepted_until_the_archive_changes_witness :
  exists db,
    sqlConnection (_storeTarMetadata (fst (snd Samples.plain_index)) Samples.archive_stat)
    = Some db
    /\ forall (later : Disk) other indexFileName now,
         later !! indexFileName = Some db ->
         sqlConnection other = None ->
         let r := loadIndex later other indexFileName now in
         (st_size now = 10240 /\ st_mtime now = 1572000000 ->
          fst r = Ok [] /\ sqlConnection (snd r) = Some db)
         /\ (st_size now <> 10240 \/ st_mtime now <> 1572000000 ->
             (exists msg, fst r = Raise (PyException msg))
             /\ sqlConnection (snd r) = None).
Proof.
  apply (fresh_index_is_accepted_until_the_archive_changes
           Samples.plain_scan ∅ PlainFile (Samples.fresh false)
           (mkFileObj Samples.plain_data 0)
           (fst (snd Samples.plain_index)) (snd (snd Samples.plain_index))
           Samples.archive_stat).
  - reflexivity.
  - reflexivity.
  - by intros p [=].
  - constructor.
  - by intros ?%elem_of_nil.
  - by intros ?%elem_of_nil.
  - vm_compute. reflexivity.
Defined.

(** X16: the database of a scan that has not finished is rejected by
    [loadIndex]: whenever the scan of a new index file has recorded some
    of the members, the tables of the scan are what the checks find. *)
Theorem unfinished_index_is_rejected
        disk kind self self1 fileObject members tell_end self2 fileObject2 tarStats :
  sqlConnection self = None -> parentFolderCache self = [] ->
  (forall p, indexFileName self = Some p -> disk !! p = None) ->
  createIndex_open disk self = (Ok true, self1) ->
  scan_members disk kind "" 0 tell_end members self1 fileObject
  = (Ok tt, (self2, fileObject2)) ->
  exists db,
    sqlConnection self2 = Some db
    /\ is_Some (Sql.filestmp db) /\ is_Some (Sql.parentfolders db)
    /\ validate_index db tarStats = Raise (PyException "SQLite index is incomplete")
    /\ forall (later : Disk) other indexFileName,
         later !! indexFileName = Some db ->
         sqlConnection other = None ->
         loadIndex later other indexFileName tarStats
         = (Raise (PyException "SQLite index is incomplete"), other).
Proof.
  intros Hconn Hcache Hdisk Hopen Hscan.
  destruct (createIndex_open_fresh disk self Hconn Hcache Hdisk)
    as (self1' & Hopen' & Hs1 & Hk1 & _).
  rewrite Hopen in Hopen'. injection Hopen' as <-.
  assert (Hroot : rooted "") by by left.
  pose proof (kept_scan_members disk kind "" 0 tell_end members
                (proj2 (Forall_forall _ _) (fun m _ => kept_createIndex disk kind _))
                self1 fileObject Hs1 Hroot) as Hk.
  rewrite Hscan in Hk. cbn [fst snd] in Hk. rewrite Hk1 in Hk.
  eapply scan_members_scanning in Hscan as [_ Hs2]; [|by apply Forall_forall; intros;
    apply createIndex_preserves_scanning|done..].
  destruct (Hs2 eq_refl) as (db & rows & pf & Hdb & Hrows & Htmp & Hpf & _).
  rewrite Hdb in Hk. injection Hk as _ _ Hbz _.
  assert (Hv : validate_index db tarStats = Raise (PyException "SQLite index is incomplete")).
  { unfold validate_index.
    destruct (tables_spec db) as (-> & -> & -> & _ & _ & ->).
    rewrite Hbz, Hrows, Htmp. cbn [andb].
    by rewrite !bool_decide_eq_true_2 by by eexists. }
  exists db. split_and!; [done|by eexists|by eexists|done|].
  intros later other indexFileName Hlater Hother.
  unfold loadIndex, indexIsLoaded. rewrite Hother. unfold _openSqlDb.
  rewrite Hlater.
  change (default Sql.empty (Some db)) with db.
  rewrite (files_database db rows Hrows).
  cbn [sqlConnection set_sqlConnection]. rewrite Hv.
  f_equal. destruct other. cbn in *. by subst.
Qed.

(** The scan of the archive with [a.txt] and [dir/b.txt], stopped after
    the first member. *)
Lemma unfinished_index_is_rejected_witness :
  exists db,
    sqlConnection
      (fst (snd (scan_members ∅ PlainFile "" 0 512 [tarfile.mkMember Samples.a_txt 512 tarfile.NotATar]
                              (snd (createIndex_open ∅ (Samples.fresh false)))
                              (mkFileObj Samples.plain_data 0))))
    = Some db
    /\ is_Some (Sql.filestmp db) /\ is_Some (Sql.parentfolders db)
    /\ validate_index db Samples.archive_stat
       = Raise (PyException "SQLite index is incomplete")
    /\ forall (later : Disk) other indexFileName,
         later !! indexFileName = Some db ->
         sqlConnection other = None ->
         loadIndex later other indexFileName Samples.archive_stat
         = (Raise (PyException "SQLite index is incomplete"), other).
Proof.
  apply (unfinished_index_is_rejected
           ∅ PlainFile (Samples.fresh false)
           (snd (createIndex_open ∅ (Samples.fresh false)))
           (mkFileObj Samples.plain_data 0)
           [tarfile.mkMember Samples.a_txt 512 tarfile.NotATar] 512
           (fst (snd (scan_members ∅ PlainFile "" 0 512
                                   [tarfile.mkMember Samples.a_txt 512 tarfile.NotATar]
                                   (snd (createIndex_open ∅ (Samples.fresh false)))
                                   (mkFileObj Samples.plain_data 0))))
           (mkFileObj Samples.plain_data 512) Samples.archive_stat).
  - reflexivity.
  - reflexivity.
  - by intros p [=].
  - reflexivity.
  - vm_compute. reflexivity.
Defined.

End IndexFrame.

(** ** The scan without the recursive mode *)

Section PlainScan.
Import SQLiteIndexedTar.

Lemma index_member_plain descend streamed self fileObject pathPrefix streamOffset tarInfo :
  mountRecursively self = false ->
  index_member descend streamed self fileObject pathPrefix streamOffset tarInfo
  = match plain_row pathPrefix streamOffset tarInfo with
    | None => (Raise ValueError, (self, fileObject))
    | Some row => (fst (_setFileInfo self row), (snd (_setFileInfo self row), fileObject))
    end.
Proof.
  intros Hrec. unfold index_member, plain_row. rewrite recurse_into_off by done.
  destruct (PyStr.rsplit1 _) as [[path name]|]; [|done].
  by destruct (_setFileInfo self _).
Qed.

Lemma mountRecursively_setFileInfo self row :
  mountRecursively (snd (_setFileInfo self row)) = mountRecursively self.
Proof.
  unfold _setFileInfo, _tryAddParentFolders. by repeat case_match.
Qed.

Lemma mountRecursively_createIndex_open disk self :
  mountRecursively (snd (createIndex_open disk self)) = mountRecursively self.
Proof.
  unfold createIndex_open, indexIsLoaded, _openSqlDb.
  destruct (sqlConnection self) as [db|] eqn:E.
  - destruct (Sql.files db); [done|]. destruct (Sql.is_database db); [|done].
    destruct (Sql.is_database _); [|done].
    cbn [sqlConnection set_sqlConnection]. by destruct (already_has_table _).
  - destruct (Sql.is_database _); [|done].
    cbn [sqlConnection set_sqlConnection]. by destruct (already_has_table _).
Qed.

(** Without the recursive mode the loop never looks at what a member
    contains. *)
Lemma scan_members_plain disk kind pathPrefix streamOffset tell_end members :
  forall members' self fileObject,
    mountRecursively self = false ->
    map tarfile.info members = map tarfile.info members' ->
    map tarfile.tell members = map tarfile.tell members' ->
    scan_members disk kind pathPrefix streamOffset tell_end members self fileObject
    = scan_members disk kind pathPrefix streamOffset tell_end members' self fileObject.
Proof.
  induction members as [|[tarInfo tell inner] members IH];
    intros [|[tarInfo' tell' inner'] members'] self fileObject Hrec Hinfo Htell; try done.
  injection Hinfo as <- Hinfo. injection Htell as <- Htell.
  cbn [scan_members]. rewrite !index_member_plain by done.
  destruct (plain_row _ _ _) as [row|]; [|done].
  pose proof (mountRecursively_setFileInfo self row) as Hrec'.
  destruct (_setFileInfo self row) as [[[]|e] self1]; [|done]. cbn [fst snd] in *.
  apply IH; [congruence|done..].
Qed.

(** X17: without the recursive mode the result of [createIndex] does not
    depend on what the members contain: two scans that agree on the headers
    of the members and on the positions of the file object give the same
    index and leave the file object in the same state. *)
Theorem plain_index_ignores_contained_archives
        disk kind self fileObject pathPrefix streamOffset members members' tell_end :
  mountRecursively self = false ->
  map tarfile.info members = map tarfile.info members' ->
  map tarfile.tell members = map tarfile.tell members' ->
  createIndex (tarfile.Tar members tell_end) disk kind self fileObject pathPrefix streamOffset
  = createIndex (tarfile.Tar members' tell_end) disk kind self fileObject pathPrefix streamOffset.
Proof.
  intros Hrec Hinfo Htell. rewrite !createIndex_Tar.
  pose proof (mountRecursively_createIndex_open disk self) as Hrec1.
  destruct (createIndex_open disk self) as [[opened|e] self1]; [|done].
  cbn [snd] in Hrec1.
  by rewrite (scan_members_plain _ _ _ _ _ members members') by congruence.
Qed.

(** The archive with [inner.tar] and [notes.tar], indexed without the
    recursive mode. *)
Lemma plain_index_ignores_contained_archives_witness :
  createIndex Samples.nested_scan ∅ PlainFile (Samples.fresh false)
              (mkFileObj Samples.nested_data 0) "" 0
  = createIndex (tarfile.Tar [tarfile.mkMember Samples.inner_tar 512 tarfile.NotATar;
                              tarfile.mkMember Samples.notes_tar 3072 tarfile.NotATar] 5120)
                ∅ PlainFile (Samples.fresh false) (mkFileObj Samples.nested_data 0) "" 0.
Proof.
  apply (plain_index_ignores_contained_archives
           ∅ PlainFile (Samples.fresh false) (mkFileObj Samples.nested_data 0) "" 0);
    reflexivity.
Defined.

(** The table of the files after the loop over the members, without the
    recursive mode: every member has put its row there, in turn. *)
Lemma scan_members_rows disk kind pathPrefix streamOffset tell_end members :
  forall self fileObject self' fileObject' db (rows : gmap (string * string) Sql.FileRow),
    mountRecursively self = false ->
    sqlConnection self = Some db -> Sql.files db = Some rows ->
    scan_members disk kind pathPrefix streamOffset tell_end members self fileObject
    = (Ok tt, (self', fileObject')) ->
    exists db',
      sqlConnection self' = Some db'
      /\ Sql.filestmp db' = Sql.filestmp db
      /\ Sql.files db'
         = Some (fold_left (fun t m =>
                              match plain_row pathPrefix streamOffset (tarfile.info m) with
                              | Some row => Sql.insert_or_replace row t
                              | None => t
                              end) members rows)
      /\ Forall (fun m => is_Some (plain_row pathPrefix streamOffset (tarfile.info m)))
                members.
Proof.
  induction members as [|[tarInfo tell inner] members IH];
    intros self fileObject self' fileObject' db rows Hrec Hconn Hrows.
  { cbn [scan_members fold_left]. intros [= <- _]. by exists db. }
  cbn [scan_members fold_left tarfile.info]. rewrite index_member_plain by done.
  destruct (plain_row _ _ _) as [row|] eqn:Hrow; [|done].
  pose proof (mountRecursively_setFileInfo self row) as Hrec'.
  pose proof (kept_setFileInfo self row) as Hkept.
  assert (Hfiles : sqlConnection (snd (_setFileInfo self row)) ≫= Sql.files
                   = Some (Sql.insert_or_replace row rows)).
  { unfold _setFileInfo. rewrite Hconn, Hrows. by rewrite tables_of_tryAddParentFolders. }
  destruct (_setFileInfo self row) as [[[]|e] self1]; [|done]. cbn [fst snd] in *.
  destruct (sqlConnection self1) as [db1|] eqn:Hconn1; [|done].
  rewrite Hconn in Hkept. injection Hkept as Htmp _ _ _. simpl in Hfiles.
  intros Hscan.
  destruct (IH self1 _ self' fileObject' db1 _ ltac:(congruence) Hconn1 Hfiles Hscan)
    as (db' & Hconn' & Htmp' & Hfiles' & Hall).
  exists db'. split_and!; [done|congruence|done|].
  constructor; [|done]. cbn [tarfile.info]. by rewrite Hrow.
Qed.

Lemma scan_members_plain_outcome disk kind pathPrefix streamOffset tell_end members :
  forall self fileObject,
    mountRecursively self = false ->
    fst (scan_members disk kind pathPrefix streamOffset tell_end members self fileObject)
    <> Raise ReadError.
Proof.
  induction members as [|[tarInfo tell inner] members IH]; intros self fileObject Hrec; [done|].
  cbn [scan_members]. rewrite index_member_plain by done.
  destruct (plain_row _ _ _) as [row|]; [|done].
  pose proof (mountRecursively_setFileInfo self row) as Hrec'.
  assert (He : fst (_setFileInfo self row) <> Raise ReadError).
  { unfold _setFileInfo, _tryAddParentFolders, Sql.error. by repeat case_match. }
  destruct (_setFileInfo self row) as [[[]|e] self1]; cbn [fst snd] in *; [|done].
  apply IH. congruence.
Qed.

(** In a table filled row by row, a key holds the last row put there. *)
Lemma fold_rows_lookup pathPrefix streamOffset (after : list tarfile.Member) row :
  forall rows : gmap (string * string) Sql.FileRow,
    rows !! Sql.key row = Some row ->
    (forall m row', m ∈ after ->
                    plain_row pathPrefix streamOffset (tarfile.info m) = Some row' ->
                    Sql.key row' <> Sql.key row) ->
    fold_left (fun t m =>
                 match plain_row pathPrefix streamOffset (tarfile.info m) with
                 | Some row => Sql.insert_or_replace row t
                 | None => t
                 end) after rows !! Sql.key row = Some row.
Proof.
  induction after as [|m after IH]; intros rows Hrow Hother; [done|].
  cbn [fold_left]. apply IH.
  - destruct (plain_row _ _ _) as [row'|] eqn:Hm; [|done].
    unfold Sql.insert_or_replace. rewrite lookup_insert_ne; [done|].
    apply (Hother m row'); [left|done].
  - intros m' row' Hin. apply Hother. by right.
Qed.

(** The row of a member in the table of the files after the scan. *)
Lemma indexed_member_row
        disk kind self fileObject pathPrefix streamOffset before tarInfo tell inner after
        tell_end self' fileObject' :
  mountRecursively self = false ->
  createIndex (tarfile.Tar (before ++ tarfile.mkMember tarInfo tell inner :: after) tell_end)
              disk kind self fileObject pathPrefix streamOffset
  = (Ok tt, (self', fileObject')) ->
  (forall m, m ∈ after ->
             member_fullPath pathPrefix (tarfile.info m) <> member_fullPath pathPrefix tarInfo) ->
  let fullPath := member_fullPath pathPrefix tarInfo in
  exists path name db (rows : gmap (string * string) Sql.FileRow),
    let row := member_row path name streamOffset tarInfo (member_mode tarInfo) false in
    PyStr.rsplit1 fullPath = Some (path, name)
    /\ sqlConnection self' = Some db /\ Sql.files db = Some rows
    /\ rows !! (path, name) = Some row.
Proof.
  intros Hrec Hcreate Hlast fullPath. rewrite createIndex_Tar in Hcreate.
  pose proof (mountRecursively_createIndex_open disk self) as Hrec1.
  assert (Hopen : forall opened self1,
            createIndex_open disk self = (Ok opened, self1) ->
            exists db1 rows1,
              sqlConnection self1 = Some db1 /\ Sql.files db1 = Some rows1
              /\ (opened = true -> Sql.filestmp db1 = Some [])).
  { intros opened self1. unfold createIndex_open, indexIsLoaded.
    destruct (sqlConnection self) as [db0|] eqn:E.
    - destruct (Sql.files db0) as [rows0|] eqn:Hf; [intros [= <- <-]; by exists db0, rows0|].
      destruct (Sql.is_database db0); [|done].
      unfold _openSqlDb. destruct (Sql.is_database _); [|done].
      cbn [sqlConnection set_sqlConnection].
      destruct (already_has_table _); [done|]. intros [= <- <-].
      by eexists _, ∅.
    - unfold _openSqlDb. destruct (Sql.is_database _); [|done].
      cbn [sqlConnection set_sqlConnection].
      destruct (already_has_table _); [done|]. intros [= <- <-].
      by eexists _, ∅. }
  destruct (createIndex_open disk self) as [[opened|e] self1]; [|done].
  cbn [snd] in Hrec1. assert (Hrec1' : mountRecursively self1 = false) by congruence.
  destruct (Hopen opened self1 eq_refl) as (db1 & rows1 & Hconn1 & Hrows1 & Htmp1).
  pose proof (scan_members_plain_outcome
                disk kind pathPrefix streamOffset tell_end
                (before ++ tarfile.mkMember tarInfo tell inner :: after)
                self1 fileObject Hrec1') as Hne.
  destruct (scan_members _ _ _ _ _ _ _ _) as [r2 [self2 fo2]] eqn:Hscan.
  cbn [fst] in Hne.
  assert (r2 = Ok tt) as ->.
  { destruct r2 as [[]|e]; [done|]. by destruct e. }
  destruct (scan_members_rows _ _ _ _ _ _ _ _ _ _ _ _ Hrec1' Hconn1 Hrows1 Hscan)
    as (db2 & Hconn2 & Htmp2 & Hrows2 & Hall).
  apply Forall_app in Hall as [_ Hall]. apply Forall_inv in Hall as [row Hrow].
  cbn [tarfile.info] in Hrow. pose proof Hrow as Hsplit. unfold plain_row in Hsplit.
  destruct (PyStr.rsplit1 (member_fullPath pathPrefix tarInfo)) as [[path name]|] eqn:Hpn;
    [|done].
  injection Hsplit as Hsplit.
  rewrite fold_left_app in Hrows2. cbn [fold_left tarfile.info] in Hrows2.
  rewrite Hrow in Hrows2.
  set (rows2 := fold_left _ after _) in Hrows2.
  assert (Hlook : rows2 !! (path, name) = Some row).
  { change (path, name) with (Sql.key (member_row path name streamOffset tarInfo
                                                  (member_mode tarInfo) false)).
    rewrite Hsplit. apply fold_rows_lookup.
    - apply lookup_insert_eq.
    - intros m row' Hin Hrow' Hkey. apply (Hlast m Hin).
      unfold plain_row in Hrow'.
      destruct (PyStr.rsplit1 (member_fullPath pathPrefix (tarfile.info m)))
        as [[path' name']|] eqn:Hpn'; [|done].
      injection Hrow' as <-. rewrite <- Hsplit in Hkey. injection Hkey as -> ->.
      by rewrite (rsplit1_spec _ _ _ Hpn'), (rsplit1_spec _ _ _ Hpn). }
  assert (Hfinal : exists db (rows : gmap (string * string) Sql.FileRow),
             sqlConnection self' = Some db /\ Sql.files db = Some rows
             /\ rows !! (path, name) = Some row).
  { unfold finish_index in Hcreate. rewrite Hconn2 in Hcreate.
    destruct opened.
    - destruct (cleanupDatabase db2) as [db3|] eqn:Hclean; [|done].
      injection Hcreate as <- _.
      assert (Hpf : exists pf, Sql.parentfolders db2 = Some pf).
      { unfold cleanupDatabase in Hclean. rewrite Hrows2 in Hclean.
        destruct (Sql.filestmp db2); [|done].
        destruct (Sql.parentfolders db2); [by eexists|done]. }
      destruct Hpf as [pf Hpf].
      destruct (cleanupDatabase_lookup db2 db3 rows2 [] pf Hrows2
                  ltac:(rewrite Htmp2; by apply Htmp1) Hpf Hclean)
        as (rows3 & Hrows3 & _ & _ & Hl).
      exists (add_versions kind db3), rows3.
      split_and!; [done|by rewrite files_add_versions|].
      rewrite Hl. cbn [fold_left]. by rewrite Hlook.
    - injection Hcreate as <- _. exists (add_versions kind db2), rows2.
      split_and!; [done|by rewrite files_add_versions|done]. }
  destruct Hfinal as (db & rows & Hconn & Hrows & Hfound).
  exists path, name, db, rows. cbv zeta. rewrite Hsplit. by split_and!.
Qed.



End PlainScan.

(** ** Members with ordinary names *)

Section PlainNames.
Import SQLiteIndexedTar.

Lemma append_String a (s t : string) : String a s +:+ t = String a (s +:+ t).
Proof. reflexivity. Qed.

Lemma append_empty (t : string) : "" +:+ t = t.
Proof. reflexivity. Qed.

(** A name without a slash that is not empty starts with another
    character and goes on without a slash. *)
Lemma split_single c :
  PyStr.split c = [c] -> c <> "" ->
  exists a c', c = String a c' /\ PyStr.is_sep a = false /\ PyStr.split c' = [c'].
Proof.
  destruct c as [|a c']; [done|]. intros H _. exists a, c'. split; [done|].
  rewrite split_String in H. destruct (PyStr.is_sep a).
  - destruct (split_cons c') as (x & rest & Hx). by rewrite Hx in H.
  - split; [done|]. destruct (split_cons c') as (h & t & Hx). rewrite Hx in H |- *.
    by injection H as -> ->.
Qed.

Lemma split_before_slash c : forall s,
  PyStr.split c = [c] -> PyStr.split (c +:+ "/" +:+ s) = c :: PyStr.split s.
Proof.
  induction c as [|a c IH]; intros s H; [done|].
  destruct (split_single _ H) as (a' & c' & [= <- <-] & Ha & Hc); [done|].
  rewrite append_String, split_String, Ha, (IH s Hc). done.
Qed.

Lemma split_join (comps : list string) :
  comps <> [] -> Forall (fun c => PyStr.split c = [c]) comps ->
  PyStr.split (PyStr.join comps) = comps.
Proof.
  induction comps as [|c [|d rest] IH]; intros Hne Hall; [done|..].
  - by apply Forall_inv in Hall.
  - rewrite join_cons_cons, split_before_slash by by apply Forall_inv in Hall.
    f_equal. apply IH; [done|by apply Forall_inv_tail in Hall].
Qed.

(** Names that [normpath] keeps as they are. *)
Lemma normpath_steps n (comps : list string) : forall acc,
  Forall (fun c => c <> "" /\ c <> "." /\ c <> "..") comps ->
  fold_left (PyStr.normpath_step n) comps acc = acc ++ comps.
Proof.
  induction comps as [|c comps IH]; intros acc Hall; [by rewrite app_nil_r|].
  pose proof (Forall_inv Hall) as (H1 & H2 & H3).
  cbn [fold_left]. rewrite IH by by apply Forall_inv_tail in Hall.
  unfold PyStr.normpath_step.
  destruct (String.eqb_spec c ""); [done|]. destruct (String.eqb_spec c "."); [done|].
  destruct (String.eqb_spec c ".."); [done|]. cbn [orb negb].
  by rewrite <- app_assoc.
Qed.

Lemma plain_path (comps : list string) :
  comps <> [] ->
  Forall (fun c => c <> "" /\ c <> "." /\ c <> ".." /\ PyStr.split c = [c]) comps ->
  PyStr.lstrip (PyStr.normpath (PyStr.join comps)) = PyStr.join comps
  /\ "/" +:+ PyStr.lstrip (PyStr.normpath ("/" +:+ PyStr.join comps))
     = "/" +:+ PyStr.join comps.
Proof.
  intros Hne Hall.
  assert (Hsplit : PyStr.split (PyStr.join comps) = comps).
  { apply split_join; [done|]. eapply Forall_impl; [exact Hall|]. by intros c (_ & _ & _ & ?). }
  assert (Hsteps : forall n acc, fold_left (PyStr.normpath_step n) comps acc = acc ++ comps).
  { intros n acc. apply normpath_steps. eapply Forall_impl; [exact Hall|].
    by intros c (? & ? & ? & _). }
  assert (Hhead : exists a rest, PyStr.join comps = String a rest /\ PyStr.is_sep a = false).
  { destruct comps as [|c rest]; [done|].
    pose proof (Forall_inv Hall) as (Hc & _ & _ & Hs).
    destruct (split_single c Hs Hc) as (a & c' & -> & Ha & _).
    destruct rest as [|d rest].
    - by exists a, c'.
    - rewrite join_cons_cons, append_String. by eexists _, _. }
  destruct Hhead as (a & rest & Hname & Ha).
  assert (Hslash : a <> "/"%char).
  { intros ->. by vm_compute in Ha. }
  split.
  - unfold PyStr.normpath. rewrite Hsplit, Hsteps, Hname. cbn [String.eqb String.prefix].
    destruct (ascii_dec "/" a) as [E|_]; [by destruct Hslash|].
    cbn [app]. rewrite <- Hname. change (PyStr.join (replicate 1 "")) with "".
    rewrite append_empty, Hname. cbn [String.eqb PyStr.lstrip]. by rewrite Ha.
  - unfold PyStr.normpath. rewrite Hname.
    change ("/" +:+ String a rest) with (String "/" (String a rest)).
    rewrite split_String. change (PyStr.is_sep "/") with true. cbv iota.
    rewrite <- Hname, Hsplit. cbn [fold_left].
    change (PyStr.normpath_step ?n [] "") with (@nil string).
    rewrite Hsteps. cbn [app]. rewrite Hname.
    cbn [String.eqb String.prefix].
    destruct (ascii_dec "/" "/") as [_|E]; [|done].
    destruct (ascii_dec "/" a) as [E|_]; [by destruct Hslash|].
    cbn [andb]. rewrite <- Hname. change (PyStr.join (replicate 2 "")) with "/".
    change ("/" +:+ PyStr.join comps) with (String "/" (PyStr.join comps)).
    cbn [String.eqb PyStr.lstrip]. change (PyStr.is_sep "/") with true. cbv iota.
    rewrite Hname. cbn [PyStr.lstrip]. by rewrite Ha.
Qed.

(** X19: a member whose name is made of ordinary components, neither
    empty nor [.] nor [..], joined by single slashes, is found by
    [getFileInfo] under a slash and this very name after [createIndex]
    without the recursive mode, with the offsets, the size, the times, the
    owner, the link name and the mode that the scan gave it, unless a later
    member has the same full path. *)
Theorem plain_name_is_found
        disk kind self fileObject streamOffset before tarInfo tell inner after
        tell_end self' fileObject' (comps : list string) :
  mountRecursively self = false ->
  createIndex (tarfile.Tar (before ++ tarfile.mkMember tarInfo tell inner :: after) tell_end)
              disk kind self fileObject "" streamOffset
  = (Ok tt, (self', fileObject')) ->
  tarfile.name tarInfo = PyStr.join comps ->
  comps <> [] ->
  Forall (fun c => c <> "" /\ c <> "." /\ c <> ".." /\ PyStr.split c = [c]) comps ->
  (forall m, m ∈ after ->
             member_fullPath "" (tarfile.info m) <> "/" +:+ tarfile.name tarInfo) ->
  getFileInfo self' ("/" +:+ tarfile.name tarInfo)
  = Ok (Some (mkFileInfo (streamOffset + tarfile.offset tarInfo)
                         (streamOffset + tarfile.offset_data tarInfo)
                         (tarfile.size tarInfo) (tarfile.mtime tarInfo)
                         (member_mode tarInfo) (Sql.TypeFlag (tarfile.type tarInfo))
                         (tarfile.linkname tarInfo) (tarfile.uid tarInfo)
                         (tarfile.gid tarInfo) false (tarfile.issparse tarInfo))).
Proof.
  intros Hrec Hcreate Hname Hne Hplain Hlast.
  destruct (plain_path comps Hne Hplain) as [Hrel Habs]. rewrite <- Hname in Hrel, Habs.
  assert (Hfull : member_fullPath "" tarInfo = "/" +:+ tarfile.name tarInfo).
  { unfold member_fullPath. by rewrite Hrel. }
  rewrite <- Hfull in Hlast.
  destruct (indexed_member_row _ _ _ _ _ _ _ _ _ _ _ _ _ _ Hrec Hcreate Hlast)
    as (path & name & db & rows & Hsplit & Hconn & Hrows & Hfound).
  unfold getFileInfo. rewrite Habs, <- Hfull, Hsplit, Hconn, Hrows, Hfound. done.
Qed.

(** The member [dir/b.txt] of the archive with [a.txt] and [dir/b.txt]. *)
Lemma plain_name_is_found_witness :
  getFileInfo (fst (snd Samples.plain_index)) "/dir/b.txt"
  = Ok (Some (mkFileInfo 1024 1536 3 0 33188 (Sql.TypeFlag tarfile.REGTYPE) "" 0 0
                         false false)).
Proof.
  apply (plain_name_is_found
           ∅ PlainFile (Samples.fresh false) (mkFileObj Samples.plain_data 0) 0
           [tarfile.mkMember Samples.a_txt 512 tarfile.NotATar]
           Samples.dir_b_txt 1536 tarfile.NotATar [] 2560
           (fst (snd Samples.plain_index)) (snd (snd Samples.plain_index))
           ["dir"; "b.txt"]).
  - reflexivity.
  - vm_compute. reflexivity.
  - reflexivity.
  - discriminate.
  - repeat constructor; discriminate.
  - by intros m ?%elem_of_nil.
Defined.

End PlainNames.

(** ** The file types that the scan records *)

Section ScannedTypes.
Import SQLiteIndexedTar.





End ScannedTypes.

(** ** What a read leaves alone *)

Section ReadFrame.
Import TarMount.

(** X21: [read] changes nothing but the file object of the archive: the
    index is the same afterwards, whatever the outcome, and so are the bytes
    of the archive as long as the extraction of a sparse member leaves the
    bytes of the file that it reads alone. *)
Theorem read_leaves_the_index_alone
        (extractfile : StenciledFile.t -> Z -> Z -> outcome bytes * StenciledFile.t)
        depth self path len off :
  indexedTar (snd (read extractfile depth self path len off)) = indexedTar self
  /\ ((forall f l o,
         f_data (StenciledFile.fileobj (snd (extractfile f l o)))
         = f_data (StenciledFile.fileobj f)) ->
      f_data (tarFile (snd (read extractfile depth self path len off)))
      = f_data (tarFile self)).
Proof.
  revert path. induction depth as [|depth IH]; intros path; [done|].
  rewrite read_S.
  destruct (SQLiteIndexedTar.getFileInfo (indexedTar self) path) as [[fileInfo|]|]; [|done..].
  destruct (is_hard_link fileInfo && negb (String.eqb (targetLink fileInfo) path));
    [apply IH|].
  destruct (SQLiteIndexedTar.issparse fileInfo).
  - unfold read_sparse.
    destruct (StenciledFile.__init__ _ _) as [tarSubFile|] eqn:Hinit; [|done].
    apply init_constructed in Hinit as (_ & _ & _ & Hdata).
    assert (Hex : (forall f l o,
                     f_data (StenciledFile.fileobj (snd (extractfile f l o)))
                     = f_data (StenciledFile.fileobj f)) ->
                  f_data (StenciledFile.fileobj (snd (extractfile tarSubFile len off)))
                  = f_data (tarFile self)).
    { intros H. by rewrite H. }
    destruct (extractfile tarSubFile len off) as [result tarSubFile'].
    split; [done|]. intros H. cbn [snd tarFile set_tarFile] in *. by apply Hex.
  - unfold fseek. destruct (_ <? 0); [done|]. by unfold fread.
Qed.

End ReadFrame.

(** ** The rows of a contained archive *)

Section ContainedArchives.
Import SQLiteIndexedTar.

(** The rows of [rows'] are the ones of [rows] except under keys that name
    something below [prefix]. *)
Local Abbreviation changed_below prefix rows rows' :=
  (forall k : string * string,
     rows' !! k = rows !! k
     \/ (is_Some (rows' !! k) /\ exists rest, k.1 +:+ "/" +:+ k.2 = prefix +:+ "/" +:+ rest)).

Lemma files_setFileInfo (rows : gmap (string * string) Sql.FileRow) self row self' :
  sqlConnection self ≫= Sql.files = Some rows ->
  _setFileInfo self row = (Ok tt, self') ->
  sqlConnection self' ≫= Sql.files = Some (<[Sql.key row := row]> rows).
Proof.
  intros Hrows Hset.
  assert (self' = snd (_setFileInfo self row)) as -> by by rewrite Hset.
  unfold _setFileInfo. destruct (sqlConnection self) as [db|]; [|done]. simpl in Hrows.
  rewrite Hrows. by rewrite tables_of_tryAddParentFolders.
Qed.

Lemma files_set_tarFileName self n :
  sqlConnection (set_tarFileName self n) ≫= Sql.files = sqlConnection self ≫= Sql.files.
Proof. done. Qed.

Lemma below_member pathPrefix tarInfo k rest :
  k.1 +:+ "/" +:+ k.2 = member_fullPath pathPrefix tarInfo +:+ "/" +:+ rest ->
  exists rest', k.1 +:+ "/" +:+ k.2 = pathPrefix +:+ "/" +:+ rest'.
Proof.
  intros ->. unfold member_fullPath. eexists. by rewrite !string_app_assoc.
Qed.

Lemma index_member_below (rows : gmap (string * string) Sql.FileRow)
      descend streamed self fileObject pathPrefix streamOffset tarInfo self' fileObject' :
  preserves_scanning descend ->
  (forall (rows : gmap (string * string) Sql.FileRow)
          self fileObject pathPrefix streamOffset r self' fileObject',
     scanning self -> rooted pathPrefix ->
     sqlConnection self ≫= Sql.files = Some rows ->
     descend self fileObject pathPrefix streamOffset = (r, (self', fileObject')) ->
     r = Ok tt \/ r = Raise ReadError ->
     exists rows', sqlConnection self' ≫= Sql.files = Some rows'
                   /\ changed_below pathPrefix rows rows') ->
  scanning self -> rooted pathPrefix ->
  sqlConnection self ≫= Sql.files = Some rows ->
  index_member descend streamed self fileObject pathPrefix streamOffset tarInfo
  = (Ok tt, (self', fileObject')) ->
  exists rows', sqlConnection self' ≫= Sql.files = Some rows'
                /\ changed_below pathPrefix rows rows'.
Proof.
  intros Hpres Hdesc Hs Hp Hrows. unfold index_member.
  assert (Hrec : forall mode isTar self1 fo1,
            recurse_into descend streamed self fileObject tarInfo
                         (member_mode tarInfo) (member_fullPath pathPrefix tarInfo)
                         (streamOffset + tarfile.offset_data tarInfo)
            = (Ok (mode, isTar), (self1, fo1)) ->
            exists rows1, sqlConnection self1 ≫= Sql.files = Some rows1
                          /\ changed_below pathPrefix rows rows1).
  { intros mode isTar self1 fo1. unfold recurse_into. destruct (_ && _).
    2: { intros [= _ _ <- _]. exists rows. split; [done|]. by left. }
    destruct (fseek fileObject _) as [[?|e] fo0]; [|done].
    destruct (descend _ _ _ _) as [r [self2 fo2]] eqn:Hd.
    assert (Hok : r = Ok tt \/ r = Raise ReadError ->
                  exists rows1, sqlConnection (set_tarFileName self2 (tarFileName self))
                                ≫= Sql.files = Some rows1
                                /\ changed_below pathPrefix rows rows1).
    { intros Hr.
      destruct (Hdesc rows _ _ _ _ _ _ _ (scanning_set_tarFileName _ _ Hs)
                      (rooted_fullPath _ _ Hp) Hrows Hd Hr) as (rows1 & Hrows1 & Hch).
      exists rows1. split; [done|]. intros k. destruct (Hch k) as [?|[? [rest Hk]]]; [by left|].
      right. split; [done|]. by apply (below_member _ tarInfo _ rest). }
    destruct r as [[]|e].
    - destruct (fseek fo2 _) as [[?|?] ?]; [|done]. intros [= _ _ <- _]. apply Hok. by left.
    - destruct e; try done.
      destruct (fseek fo2 _) as [[?|?] ?]; [|done]. intros [= _ _ <- _]. apply Hok. by right. }
  destruct (recurse_into _ _ _ _ _ _ _ _) as [[[mode isTar]|e] [self1 fo1]] eqn:Hri; [|done].
  destruct (Hrec mode isTar self1 fo1 eq_refl) as (rows1 & Hrows1 & Hch).
  destruct (PyStr.rsplit1 _) as [[path name]|] eqn:Hsplit; [|done].
  destruct (_setFileInfo self1 _) as [r2 self2] eqn:Hset. intros [= -> <- _].
  exists (<[(path, name) := member_row path name streamOffset tarInfo mode isTar]> rows1).
  split; [by apply (files_setFileInfo rows1 self1 _ self2 Hrows1) in Hset|].
  intros k. destruct (decide (k = (path, name))) as [->|Hk].
  - right. rewrite lookup_insert_eq. split; [by eexists|].
    cbn [fst snd]. rewrite <- (rsplit1_spec _ _ _ Hsplit). unfold member_fullPath. by eexists.
  - rewrite lookup_insert_ne by done. apply Hch.
Qed.

Lemma scanning_files self :
  scanning self -> exists rows, sqlConnection self ≫= Sql.files = Some rows.
Proof. intros (db & rows & pf & -> & Hrows & _). by exists rows. Qed.

Lemma scan_members_below disk kind pathPrefix streamOffset tell_end members :
  Forall (fun m =>
            forall (rows : gmap (string * string) Sql.FileRow)
                   self fileObject pathPrefix streamOffset r self' fileObject',
              scanning self -> rooted pathPrefix ->
              sqlConnection self ≫= Sql.files = Some rows ->
              createIndex (tarfile.inner m) disk kind self fileObject pathPrefix streamOffset
              = (r, (self', fileObject')) ->
              r = Ok tt \/ r = Raise ReadError ->
              exists rows', sqlConnection self' ≫= Sql.files = Some rows'
                            /\ changed_below pathPrefix rows rows') members ->
  forall (rows : gmap (string * string) Sql.FileRow) self fileObject self' fileObject',
    scanning self -> rooted pathPrefix ->
    sqlConnection self ≫= Sql.files = Some rows ->
    scan_members disk kind pathPrefix streamOffset tell_end members self fileObject
    = (Ok tt, (self', fileObject')) ->
    exists rows', sqlConnection self' ≫= Sql.files = Some rows'
                  /\ changed_below pathPrefix rows rows'.
Proof.
  induction 1 as [|[tarInfo tell inner] members Hm _ IH];
    intros rows self fileObject self' fileObject' Hs Hp Hrows.
  { cbn [scan_members]. intros [= <- _]. exists rows. split; [done|]. by left. }
  cbn [scan_members].
  destruct (index_member _ _ _ _ _ _ _) as [r1 [self1 fo1]] eqn:Him.
  destruct r1 as [[]|e]; [|done].
  destruct (index_member_below rows _ _ _ _ _ _ _ _ _
              (createIndex_preserves_scanning disk kind inner) Hm Hs Hp Hrows Him)
    as (rows1 & Hrows1 & Hch1).
  eapply index_member_scanning in Him as [_ Hs1];
    [|apply createIndex_preserves_scanning|done..].
  intros Hscan.
  destruct (IH rows1 self1 fo1 self' fileObject' (Hs1 eq_refl) Hp Hrows1 Hscan)
    as (rows2 & Hrows2 & Hch2).
  exists rows2. split; [done|]. intros k.
  destruct (Hch2 k) as [Heq|?]; [|by right]. rewrite Heq.
  destruct (Hch1 k) as [?|[? ?]]; [by left|]. right. by rewrite <- Heq in *.
Qed.

(** X22: a descent into a contained TAR, which is a call of [createIndex]
    in the middle of a scan, only writes rows below the path that it is
    given as prefix: every row of the table of the files that is not as
    before has a path and a name that join to this prefix, a slash and
    something else.  This holds too when the member is no TAR and the call
    raises [ReadError]. *)
Theorem descent_writes_below_the_prefix scan :
  forall (rows : gmap (string * string) Sql.FileRow)
         disk kind self fileObject pathPrefix streamOffset r self' fileObject',
    scanning self -> rooted pathPrefix ->
    sqlConnection self ≫= Sql.files = Some rows ->
    createIndex scan disk kind self fileObject pathPrefix streamOffset
    = (r, (self', fileObject')) ->
    r = Ok tt \/ r = Raise ReadError ->
    exists rows',
      sqlConnection self' ≫= Sql.files = Some rows'
      /\ forall k : string * string,
           rows' !! k = rows !! k
           \/ (is_Some (rows' !! k)
               /\ exists rest, k.1 +:+ "/" +:+ k.2 = pathPrefix +:+ "/" +:+ rest).
Proof.
  induction scan as [|members tell_end IH] using Scan_nested_ind;
    intros rows disk kind self fileObject pathPrefix streamOffset r self' fileObject'
           Hs Hp Hrows.
  - rewrite createIndex_NotATar, createIndex_open_scanning by done.
    intros [= <- <- _] _. exists rows. split; [done|]. by left.
  - rewrite createIndex_Tar, createIndex_open_scanning by done.
    destruct (scan_members _ _ _ _ _ _ _ _) as [r1 [self1 fo1]] eqn:Hsm.
    pose proof Hsm as Hsm'.
    eapply scan_members_scanning in Hsm' as [Hne Hs1]; [|by apply Forall_forall; intros;
      apply createIndex_preserves_scanning|done..].
    destruct r1 as [[]|e].
    + destruct (scan_members_below disk kind pathPrefix streamOffset tell_end members
                  ltac:(eapply Forall_impl; [exact IH|]; intros m Hm; intros; by eapply Hm)
                  rows self fileObject self1 fo1 Hs Hp Hrows Hsm) as (rows1 & Hrows1 & Hch).
      destruct (finish_index_scanning kind self1 (Hs1 eq_refl)) as (self2 & Hfin & _).
      rewrite Hfin. intros [= <- <- _] _. exists rows1. split; [|done].
      destruct (Hs1 eq_refl) as (db & rows0 & pf & Hdb & Hrows0 & _).
      unfold finish_index in Hfin. rewrite Hdb in Hfin.
      rewrite add_versions_database in Hfin by by eapply files_database.
      injection Hfin as <-. cbn [sqlConnection set_sqlConnection].
      by rewrite Hdb in Hrows1.
    + destruct e; try done; intros [= <- _ _] [?|?]; done.
Qed.

(** The descent into [inner.tar], at the start of a scan. *)
Lemma descent_writes_below_the_prefix_witness :
  let self := snd (createIndex_open ∅ (Samples.fresh true)) in
  let result := createIndex Samples.inner_scan ∅ PlainFile self
                            (mkFileObj Samples.nested_data 512) "/inner.tar" 0 in
  exists rows',
    sqlConnection (fst (snd result)) ≫= Sql.files = Some rows'
    /\ forall k : string * string,
         rows' !! k = (∅ : gmap (string * string) Sql.FileRow) !! k
         \/ (is_Some (rows' !! k)
             /\ exists rest, k.1 +:+ "/" +:+ k.2 = "/inner.tar" +:+ "/" +:+ rest).
Proof.
  intros self result.
  apply (descent_writes_below_the_prefix
           Samples.inner_scan ∅ ∅ PlainFile self (mkFileObj Samples.nested_data 512)
           "/inner.tar" 0 (Ok tt) (fst (snd result)) (snd (snd result))).
  - apply (scanning_pending_intro "" self (createTables Sql.empty) ∅ ∅); try reflexivity.
    + by intros k ?%elem_of_nil.
    + by intros k ?%not_elem_of_empty.
    + intros k r Hk. by rewrite lookup_empty in Hk.
  - right. by exists "inner.tar".
  - reflexivity.
  - vm_compute. reflexivity.
  - by left.
Defined.

End ContainedArchives.
